(** * EzCensor: the redaction pipeline, embedded from the Python sources

    The development follows the source tree:
    - [src/services/ollama_service.py]  (analysis and redaction suggestions),
    - [src/processors/base_processor.py] (temporary files, [ProcessingResult]),
    - [src/processors/txt_processor.py], [pdf_processor.py],
      [image_processor.py] (extraction, redaction and the per-medium
      [process_file] workflow).

    Python objects are embedded as a small value type, exceptions as an
    error monad, the file system and the requests sent to the language
    model as an explicit world that is threaded through the code. *)

From Stdlib Require Import String Ascii List ZArith NArith QArith Bool Lia.
From stdpp Require Import base gmap list strings pretty.

Set Warnings "-register-all".
Local Open Scope N_scope.
Local Open Scope list_scope.

(** ** Python strings

    A Python [str] is a sequence of Unicode code points. *)

Definition pystr := list N.

(** ASCII literals of the source text. *)
Definition py (s : string) : pystr := List.map N_of_ascii (list_ascii_of_string s).
Arguments py : simpl never.

Fixpoint pystr_eqb (a b : pystr) : bool :=
  match a, b with
  | [], [] => true
  | x :: a', y :: b' => N.eqb x y && pystr_eqb a' b'
  | _, _ => false
  end.

Definition is_ascii (s : pystr) : bool := forallb (fun c => c <? 128) s.

Definition ascii_lower_cp (c : N) : N :=
  if (65 <=? c) && (c <=? 90) then c + 32 else c.

Definition ascii_upper_cp (c : N) : N :=
  if (97 <=? c) && (c <=? 122) then c - 32 else c.

(** [str.isspace] code points: the characters [str.strip()] removes. *)
Definition is_space (c : N) : bool :=
  ((9 <=? c) && (c <=? 13)) || ((28 <=? c) && (c <=? 32))
  || (c =? 133) || (c =? 160) || (c =? 5760)
  || ((8192 <=? c) && (c <=? 8202))
  || (c =? 8232) || (c =? 8233) || (c =? 8239) || (c =? 8287) || (c =? 12288).

Definition printable (c : N) : bool := negb (is_space c).

Fixpoint lstrip (s : pystr) : pystr :=
  match s with
  | c :: s' => if is_space c then lstrip s' else s
  | [] => []
  end.

Definition rstrip (s : pystr) : pystr := rev (lstrip (rev s)).

(** [s.strip()] *)
Definition strip (s : pystr) : pystr := rstrip (lstrip s).

Fixpoint starts_with (p s : pystr) : bool :=
  match p, s with
  | [], _ => true
  | x :: p', y :: s' => N.eqb x y && starts_with p' s'
  | _ :: _, [] => false
  end.

(** [needle in s] for strings. *)
Fixpoint contains (needle s : pystr) : bool :=
  starts_with needle s ||
  match s with
  | [] => false
  | _ :: s' => contains needle s'
  end.

(** [s.replace(old, new)] for a non-empty [old]: the occurrences are
    found left to right and do not overlap.  [skip] counts the characters
    of a match that are still to be dropped. *)
Fixpoint replace_from (old new : pystr) (skip : nat) (s : pystr) : pystr :=
  match s with
  | [] => []
  | c :: s' =>
      match skip with
      | S k => replace_from old new k s'
      | O =>
          if starts_with old s
          then new ++ replace_from old new (Nat.pred (length old)) s'
          else c :: replace_from old new O s'
      end
  end.

(** [s.replace(old, new)]; an empty [old] matches before every character
    and at the end. *)
Definition replace (s old new : pystr) : pystr :=
  match old with
  | [] => new ++ flat_map (fun c => c :: new) s
  | _ :: _ => replace_from old new O s
  end.

(** ** Python numbers

    A finite [float] is a rational; comparisons between finite floats and
    integers are exact in Python, so they are the comparisons of [Q]. *)

Inductive pyfloat :=
| Finite (q : Q)
| PosInf
| NegInf
| NaN.

(** [x >= t] *)
Definition float_ge (x t : pyfloat) : bool :=
  match x, t with
  | NaN, _ => false
  | _, NaN => false
  | _, NegInf => true
  | PosInf, _ => true
  | NegInf, _ => false
  | Finite _, PosInf => false
  | Finite a, Finite b => Qle_bool b a
  end.

(** [x <= y] *)
Definition float_le (x y : pyfloat) : bool := float_ge y x.

(** [x > t] *)
Definition float_gt (x t : pyfloat) : bool :=
  match x, t with
  | NaN, _ => false
  | _, NaN => false
  | NegInf, _ => false
  | _, PosInf => false
  | PosInf, _ => true
  | Finite _, NegInf => true
  | Finite a, Finite b => negb (Qle_bool a b)
  end.

(** ** Python values, as [json.loads] builds them

    A [dict] is kept as its list of items in insertion order; a lookup
    takes the first item with the key. *)

Inductive pyval :=
| VNone
| VBool (b : bool)
| VInt (z : Z)
| VFloat (x : pyfloat)
| VStr (s : pystr)
| VList (l : list pyval)
| VDict (items : list (pystr * pyval)).

Definition type_name (v : pyval) : pystr :=
  match v with
  | VNone => py "NoneType"
  | VBool _ => py "bool"
  | VInt _ => py "int"
  | VFloat _ => py "float"
  | VStr _ => py "str"
  | VList _ => py "list"
  | VDict _ => py "dict"
  end.

(** Truth value of an object, as [if v:] and [not v] take it. *)
Definition truthy (v : pyval) : bool :=
  match v with
  | VNone => false
  | VBool b => b
  | VInt z => negb (Z.eqb z 0)
  | VFloat (Finite q) => negb (Qeq_bool q 0)
  | VFloat _ => true
  | VStr s => match s with [] => false | _ => true end
  | VList l => match l with [] => false | _ => true end
  | VDict d => match d with [] => false | _ => true end
  end.

(** ** Exceptions

    Only subclasses of [Exception] occur; [OSError] stands for the
    subclasses of [OSError] that are not listed, [LibraryError] for the
    exception classes of the third-party libraries.  [JSONDecodeError] is a
    subclass of [ValueError]: an [except json.JSONDecodeError] clause does not
    catch a plain [ValueError]. *)

Inductive exn_class :=
| AttributeError | KeyError | TypeError | ValueError
| UnicodeDecodeError | UnicodeEncodeError | JSONDecodeError
| RecursionError
| ImportError | FileNotFoundError | FileExistsError | OSError
| LibraryError | PlainException.

Record exn := Exn { exn_kind : exn_class; exn_str : pystr }.

Inductive result (A : Type) :=
| Ok (a : A)
| Raise (e : exn).
Arguments Ok {A} a.
Arguments Raise {A} e.

#[global] Instance result_ret : MRet result := fun A a => Ok a.
#[global] Instance result_bind : MBind result := fun A B f m =>
  match m with
  | Ok a => f a
  | Raise e => Raise e
  end.

#[global] Instance result_fmap : FMap result := fun A B f m =>
  match m with
  | Ok a => Ok (f a)
  | Raise e => Raise e
  end.

Definition is_ok {A} (r : result A) : bool :=
  match r with Ok _ => true | Raise _ => false end.

(** [repr(s)] for a string of printable characters without quotes and
    backslashes, as the messages of the exceptions show a key, a type or a
    path. *)
Definition quoted (s : pystr) : pystr := py "'" ++ s ++ py "'".

Fixpoint assoc {V} (k : pystr) (items : list (pystr * V)) : option V :=
  match items with
  | [] => None
  | (k', v) :: rest => if pystr_eqb k k' then Some v else assoc k rest
  end.

Definition no_attribute (v : pyval) (name : string) : exn :=
  Exn AttributeError
      (quoted (type_name v) ++ py " object has no attribute " ++ quoted (py name)).

(** [obj.get(key, default)] *)
Definition py_get (obj : pyval) (key : pystr) (default : pyval) : result pyval :=
  match obj with
  | VDict items => Ok (match assoc key items with Some v => v | None => default end)
  | _ => Raise (no_attribute obj "get")
  end.

(** [obj[key]] for a string key *)
Definition py_getitem (obj : pyval) (key : pystr) : result pyval :=
  match obj with
  | VDict items =>
      match assoc key items with
      | Some v => Ok v
      | None => Raise (Exn KeyError (quoted key))
      end
  | VStr _ => Raise (Exn TypeError (py "string indices must be integers, not 'str'"))
  | VList _ => Raise (Exn TypeError (py "list indices must be integers or slices, not str"))
  | _ => Raise (Exn TypeError (quoted (type_name obj) ++ py " object is not subscriptable"))
  end.

(** The items a [for] loop over [obj] visits. *)
Definition py_iter (obj : pyval) : result (list pyval) :=
  match obj with
  | VList l => Ok l
  | VStr s => Ok (List.map (fun c => VStr [c]) s)
  | VDict items => Ok (List.map (fun kv => VStr (fst kv)) items)
  | _ => Raise (Exn TypeError (quoted (type_name obj) ++ py " object is not iterable"))
  end.

(** The number an object stands for in a comparison with a [float]. *)
Definition as_float (v : pyval) : option pyfloat :=
  match v with
  | VBool b => Some (Finite (if b then 1 else 0)%Q)
  | VInt z => Some (Finite (inject_Z z))
  | VFloat x => Some x
  | _ => None
  end.

(** [v >= t] for a [float] t *)
Definition py_ge (v : pyval) (t : pyfloat) : result bool :=
  match as_float v with
  | Some x => Ok (float_ge x t)
  | None =>
      Raise (Exn TypeError
        (py "'>=' not supported between instances of " ++ quoted (type_name v)
         ++ py " and 'float'"))
  end.

(** [len(obj)] *)
Definition py_len (obj : pyval) : result nat :=
  match obj with
  | VStr s => Ok (length s)
  | VList l => Ok (length l)
  | VDict items => Ok (length items)
  | _ => Raise (Exn TypeError (py "object of type " ++ quoted (type_name obj) ++ py " has no len()"))
  end.

(** [s.replace(old, new)] on arbitrary arguments *)
Definition py_replace (s : pystr) (old new : pyval) : result pystr :=
  match old, new with
  | VStr o, VStr n => Ok (replace s o n)
  | VStr _, _ =>
      Raise (Exn TypeError (py "replace() argument 2 must be str, not " ++ type_name new))
  | _, _ =>
      Raise (Exn TypeError (py "replace() argument 1 must be str, not " ++ type_name old))
  end.

(** [obj.strip()] *)
Definition py_strip (obj : pyval) : result pystr :=
  match obj with
  | VStr s => Ok (strip s)
  | _ => Raise (no_attribute obj "strip")
  end.

(** ** The world the pipeline runs in

    The platform is POSIX: the path separator is [/] and text files are
    written with [\n] line ends.  The file system is a finite map from
    the paths of the regular files to their contents; directories and
    permissions are not in the map.  A path the program is handed can
    always be written.  Where the program makes a path of its own
    ([create_temp_file]), [create_error] is the exception with which the
    system refuses to create the path for a reason the map does not show: a
    directory that is missing or in the way, a name that is too long or
    cannot be encoded, a missing permission.  [temp_names] are the random
    file names [tempfile] is going to draw, as many as it tries;
    [chat_requests] are the prompts the language model has been sent. *)

Record world := World {
  files : gmap pystr (list Byte.byte);
  cwd : pystr;
  temp_names : list pystr;
  chat_requests : list pystr;
  create_error : pystr -> option exn
}.

(** The world after one request to the model. *)
Definition after_chat (content : pystr) (w : world) : world :=
  {| files := files w; cwd := cwd w; temp_names := temp_names w;
     chat_requests := chat_requests w ++ [content];
     create_error := create_error w |}.

Definition set_files (f : gmap pystr (list Byte.byte)) (w : world) : world :=
  {| files := f; cwd := cwd w; temp_names := temp_names w;
     chat_requests := chat_requests w; create_error := create_error w |}.

(** Code with effects: it may change the world and may raise. *)
Definition M (A : Type) : Type := world -> result A * world.

#[global] Instance M_ret : MRet M := fun A a w => (Ok a, w).
#[global] Instance M_bind : MBind M := fun A B f m w =>
  match m w with
  | (Ok a, w') => f a w'
  | (Raise e, w') => (Raise e, w')
  end.

Definition lift {A} (r : result A) : M A := fun w => (r, w).
Definition raise {A} (e : exn) : M A := fun w => (Raise e, w).

(** [try: body  except Exception as e: handler e] *)
Definition try_except {A} (body : M A) (handler : exn -> M A) : M A :=
  fun w =>
    match body w with
    | (Ok a, w') => (Ok a, w')
    | (Raise e, w') => handler e w'
    end.

(** *** Text encodings *)

Inductive encoding := UTF8 | Latin1.

Definition is_cont (b : N) : bool := (128 <=? b) && (b <=? 191).

(** Strict UTF-8: no overlong forms, no surrogates, nothing above
    U+10FFFF. *)
Fixpoint utf8_decode (bs : list N) : option pystr :=
  match bs with
  | [] => Some []
  | b0 :: r0 =>
      if b0 <? 128 then cons b0 <$> utf8_decode r0
      else if (194 <=? b0) && (b0 <=? 223) then
        match r0 with
        | b1 :: r1 =>
            if is_cont b1
            then cons ((b0 - 192) * 64 + (b1 - 128)) <$> utf8_decode r1
            else None
        | _ => None
        end
      else if (224 <=? b0) && (b0 <=? 239) then
        match r0 with
        | b1 :: b2 :: r2 =>
            if ((if b0 =? 224 then 160 else 128) <=? b1)
               && (b1 <=? (if b0 =? 237 then 159 else 191))
               && is_cont b2
            then cons ((b0 - 224) * 4096 + (b1 - 128) * 64 + (b2 - 128))
                   <$> utf8_decode r2
            else None
        | _ => None
        end
      else if (240 <=? b0) && (b0 <=? 244) then
        match r0 with
        | b1 :: b2 :: b3 :: r3 =>
            if ((if b0 =? 240 then 144 else 128) <=? b1)
               && (b1 <=? (if b0 =? 244 then 143 else 191))
               && is_cont b2 && is_cont b3
            then cons ((b0 - 240) * 262144 + (b1 - 128) * 4096
                       + (b2 - 128) * 64 + (b3 - 128))
                   <$> utf8_decode r3
            else None
        | _ => None
        end
      else None
  end.

Definition utf8_encode_cp (c : N) : option (list N) :=
  if c <? 128 then Some [c]
  else if c <? 2048 then Some [192 + c / 64; 128 + c mod 64]
  else if c <? 65536 then
    if (55296 <=? c) && (c <=? 57343) then None
    else Some [224 + c / 4096; 128 + (c / 64) mod 64; 128 + c mod 64]
  else if c <? 1114112 then
    Some [240 + c / 262144; 128 + (c / 4096) mod 64;
          128 + (c / 64) mod 64; 128 + c mod 64]
  else None.

Fixpoint utf8_encode (s : pystr) : option (list N) :=
  match s with
  | [] => Some []
  | c :: s' =>
      match utf8_encode_cp c, utf8_encode s' with
      | Some bs, Some rest => Some (bs ++ rest)
      | _, _ => None
      end
  end.

Definition byte_of_N (n : N) : Byte.byte :=
  match Byte.of_N n with Some b => b | None => Byte.x00 end.

Definition decode (enc : encoding) (data : list Byte.byte) : result pystr :=
  match enc with
  | UTF8 =>
      match utf8_decode (List.map Byte.to_N data) with
      | Some s => Ok s
      | None =>
          Raise (Exn UnicodeDecodeError (py "'utf-8' codec can't decode bytes"))
      end
  | Latin1 => Ok (List.map Byte.to_N data)
  end.

Definition encode (enc : encoding) (s : pystr) : result (list Byte.byte) :=
  match enc with
  | UTF8 =>
      match utf8_encode s with
      | Some bs => Ok (List.map byte_of_N bs)
      | None =>
          Raise (Exn UnicodeEncodeError (py "'utf-8' codec can't encode characters"))
      end
  | Latin1 =>
      if forallb (fun c => c <? 256) s then Ok (List.map byte_of_N s)
      else Raise (Exn UnicodeEncodeError (py "'latin-1' codec can't encode characters"))
  end.

(** Reading in text mode translates the line ends [\r\n] and [\r] to
    [\n]. *)
Fixpoint universal_newlines (s : pystr) : pystr :=
  match s with
  | [] => []
  | c :: rest =>
      if c =? 13 then
        10 :: match rest with
              | d :: rest' =>
                  if d =? 10 then universal_newlines rest'
                  else universal_newlines rest
              | [] => []
              end
      else c :: universal_newlines rest
  end.

(** The [FileNotFoundError] of the built-in [open]. *)
Definition no_such_file (path : pystr) : exn :=
  Exn FileNotFoundError (py "[Errno 2] No such file or directory: " ++ quoted path).

(** [with open(path, 'r', encoding=enc) as file: content = file.read()] *)
Definition read_text (path : pystr) (enc : encoding) : M pystr :=
  fun w =>
    match files w !! path with
    | None => (Raise (no_such_file path), w)
    | Some data => (universal_newlines <$> decode enc data, w)
    end.

(** [with open(path, 'w', encoding=enc) as file: file.write(content)]:
    opening creates or empties the file before anything is encoded. *)
Definition write_text (path : pystr) (enc : encoding) (content : pystr) : M unit :=
  fun w =>
    match encode enc content with
    | Ok data => (Ok tt, set_files (<[path := data]> (files w)) w)
    | Raise e => (Raise e, set_files (<[path := []]> (files w)) w)
    end.


(** The bytes a library reads when it is handed a path: the libraries
    open their input themselves, and [missing path] is the exception of the
    library when no file is at the path. *)
Definition read_bytes (missing : pystr -> exn) (path : pystr) : M (list Byte.byte) :=
  fun w =>
    match files w !! path with
    | None => (Raise (missing path), w)
    | Some data => (Ok data, w)
    end.

(** What a library's [save(path)] did: it wrote the whole file, or it
    raised, leaving the path untouched or with some partial contents. *)
Inductive write_outcome :=
| Written (data : list Byte.byte)
| WriteFailed (e : exn) (left_behind : option (list Byte.byte)).

Definition write_file (path : pystr) (o : write_outcome) : M unit :=
  fun w =>
    match o with
    | Written data => (Ok tt, set_files (<[path := data]> (files w)) w)
    | WriteFailed e None => (Raise e, w)
    | WriteFailed e (Some data) => (Raise e, set_files (<[path := data]> (files w)) w)
    end.

(** ** What the program is linked against

    [src/config.py] and the libraries the sources import.  A library
    that is not installed is [None]: importing it raises [ImportError]. *)

Record Config := {
  OLLAMA_MODEL : pystr;
  CONFIDENCE_THRESHOLD : pyfloat
}.

(** PyMuPDF.  A page is addressed by its number in the open document;
    every call that changes the page returns the changed document. *)
Record PyMuPDF := {
  Document : Type;
  Rect : Type;
  fitz_open : list Byte.byte -> result Document;
  (** the exception of [fitz.open(path)] when no file is at the path *)
  fitz_open_missing : pystr -> exn;
  page_count : Document -> nat;
  get_text : Document -> nat -> result pystr;
  search_for : Document -> nat -> pyval -> result (list Rect);
  (** [add_redact_annot(inst)], [set_colors(stroke=None, fill=(0, 0, 0))]
      and [update()] *)
  add_redact_annot : Document -> nat -> Rect -> result Document;
  page_apply_redactions : Document -> nat -> result Document;
  save : Document -> pystr -> write_outcome
}.

(** One entry of [reader.readtext]: the four corners of the box, the
    text and the confidence of the recognition. *)
Record ocr_item := {
  bbox : list (Q * Q);
  detected_text : pystr;
  ocr_confidence : pyfloat
}.

Record EasyOCR := {
  (** [easyocr.Reader(['en']).readtext(path)] on the contents of the file *)
  readtext : list Byte.byte -> result (list ocr_item);
  (** the exception of [readtext(path)] when no file is at the path *)
  readtext_missing : pystr -> exn
}.

Record Pillow := {
  Image : Type;
  Image_open : list Byte.byte -> result Image;
  (** the exception of [Image.open(path)] when no file is at the path *)
  Image_open_missing : pystr -> exn;
  (** [ImageDraw.Draw(image).rectangle([x0, y0, x1, y1], fill='black')] *)
  draw_rectangle : Image -> Q * Q * Q * Q -> result Image;
  Image_save : Image -> pystr -> write_outcome
}.

Record Runtime := {
  (** [str.lower()] on a string with a character outside ASCII (the
      Unicode case mapping); on ASCII strings it is [ascii_lower_cp]. *)
  unicode_lower : pystr -> pystr;
  (** [ollama.Client(host).chat(model, messages, options)] for one user
      message: the response object, or the exception of the transport. *)
  client_chat : pystr -> pystr -> result pyval;
  (** [json.loads] on a [str] *)
  json_loads : pystr -> result pyval;
  fitz : option PyMuPDF;
  PIL : option Pillow;
  easyocr : option EasyOCR
}.

(** [s.lower()] *)
Definition lower (rt : Runtime) (s : pystr) : pystr :=
  if is_ascii s then List.map ascii_lower_cp s else unicode_lower rt s.

(** [obj.lower()] *)
Definition py_lower (rt : Runtime) (obj : pyval) : result pystr :=
  match obj with
  | VStr s => Ok (lower rt s)
  | _ => Raise (no_attribute obj "lower")
  end.

(** ** src/services/ollama_service.py *)

Module OllamaService.
Section OllamaService.

Variable rt : Runtime.
Variable cfg : Config.

Definition dq : pystr := [34].
Definition nl : pystr := [10].

Definition lines (l : list pystr) : pystr := List.concat (List.map (fun x => x ++ nl) l).

Definition prompt_head : pystr :=
  nl ++ lines
    [ py "Analyze the following text for personally identifiable information (PII) and sensitive data. ";
      py "Identify and categorize any sensitive information found.";
      [];
      py "Categories to look for:";
      py "- Names (first, last, full names)";
      py "- Email addresses";
      py "- Phone numbers";
      py "- Addresses (street, city, postal codes)";
      py "- Credit card numbers";
      py "- Social security numbers";
      py "- Bank account numbers";
      py "- ID numbers (passport, driver's license, etc.)";
      py "- Date of birth";
      py "- Medical information";
      [];
      py "Text to analyze:" ].

Definition prompt_tail : pystr :=
  nl ++ lines
    [ [];
      py "Respond in JSON format with:";
      py "{";
      py "    " ++ dq ++ py "found_pii" ++ dq ++ py ": true/false,";
      py "    " ++ dq ++ py "categories" ++ dq ++ py ": [" ++ dq ++ py "category1" ++ dq
        ++ py ", " ++ dq ++ py "category2" ++ dq ++ py ", ...],";
      py "    " ++ dq ++ py "details" ++ dq ++ py ": [";
      py "        {";
      py "            " ++ dq ++ py "type" ++ dq ++ py ": " ++ dq ++ py "category" ++ dq ++ py ",";
      py "            " ++ dq ++ py "text" ++ dq ++ py ": " ++ dq
        ++ py "actual sensitive text found" ++ dq ++ py ",";
      py "            " ++ dq ++ py "confidence" ++ dq ++ py ": 0.0-1.0,";
      py "            " ++ dq ++ py "start_pos" ++ dq ++ py ": position_in_text,";
      py "            " ++ dq ++ py "end_pos" ++ dq ++ py ": position_in_text";
      py "        }";
      py "    ],";
      py "    " ++ dq ++ py "recommendation" ++ dq ++ py ": " ++ dq
        ++ py "brief recommendation" ++ dq;
      py "}";
      [];
      py "Do NOT include additional explanation as the response will be put into json.loads to convert into a json readable format." ].

Definition prompt (text : pystr) : pystr := prompt_head ++ text ++ prompt_tail.

(** [self.client.chat(model=self.model, messages=[...], options=...)] *)
Definition chat (content : pystr) : M pyval :=
  fun w => (client_chat rt (OLLAMA_MODEL cfg) content, after_chat content w).

(** [json.loads(s)] *)
Definition py_json_loads (s : pyval) : result pyval :=
  match s with
  | VStr text => json_loads rt text
  | _ =>
      Raise (Exn TypeError
        (py "the JSON object must be str, bytes or bytearray, not " ++ type_name s))
  end.

(** [OllamaService.analyze_text_for_pii] *)
Definition analyze_text_for_pii (text : pystr) : M pyval :=
  try_except
    (response ← chat (prompt text);
     msg ← lift (py_getitem response (py "message"));
     result_text ← lift (py_getitem msg (py "content"));
     try_except
       (lift (py_json_loads result_text))
       (fun e =>
          match exn_kind e with
          | JSONDecodeError =>
              mret (VDict [ (py "found_pii", VBool true);
                            (py "categories", VList [VStr (py "unknown")]);
                            (py "details", VList []);
                            (py "recommendation", VStr (py "Manual review recommended"));
                            (py "raw_response", result_text) ])
          | _ => raise e
          end))
    (fun e =>
       mret (VDict [ (py "found_pii", VBool false);
                     (py "categories", VList []);
                     (py "details", VList []);
                     (py "recommendation",
                      VStr (py "Analysis failed - manual review required"));
                     (py "error", VStr (exn_str e)) ])).

Definition replacements : list (pystr * pystr) :=
  [ (py "name", py "[NAME REDACTED]");
    (py "email", py "[EMAIL REDACTED]");
    (py "phone", py "[PHONE REDACTED]");
    (py "address", py "[ADDRESS REDACTED]");
    (py "credit_card", py "[CARD NUMBER REDACTED]");
    (py "ssn", py "[SSN REDACTED]");
    (py "bank_account", py "[ACCOUNT NUMBER REDACTED]");
    (py "id_number", py "[ID NUMBER REDACTED]");
    (py "date_of_birth", py "[DOB REDACTED]");
    (py "medical", py "[MEDICAL INFO REDACTED]") ].

(** [OllamaService._generate_replacement] *)
Definition _generate_replacement (pii_type : pyval) : result pystr :=
  key ← py_lower rt pii_type;
  Ok (match assoc key replacements with
      | Some r => r
      | None => py "[SENSITIVE INFO REDACTED]"
      end).

(** The loop over [details], with the list [suggestions] built so far. *)
Fixpoint suggestions_loop (details suggestions : list pyval) : result (list pyval) :=
  match details with
  | [] => Ok suggestions
  | detail :: rest =>
      c ← py_get detail (py "confidence") (VInt 0);
      above ← py_ge c (CONFIDENCE_THRESHOLD cfg);
      if above : bool then
        text ← py_getitem detail (py "text");
        ty ← py_getitem detail (py "type");
        replacement ← _generate_replacement ty;
        ty' ← py_getitem detail (py "type");
        confidence ← py_getitem detail (py "confidence");
        suggestions_loop rest
          (suggestions ++
             [VDict [ (py "text", text);
                      (py "replacement", VStr replacement);
                      (py "type", ty');
                      (py "confidence", confidence) ]])
      else suggestions_loop rest suggestions
  end.

(** [OllamaService.generate_redaction_suggestions] *)
Definition generate_redaction_suggestions (analysis_result : pyval) : result pyval :=
  found ← py_get analysis_result (py "found_pii") (VBool false);
  if negb (truthy found) then
    Ok (VDict [ (py "needs_redaction", VBool false);
                (py "suggestions", VList []) ])
  else
    details ← py_get analysis_result (py "details") (VList []);
    items ← py_iter details;
    suggestions ← suggestions_loop items [];
    Ok (VDict [ (py "needs_redaction", VBool (0 <? length suggestions)%nat);
                (py "suggestions", VList suggestions) ]).

(** [value == self.model], the model name being a [str] *)
Definition py_eq_str (v : pyval) (s : pystr) : bool :=
  match v with
  | VStr s' => pystr_eqb s' s
  | _ => false
  end.

(** [[model['name'] for model in models]] *)
Fixpoint model_names (models : list pyval) : result (list pyval) :=
  match models with
  | [] => Ok []
  | model :: rest =>
      name ← py_getitem model (py "name");
      names ← model_names rest;
      Ok (name :: names)
  end.

(** [OllamaService.is_available]; [client_list] is what
    [self.client.list()] returns or raises. *)
Definition is_available (client_list : result pyval) : bool :=
  match
    (models ← client_list;
     listed ← py_getitem models (py "models");
     items ← py_iter listed;
     names ← model_names items;
     Ok (existsb (fun name => py_eq_str name (OLLAMA_MODEL cfg)) names))
  with
  | Ok b => b
  | Raise _ => false
  end.

End OllamaService.
End OllamaService.

(** ** src/processors/base_processor.py *)

Record ProcessingResult := {
  success : bool;
  message : pystr;
  extracted_text : pystr;
  output_file : option pystr;
  pii_found : bool;
  redaction_count : nat
}.

(** [ProcessingResult(success, message)] with the defaults of [__init__]
    for the other fields. *)
Definition ProcessingResult_init (success : bool) (message : pystr) : ProcessingResult :=
  {| success := success; message := message; extracted_text := [];
     output_file := None; pii_found := false; redaction_count := 0%nat |}.

Definition path_sep : N := 47.

(** [os.path.join(a, b)] *)
Definition path_join (a b : pystr) : pystr :=
  if starts_with [path_sep] b then b
  else match last a with
       | None => b
       | Some c => if c =? path_sep then a ++ b else a ++ [path_sep] ++ b
       end.

(** [os.path.basename(p)]: what follows the last separator. *)
Fixpoint basename (p : pystr) : pystr :=
  match p with
  | [] => []
  | c :: p' => if existsb (N.eqb path_sep) p' then basename p'
               else if c =? path_sep then p' else p
  end.

(** [os.makedirs(path, exist_ok=True)].  A regular file at the path
    raises [FileExistsError]; a directory that is there already (the system
    refuses with [FileExistsError]) is accepted; any other refusal is raised.
    Directories are not in the map of the files, which is left as it is. *)
Definition makedirs (path : pystr) : M unit :=
  fun w =>
    match files w !! path with
    | Some _ =>
        (Raise (Exn FileExistsError (py "[Errno 17] File exists: " ++ quoted path)), w)
    | None =>
        match create_error w path with
        | None => (Ok tt, w)
        | Some e =>
            match exn_kind e with
            | FileExistsError => (Ok tt, w)
            | _ => (Raise e, w)
            end
        end
    end.

(** The name search of [tempfile]: the candidates
    [dir/tmp<random><suffix>] are opened for exclusive creation in turn.  A
    candidate that exists ([FileExistsError]) is passed over; any other
    refusal of the system is raised; when no candidate is left,
    [FileExistsError] is raised.  The result comes with the names that were
    not drawn. *)
Fixpoint fresh_temp_path (fs : gmap pystr (list Byte.byte))
    (refused : pystr -> option exn) (dir suffix : pystr) (names : list pystr)
    : result pystr * list pystr :=
  match names with
  | [] =>
      (Raise (Exn FileExistsError (py "[Errno 17] No usable temporary file name found")),
       [])
  | n :: names' =>
      let p := path_join dir (py "tmp" ++ n ++ suffix) in
      match fs !! p with
      | Some _ => fresh_temp_path fs refused dir suffix names'
      | None =>
          match refused p with
          | None => (Ok p, names')
          | Some e =>
              match exn_kind e with
              | FileExistsError => fresh_temp_path fs refused dir suffix names'
              | _ => (Raise e, names')
              end
          end
      end
  end.

(** [tempfile.NamedTemporaryFile(dir=dir, suffix=suffix, delete=False)],
    closed at once: the name of the empty file it created. *)
Definition NamedTemporaryFile (dir suffix : pystr) : M pystr :=
  fun w =>
    match fresh_temp_path (files w) (create_error w) dir suffix (temp_names w) with
    | (Ok name, names') =>
        (Ok name,
         {| files := <[name := []]> (files w); cwd := cwd w;
            temp_names := names'; chat_requests := chat_requests w;
            create_error := create_error w |})
    | (Raise e, names') =>
        (Raise e,
         {| files := files w; cwd := cwd w; temp_names := names';
            chat_requests := chat_requests w; create_error := create_error w |})
    end.

(** [BaseProcessor.create_temp_file] *)
Definition create_temp_file (original_filename : pystr) : M pystr :=
  fun w =>
    let temp_dir := path_join (cwd w) (py "temp") in
    (_ ← makedirs temp_dir;
     NamedTemporaryFile temp_dir (py "_" ++ original_filename)) w.

(** The path [tempfile] tries for the random name [n]. *)
Definition temp_candidate (w : world) (original_filename n : pystr) : pystr :=
  path_join (path_join (cwd w) (py "temp")) (py "tmp" ++ n ++ py "_" ++ original_filename).

(** The path is taken: by a regular file, or by something else the
    system reports as existing. *)
Definition exists_already (w : world) (path : pystr) : Prop :=
  is_Some (files w !! path)
  \/ exists e, create_error w path = Some e /\ exn_kind e = FileExistsError.

(** The system refuses to create the path with [e], for another reason
    than its existence. *)
Definition refused_with (w : world) (path : pystr) (e : exn) : Prop :=
  files w !! path = None
  /\ create_error w path = Some e
  /\ exn_kind e <> FileExistsError.

(** ** src/processors/txt_processor.py

    In every [process_file] below, [ollama_service] is the global
    instance of [OllamaService] that the handlers pass in. *)

Module TextProcessor.
Section TextProcessor.

Variable rt : Runtime.
Variable cfg : Config.

(** [TextProcessor.extract_text] *)
Definition extract_text (file_path : pystr) : M pystr :=
  try_except
    (read_text file_path UTF8)
    (fun e =>
       match exn_kind e with
       | UnicodeDecodeError =>
           try_except
             (read_text file_path Latin1)
             (fun e' =>
                raise (Exn PlainException (py "Failed to read text file: " ++ exn_str e')))
       | _ => raise (Exn PlainException (py "Failed to extract text: " ++ exn_str e))
       end).

(** The loop over [redactions] on the content redacted so far. *)
Fixpoint redact_loop (redactions : list pyval) (redacted_content : pystr) : result pystr :=
  match redactions with
  | [] => Ok redacted_content
  | redaction :: rest =>
      text_to_redact ← py_get redaction (py "text") (VStr []);
      replacement ← py_get redaction (py "replacement") (VStr (py "[REDACTED]"));
      if truthy text_to_redact then
        redacted ← py_replace redacted_content text_to_redact replacement;
        redact_loop rest redacted
      else redact_loop rest redacted_content
  end.

(** [TextProcessor.apply_redactions] *)
Definition apply_redactions (file_path : pystr) (redactions : pyval)
    (output_path : pystr) : M bool :=
  try_except
    (content ← read_text file_path UTF8;
     items ← lift (py_iter redactions);
     redacted_content ← lift (redact_loop items content);
     _ ← write_text output_path UTF8 redacted_content;
     _ ← lift (py_len redactions);
     mret true)
    (fun _ => mret false).

(** [TextProcessor.process_file] *)
Definition process_file (file_path : pystr) : M ProcessingResult :=
  try_except
    (extracted_text ← extract_text file_path;
     if negb (truthy (VStr (strip extracted_text))) then
       mret (ProcessingResult_init false (py "No text content found in file"))
     else
       pii_analysis ← OllamaService.analyze_text_for_pii rt cfg extracted_text;
       found ← lift (py_get pii_analysis (py "found_pii") (VBool false));
       if negb (truthy found) then
         mret {| success := true;
                 message := py "No sensitive information detected in text file";
                 extracted_text := extracted_text;
                 output_file := None;
                 pii_found := false;
                 redaction_count := 0 |}
       else
         redaction_suggestions ←
           lift (OllamaService.generate_redaction_suggestions rt cfg pii_analysis);
         needs ← lift (py_get redaction_suggestions (py "needs_redaction") (VBool false));
         if negb (truthy needs) then
           mret {| success := true;
                   message := py "No redactions needed based on confidence threshold";
                   extracted_text := extracted_text;
                   output_file := None;
                   pii_found := true;
                   redaction_count := 0 |}
         else
           output_path ← create_temp_file (py "redacted_" ++ basename file_path);
           suggestions ← lift (py_getitem redaction_suggestions (py "suggestions"));
           ok ← apply_redactions file_path suggestions output_path;
           if ok : bool then
             suggestions' ← lift (py_getitem redaction_suggestions (py "suggestions"));
             n ← lift (py_len suggestions');
             suggestions'' ← lift (py_getitem redaction_suggestions (py "suggestions"));
             count ← lift (py_len suggestions'');
             mret {| success := true;
                     message := py "Successfully redacted " ++ py (pretty n)
                                ++ py " sensitive items";
                     extracted_text := extracted_text;
                     output_file := Some output_path;
                     pii_found := true;
                     redaction_count := count |}
           else
             mret (ProcessingResult_init false (py "Failed to apply redactions to text file")))
    (fun e =>
       mret (ProcessingResult_init false (py "Error processing text file: " ++ exn_str e))).

End TextProcessor.
End TextProcessor.

(** ** src/processors/pdf_processor.py *)

Module PDFProcessor.
Section PDFProcessor.

Variable rt : Runtime.
Variable cfg : Config.

(** [import fitz] *)
Definition import_fitz : result PyMuPDF :=
  match fitz rt with
  | Some m => Ok m
  | None => Raise (Exn ImportError (py "No module named 'fitz'"))
  end.

Definition page_break : pystr := [10] ++ py "---PAGE BREAK---" ++ [10].

(** The loop over the page numbers in [extract_text]. *)
Fixpoint extract_pages (m : PyMuPDF) (doc : Document m) (page_nums : list nat)
    (text_content : pystr) : result pystr :=
  match page_nums with
  | [] => Ok text_content
  | page_num :: rest =>
      t ← get_text m doc page_num;
      extract_pages m doc rest ((text_content ++ t) ++ page_break)
  end.

(** [PDFProcessor.extract_text] *)
Definition extract_text (file_path : pystr) : M pystr :=
  try_except
    (m ← lift import_fitz;
     data ← read_bytes (fitz_open_missing m) file_path;
     doc ← lift (fitz_open m data);
     lift (extract_pages m doc (seq 0 (page_count m doc)) []))
    (fun e =>
       match exn_kind e with
       | ImportError =>
           raise (Exn PlainException (py "PDF processing library not available"))
       | _ =>
           raise (Exn PlainException (py "Failed to extract text from PDF: " ++ exn_str e))
       end).

(** The loop over [text_instances]. *)
Fixpoint annotate (m : PyMuPDF) (doc : Document m) (page_num : nat)
    (text_instances : list (Rect m)) : result (Document m) :=
  match text_instances with
  | [] => Ok doc
  | inst :: rest =>
      doc' ← add_redact_annot m doc page_num inst;
      annotate m doc' page_num rest
  end.

(** The loop over [redactions] on one page. *)
Fixpoint redact_page (m : PyMuPDF) (doc : Document m) (page_num : nat)
    (redactions : list pyval) : result (Document m) :=
  match redactions with
  | [] => Ok doc
  | redaction :: rest =>
      text_to_redact ← py_get redaction (py "text") (VStr []);
      if negb (truthy text_to_redact) then redact_page m doc page_num rest
      else
        text_instances ← search_for m doc page_num text_to_redact;
        doc' ← annotate m doc page_num text_instances;
        redact_page m doc' page_num rest
  end.

(** The loop over the page numbers in [apply_redactions]. *)
Fixpoint redact_pages (m : PyMuPDF) (doc : Document m) (page_nums : list nat)
    (redactions : pyval) : result (Document m) :=
  match page_nums with
  | [] => Ok doc
  | page_num :: rest =>
      items ← py_iter redactions;
      doc1 ← redact_page m doc page_num items;
      doc2 ← page_apply_redactions m doc1 page_num;
      redact_pages m doc2 rest redactions
  end.

(** [PDFProcessor.apply_redactions] *)
Definition apply_redactions (file_path : pystr) (redactions : pyval)
    (output_path : pystr) : M bool :=
  try_except
    (m ← lift import_fitz;
     data ← read_bytes (fitz_open_missing m) file_path;
     doc ← lift (fitz_open m data);
     doc' ← lift (redact_pages m doc (seq 0 (page_count m doc)) redactions);
     _ ← write_file output_path (save m doc' output_path);
     _ ← lift (py_len redactions);
     mret true)
    (fun _ => mret false).

(** [PDFProcessor.process_file] *)
Definition process_file (file_path : pystr) : M ProcessingResult :=
  try_except
    (extracted_text ← extract_text file_path;
     if negb (truthy (VStr (strip extracted_text))) then
       mret (ProcessingResult_init false (py "No text found in PDF file"))
     else
       pii_analysis ← OllamaService.analyze_text_for_pii rt cfg extracted_text;
       found ← lift (py_get pii_analysis (py "found_pii") (VBool false));
       if negb (truthy found) then
         mret {| success := true;
                 message := py "No sensitive information detected in PDF";
                 extracted_text := extracted_text;
                 output_file := None;
                 pii_found := false;
                 redaction_count := 0 |}
       else
         redaction_suggestions ←
           lift (OllamaService.generate_redaction_suggestions rt cfg pii_analysis);
         needs ← lift (py_get redaction_suggestions (py "needs_redaction") (VBool false));
         if negb (truthy needs) then
           mret {| success := true;
                   message := py "No redactions needed based on confidence threshold";
                   extracted_text := extracted_text;
                   output_file := None;
                   pii_found := true;
                   redaction_count := 0 |}
         else
           output_path ← create_temp_file (py "redacted_" ++ basename file_path);
           suggestions ← lift (py_getitem redaction_suggestions (py "suggestions"));
           ok ← apply_redactions file_path suggestions output_path;
           if ok : bool then
             suggestions' ← lift (py_getitem redaction_suggestions (py "suggestions"));
             n ← lift (py_len suggestions');
             suggestions'' ← lift (py_getitem redaction_suggestions (py "suggestions"));
             count ← lift (py_len suggestions'');
             mret {| success := true;
                     message := py "Successfully redacted " ++ py (pretty n)
                                ++ py " sensitive items";
                     extracted_text := extracted_text;
                     output_file := Some output_path;
                     pii_found := true;
                     redaction_count := count |}
           else
             mret (ProcessingResult_init false (py "Failed to apply redactions to PDF")))
    (fun e =>
       mret (ProcessingResult_init false (py "Error processing PDF: " ++ exn_str e))).

End PDFProcessor.
End PDFProcessor.

(** ** src/processors/image_processor.py *)

Module ImageProcessor.
Section ImageProcessor.

Variable rt : Runtime.
Variable cfg : Config.

(** [import easyocr] *)
Definition import_easyocr : result EasyOCR :=
  match easyocr rt with
  | Some m => Ok m
  | None => Raise (Exn ImportError (py "No module named 'easyocr'"))
  end.

(** [from PIL import Image, ImageDraw] *)
Definition import_PIL : result Pillow :=
  match PIL rt with
  | Some m => Ok m
  | None => Raise (Exn ImportError (py "No module named 'PIL'"))
  end.

Definition ocr_floor : pyfloat := Finite (1 # 2).

(** The loop over [results] in [extract_text]. *)
Fixpoint join_fragments (results : list ocr_item) (extracted_text : pystr) : pystr :=
  match results with
  | [] => extracted_text
  | item :: rest =>
      if float_gt (ocr_confidence item) ocr_floor
      then join_fragments rest ((extracted_text ++ detected_text item) ++ py " ")
      else join_fragments rest extracted_text
  end.

(** [ImageProcessor.extract_text] *)
Definition extract_text (file_path : pystr) : M pystr :=
  try_except
    (ocr ← lift import_easyocr;
     data ← read_bytes (readtext_missing ocr) file_path;
     results ← lift (readtext ocr data);
     mret (strip (join_fragments results [])))
    (fun e =>
       match exn_kind e with
       | ImportError =>
           raise (Exn PlainException (py "OCR processing library not available"))
       | _ =>
           raise (Exn PlainException (py "Failed to extract text from image: " ++ exn_str e))
       end).

(** [min(l)] and [max(l)]: of equal elements the first is returned. *)
Definition py_min (l : list Q) : result Q :=
  match l with
  | [] => Raise (Exn ValueError (py "min() iterable argument is empty"))
  | x :: rest => Ok (fold_left (fun m y => if Qle_bool m y then m else y) rest x)
  end.

Definition py_max (l : list Q) : result Q :=
  match l with
  | [] => Raise (Exn ValueError (py "max() iterable argument is empty"))
  | x :: rest => Ok (fold_left (fun m y => if Qle_bool y m then m else y) rest x)
  end.

(** The rectangle [[min_x, min_y, max_x, max_y]] around a box. *)
Definition extent (box : list (Q * Q)) : result (Q * Q * Q * Q) :=
  let x_coords := List.map fst box in
  let y_coords := List.map snd box in
  min_x ← py_min x_coords;
  max_x ← py_max x_coords;
  min_y ← py_min y_coords;
  max_y ← py_max y_coords;
  Ok (min_x, min_y, max_x, max_y).

(** The loop over [ocr_results] for one text to redact.  The counter
    [redacted_count] is only logged and is left out. *)
Fixpoint redact_matches (pil : Pillow) (image : Image pil) (text_to_redact : pystr)
    (ocr_results : list ocr_item) : result (Image pil) :=
  match ocr_results with
  | [] => Ok image
  | item :: rest =>
      if float_gt (ocr_confidence item) ocr_floor
         && contains (lower rt text_to_redact) (lower rt (detected_text item))
      then
        box ← extent (bbox item);
        image' ← draw_rectangle pil image box;
        redact_matches pil image' text_to_redact rest
      else redact_matches pil image text_to_redact rest
  end.

(** The loop over [redactions]. *)
Fixpoint redact_loop (pil : Pillow) (image : Image pil) (redactions : list pyval)
    (ocr_results : list ocr_item) : result (Image pil) :=
  match redactions with
  | [] => Ok image
  | redaction :: rest =>
      t ← py_get redaction (py "text") (VStr []);
      text_to_redact ← py_strip t;
      if negb (truthy (VStr text_to_redact)) then redact_loop pil image rest ocr_results
      else
        image' ← redact_matches pil image text_to_redact ocr_results;
        redact_loop pil image' rest ocr_results
  end.

(** [ImageProcessor.apply_redactions]; both [except] clauses return
    [False]. *)
Definition apply_redactions (file_path : pystr) (redactions : pyval)
    (output_path : pystr) : M bool :=
  try_except
    (pil ← lift import_PIL;
     ocr ← lift import_easyocr;
     data ← read_bytes (Image_open_missing pil) file_path;
     image ← lift (Image_open pil data);
     ocr_results ← lift (readtext ocr data);
     items ← lift (py_iter redactions);
     image' ← lift (redact_loop pil image items ocr_results);
     _ ← write_file output_path (Image_save pil image' output_path);
     mret true)
    (fun _ => mret false).

(** [ImageProcessor.process_file] *)
Definition process_file (file_path : pystr) : M ProcessingResult :=
  try_except
    (extracted_text ← extract_text file_path;
     if negb (truthy (VStr (strip extracted_text))) then
       mret {| success := true;
               message := py "No text detected in image";
               extracted_text := [];
               output_file := None;
               pii_found := false;
               redaction_count := 0 |}
     else
       pii_analysis ← OllamaService.analyze_text_for_pii rt cfg extracted_text;
       found ← lift (py_get pii_analysis (py "found_pii") (VBool false));
       if negb (truthy found) then
         mret {| success := true;
                 message := py "No sensitive information detected in image text";
                 extracted_text := extracted_text;
                 output_file := None;
                 pii_found := false;
                 redaction_count := 0 |}
       else
         redaction_suggestions ←
           lift (OllamaService.generate_redaction_suggestions rt cfg pii_analysis);
         needs ← lift (py_get redaction_suggestions (py "needs_redaction") (VBool false));
         if negb (truthy needs) then
           mret {| success := true;
                   message := py "No redactions needed based on confidence threshold";
                   extracted_text := extracted_text;
                   output_file := None;
                   pii_found := true;
                   redaction_count := 0 |}
         else
           output_path ← create_temp_file (py "redacted_" ++ basename file_path);
           suggestions ← lift (py_getitem redaction_suggestions (py "suggestions"));
           ok ← apply_redactions file_path suggestions output_path;
           if ok : bool then
             suggestions' ← lift (py_getitem redaction_suggestions (py "suggestions"));
             n ← lift (py_len suggestions');
             suggestions'' ← lift (py_getitem redaction_suggestions (py "suggestions"));
             count ← lift (py_len suggestions'');
             mret {| success := true;
                     message := py "Successfully redacted " ++ py (pretty n)
                                ++ py " sensitive items from image";
                     extracted_text := extracted_text;
                     output_file := Some output_path;
                     pii_found := true;
                     redaction_count := count |}
           else
             mret (ProcessingResult_init false (py "Failed to apply redactions to image")))
    (fun e =>
       mret (ProcessingResult_init false (py "Error processing image: " ++ exn_str e))).

End ImageProcessor.
End ImageProcessor.

(** ** src/processors/processor_factory.py *)

Inductive processor := TextProc | PDFProc | ImageProc.

Module ProcessorFactory.

Definition _processors : list (pystr * processor) :=
  [ (py "txt", TextProc); (py "pdf", PDFProc); (py "jpg", ImageProc);
    (py "jpeg", ImageProc); (py "png", ImageProc); (py "gif", ImageProc);
    (py "bmp", ImageProc) ].

Fixpoint lstrip_dots (s : pystr) : pystr :=
  match s with
  | c :: s' => if c =? 46 then lstrip_dots s' else s
  | [] => []
  end.

(** [s.strip('.')] *)
Definition strip_dots (s : pystr) : pystr := rev (lstrip_dots (rev (lstrip_dots s))).

(** [ProcessorFactory.get_processor] *)
Definition get_processor (rt : Runtime) (file_extension : pystr) : option processor :=
  assoc (strip_dots (lower rt file_extension)) _processors.

(** [ProcessorFactory.is_supported] *)
Definition is_supported (rt : Runtime) (file_extension : pystr) : bool :=
  existsb (fun kv => pystr_eqb (strip_dots (lower rt file_extension)) (fst kv)) _processors.

(** [ProcessorFactory.get_supported_extensions] *)
Definition get_supported_extensions : list pystr := List.map fst _processors.

(** [ProcessorFactory.get_supported_by_category] *)
Definition get_supported_by_category : list (pystr * list pystr) :=
  [ (py "documents", [py "txt"; py "pdf"]);
    (py "images", [py "jpg"; py "jpeg"; py "png"; py "gif"; py "bmp"]) ].

End ProcessorFactory.

(** ** src/processors/base_processor.py: the other methods *)

Module BaseProcessor.

(** [self.supported_extensions], as each [__init__] sets it. *)
Definition supported_extensions (p : processor) : list pystr :=
  match p with
  | TextProc => [py "txt"]
  | PDFProc => [py "pdf"]
  | ImageProc => [py "jpg"; py "jpeg"; py "png"; py "gif"; py "bmp"]
  end.

Definition max_file_size_mb : Z := 20.

(** [BaseProcessor.is_supported] *)
Definition is_supported (rt : Runtime) (p : processor) (file_extension : pystr) : bool :=
  existsb (pystr_eqb (lower rt file_extension)) (supported_extensions p).

(** [BaseProcessor.validate_file_size] *)
Definition validate_file_size (file_size : Z) : bool :=
  (file_size <=? max_file_size_mb * 1024 * 1024)%Z.

(** [BaseProcessor.cleanup_temp_file] (and [FileService.cleanup_file],
    which has the same body): the file is removed when it exists. *)
Definition cleanup_temp_file (file_path : pystr) : M unit :=
  fun w => (Ok tt, set_files (delete file_path (files w)) w).

End BaseProcessor.

(** The methods of a processor object, by its class. *)
Module Processor.
Section Processor.

Variable rt : Runtime.
Variable cfg : Config.

Definition extract_text (p : processor) : pystr -> M pystr :=
  match p with
  | TextProc => TextProcessor.extract_text
  | PDFProc => PDFProcessor.extract_text rt
  | ImageProc => ImageProcessor.extract_text rt
  end.

Definition apply_redactions (p : processor) : pystr -> pyval -> pystr -> M bool :=
  match p with
  | TextProc => TextProcessor.apply_redactions
  | PDFProc => PDFProcessor.apply_redactions rt
  | ImageProc => ImageProcessor.apply_redactions rt
  end.

Definition process_file (p : processor) : pystr -> M ProcessingResult :=
  match p with
  | TextProc => TextProcessor.process_file rt cfg
  | PDFProc => PDFProcessor.process_file rt cfg
  | ImageProc => ImageProcessor.process_file rt cfg
  end.

End Processor.
End Processor.

(** ** The common shape of the three [process_file] methods

    The three methods differ in the processor whose [extract_text] and
    [apply_redactions] they call, in the result for a text that is empty
    after [strip()], and in their messages. *)

Record workflow_texts := {
  on_empty : ProcessingResult;
  msg_no_pii : pystr;
  msg_done_suffix : pystr;
  msg_failed : pystr;
  msg_error : pystr
}.

Definition texts_of (p : processor) : workflow_texts :=
  match p with
  | TextProc =>
      {| on_empty := ProcessingResult_init false (py "No text content found in file");
         msg_no_pii := py "No sensitive information detected in text file";
         msg_done_suffix := py " sensitive items";
         msg_failed := py "Failed to apply redactions to text file";
         msg_error := py "Error processing text file: " |}
  | PDFProc =>
      {| on_empty := ProcessingResult_init false (py "No text found in PDF file");
         msg_no_pii := py "No sensitive information detected in PDF";
         msg_done_suffix := py " sensitive items";
         msg_failed := py "Failed to apply redactions to PDF";
         msg_error := py "Error processing PDF: " |}
  | ImageProc =>
      {| on_empty := {| success := true;
                        message := py "No text detected in image";
                        extracted_text := [];
                        output_file := None;
                        pii_found := false;
                        redaction_count := 0 |};
         msg_no_pii := py "No sensitive information detected in image text";
         msg_done_suffix := py " sensitive items from image";
         msg_failed := py "Failed to apply redactions to image";
         msg_error := py "Error processing image: " |}
  end.

(** The result of a run whose redaction step answered [ok] for [n]
    suggestions written to [output_path]. *)
Definition redaction_result (t : workflow_texts) (extracted_text output_path : pystr)
    (n : nat) (ok : bool) : ProcessingResult :=
  if ok then
    {| success := true;
       message := py "Successfully redacted " ++ py (pretty n) ++ msg_done_suffix t;
       extracted_text := extracted_text;
       output_file := Some output_path;
       pii_found := true;
       redaction_count := n |}
  else ProcessingResult_init false (msg_failed t).

Definition workflow (rt : Runtime) (cfg : Config) (p : processor) (file_path : pystr)
    : M ProcessingResult :=
  let t := texts_of p in
  try_except
    (extracted_text ← Processor.extract_text rt p file_path;
     if negb (truthy (VStr (strip extracted_text))) then mret (on_empty t)
     else
       pii_analysis ← OllamaService.analyze_text_for_pii rt cfg extracted_text;
       found ← lift (py_get pii_analysis (py "found_pii") (VBool false));
       if negb (truthy found) then
         mret {| success := true;
                 message := msg_no_pii t;
                 extracted_text := extracted_text;
                 output_file := None;
                 pii_found := false;
                 redaction_count := 0 |}
       else
         redaction_suggestions ←
           lift (OllamaService.generate_redaction_suggestions rt cfg pii_analysis);
         needs ← lift (py_get redaction_suggestions (py "needs_redaction") (VBool false));
         if negb (truthy needs) then
           mret {| success := true;
                   message := py "No redactions needed based on confidence threshold";
                   extracted_text := extracted_text;
                   output_file := None;
                   pii_found := true;
                   redaction_count := 0 |}
         else
           output_path ← create_temp_file (py "redacted_" ++ basename file_path);
           suggestions ← lift (py_getitem redaction_suggestions (py "suggestions"));
           ok ← Processor.apply_redactions rt p file_path suggestions output_path;
           if ok : bool then
             suggestions' ← lift (py_getitem redaction_suggestions (py "suggestions"));
             n ← lift (py_len suggestions');
             suggestions'' ← lift (py_getitem redaction_suggestions (py "suggestions"));
             count ← lift (py_len suggestions'');
             mret {| success := true;
                     message := py "Successfully redacted " ++ py (pretty n)
                                ++ msg_done_suffix t;
                     extracted_text := extracted_text;
                     output_file := Some output_path;
                     pii_found := true;
                     redaction_count := count |}
           else mret (ProcessingResult_init false (msg_failed t)))
    (fun e => mret (ProcessingResult_init false (msg_error t ++ exn_str e))).

(** ** The data model of an analysis

    The shape the prompt of [analyze_text_for_pii] asks the model for: an
    object with [found_pii] and a list [details] of findings, each with a
    [type], a [text] and a numeric [confidence].  Further keys
    ([categories], [start_pos], ...) may be present. *)

Inductive number := NInt (z : Z) | NFloat (x : pyfloat).

Definition number_val (n : number) : pyval :=
  match n with NInt z => VInt z | NFloat x => VFloat x end.

Definition number_float (n : number) : pyfloat :=
  match n with NInt z => Finite (inject_Z z) | NFloat x => x end.

Record Finding := {
  category : pystr;
  literal_text : pystr;
  confidence : number
}.

(** The dict [d] is the finding [f]. *)
Definition detail_repr (d : pyval) (f : Finding) : Prop :=
  exists items,
    d = VDict items
    /\ assoc (py "type") items = Some (VStr (category f))
    /\ assoc (py "text") items = Some (VStr (literal_text f))
    /\ assoc (py "confidence") items = Some (number_val (confidence f)).

(** The dict [a] is an analysis with the flag [found] and the findings
    [fs], in this order. *)
Definition analysis_repr (a : pyval) (found : bool) (fs : list Finding) : Prop :=
  exists items ds,
    a = VDict items
    /\ assoc (py "found_pii") items = Some (VBool found)
    /\ assoc (py "details") items = Some (VList ds)
    /\ Forall2 detail_repr ds fs.

(** [f.confidence >= Config.CONFIDENCE_THRESHOLD] *)
Definition above_threshold (cfg : Config) (f : Finding) : bool :=
  float_ge (number_float (confidence f)) (CONFIDENCE_THRESHOLD cfg).

(** The entry of the static table for a category, or the generic text. *)
Definition table_replacement (rt : Runtime) (cat : pystr) : pystr :=
  match assoc (lower rt cat) OllamaService.replacements with
  | Some r => r
  | None => py "[SENSITIVE INFO REDACTED]"
  end.

(** The suggestion that carries a finding. *)
Definition suggestion_of (rt : Runtime) (f : Finding) : pyval :=
  VDict [ (py "text", VStr (literal_text f));
          (py "replacement", VStr (table_replacement rt (category f)));
          (py "type", VStr (category f));
          (py "confidence", number_val (confidence f)) ].

Definition suggestion_set (suggestions : list pyval) : pyval :=
  VDict [ (py "needs_redaction", VBool (0 <? length suggestions)%nat);
          (py "suggestions", VList suggestions) ].

(** The replacement the specification words describe: the category name
    in upper case between [[] and [ REDACTED]]. *)
Definition bracketed_upper (cat : pystr) : pystr :=
  py "[" ++ List.map ascii_upper_cp cat ++ py " REDACTED]".

(** A run of [process_file] that reaches the redaction step: the text
    was extracted, the analysis found something, the suggestions [l] are
    not empty, the output file [out] was created and [apply_redactions]
    answered [ok], leaving the world [w']. *)
Definition redaction_attempt (rt : Runtime) (cfg : Config) (p : processor)
    (file_path : pystr) (w : world) (out : pystr) (l : pyval) (ok : bool)
    (w' : world) : Prop :=
  exists text w1 a w2 found sugg needs w3,
    Processor.extract_text rt p file_path w = (Ok text, w1)
    /\ strip text <> []
    /\ OllamaService.analyze_text_for_pii rt cfg text w1 = (Ok a, w2)
    /\ py_get a (py "found_pii") (VBool false) = Ok found
    /\ truthy found = true
    /\ OllamaService.generate_redaction_suggestions rt cfg a = Ok sugg
    /\ py_get sugg (py "needs_redaction") (VBool false) = Ok needs
    /\ truthy needs = true
    /\ create_temp_file (py "redacted_" ++ basename file_path) w2 = (Ok out, w3)
    /\ py_getitem sugg (py "suggestions") = Ok l
    /\ Processor.apply_redactions rt p file_path l out w3 = (Ok ok, w').

(** ** The ways a run of [process_file] ends

    The result and the world after the run, by the step at which the run
    ends: the extraction raised; the text is blank; the analysis is not an
    object with a [get] method; nothing was found; building the suggestions
    raised; no finding reached the threshold; no temporary file could be
    created; the redaction step was reached. *)

Inductive run_outcome (rt : Runtime) (cfg : Config) (p : processor)
    (file_path : pystr) (w : world) : ProcessingResult -> world -> Prop :=
| run_extract_failed e :
    Processor.extract_text rt p file_path w = (Raise e, w) ->
    run_outcome rt cfg p file_path w
      (ProcessingResult_init false (msg_error (texts_of p) ++ exn_str e)) w
| run_blank text :
    Processor.extract_text rt p file_path w = (Ok text, w) ->
    strip text = [] ->
    run_outcome rt cfg p file_path w (on_empty (texts_of p)) w
| run_analysis_unusable text a w2 e :
    Processor.extract_text rt p file_path w = (Ok text, w) ->
    strip text <> [] ->
    OllamaService.analyze_text_for_pii rt cfg text w = (Ok a, w2) ->
    py_get a (py "found_pii") (VBool false) = Raise e ->
    run_outcome rt cfg p file_path w
      (ProcessingResult_init false (msg_error (texts_of p) ++ exn_str e)) w2
| run_no_pii text a w2 found :
    Processor.extract_text rt p file_path w = (Ok text, w) ->
    strip text <> [] ->
    OllamaService.analyze_text_for_pii rt cfg text w = (Ok a, w2) ->
    py_get a (py "found_pii") (VBool false) = Ok found ->
    truthy found = false ->
    run_outcome rt cfg p file_path w
      {| success := true; message := msg_no_pii (texts_of p);
         extracted_text := text; output_file := None;
         pii_found := false; redaction_count := 0 |} w2
| run_suggest_failed text a w2 found e :
    Processor.extract_text rt p file_path w = (Ok text, w) ->
    strip text <> [] ->
    OllamaService.analyze_text_for_pii rt cfg text w = (Ok a, w2) ->
    py_get a (py "found_pii") (VBool false) = Ok found ->
    truthy found = true ->
    OllamaService.generate_redaction_suggestions rt cfg a = Raise e ->
    run_outcome rt cfg p file_path w
      (ProcessingResult_init false (msg_error (texts_of p) ++ exn_str e)) w2
| run_below_threshold text a w2 found :
    Processor.extract_text rt p file_path w = (Ok text, w) ->
    strip text <> [] ->
    OllamaService.analyze_text_for_pii rt cfg text w = (Ok a, w2) ->
    py_get a (py "found_pii") (VBool false) = Ok found ->
    truthy found = true ->
    OllamaService.generate_redaction_suggestions rt cfg a = Ok (suggestion_set []) ->
    run_outcome rt cfg p file_path w
      {| success := true;
         message := py "No redactions needed based on confidence threshold";
         extracted_text := text; output_file := None;
         pii_found := true; redaction_count := 0 |} w2
| run_no_temp_file text a w2 found l w3 e :
    Processor.extract_text rt p file_path w = (Ok text, w) ->
    strip text <> [] ->
    OllamaService.analyze_text_for_pii rt cfg text w = (Ok a, w2) ->
    py_get a (py "found_pii") (VBool false) = Ok found ->
    truthy found = true ->
    OllamaService.generate_redaction_suggestions rt cfg a = Ok (suggestion_set l) ->
    l <> [] ->
    create_temp_file (py "redacted_" ++ basename file_path) w2 = (Raise e, w3) ->
    run_outcome rt cfg p file_path w
      (ProcessingResult_init false (msg_error (texts_of p) ++ exn_str e)) w3
| run_redaction text out l ok w' :
    Processor.extract_text rt p file_path w = (Ok text, w) ->
    redaction_attempt rt cfg p file_path w out (VList l) ok w' ->
    run_outcome rt cfg p file_path w
      (redaction_result (texts_of p) text out (length l) ok) w'.

(** The text after one suggestion of the text processor: every
    occurrence of a non-empty [literal_text] is replaced. *)
Definition redact_one (rt : Runtime) (content : pystr) (f : Finding) : pystr :=
  match literal_text f with
  | [] => content
  | _ :: _ => replace content (literal_text f) (table_replacement rt (category f))
  end.

(** A code point that UTF-8 can encode: a Unicode scalar value. *)
Definition encodable (c : N) : bool :=
  match utf8_encode_cp c with Some _ => true | None => false end.

(** A code point that can be written and is not a carriage return. *)
Definition clean (c : N) : bool := encodable c && negb (c =? 13).

(** A redaction whose text is empty or absent. *)
Definition no_text (redaction : pyval) : Prop :=
  exists items,
    redaction = VDict items
    /\ (assoc (py "text") items = None \/ assoc (py "text") items = Some (VStr [])).

(** The [models] entry [m] has the name [name]. *)
Definition model_entry (m name : pyval) : Prop :=
  py_getitem m (py "name") = Ok name.

(** An OCR fragment is above the floor of [0.5]. *)
Definition above_floor (item : ocr_item) : bool :=
  float_gt (ocr_confidence item) ImageProcessor.ocr_floor.

(** The model answers the prompt for [text] with a response whose
    message content is the string [content]. *)
Definition model_answers (rt : Runtime) (cfg : Config) (text content : pystr) : Prop :=
  exists response msg,
    client_chat rt (OLLAMA_MODEL cfg) (OllamaService.prompt text) = Ok response
    /\ py_getitem response (py "message") = Ok msg
    /\ py_getitem msg (py "content") = Ok (VStr content).

(** ** Concrete runs

    A runtime whose model answers every prompt with one fixed JSON text,
    and small worlds to run the pipeline in.  All strings are ASCII. *)

Module Scenario.

Definition jstr (s : string) : pystr := [34] ++ py s ++ [34].

Definition finding_name : pyval :=
  VDict [ (py "type", VStr (py "name"));
          (py "text", VStr (py "John Doe"));
          (py "confidence", VFloat (Finite (95 # 100))) ].

Definition finding_email : pyval :=
  VDict [ (py "type", VStr (py "email"));
          (py "text", VStr (py "john@example.com"));
          (py "confidence", VFloat (Finite (9 # 10))) ].

Definition analysis : pyval :=
  VDict [ (py "found_pii", VBool true);
          (py "categories", VList [VStr (py "name"); VStr (py "email")]);
          (py "details", VList [finding_name; finding_email]);
          (py "recommendation", VStr (py "Redact")) ].

(** The JSON text of [analysis]. *)
Definition analysis_json : pystr :=
  py "{" ++ jstr "found_pii" ++ py ": true, "
  ++ jstr "categories" ++ py ": [" ++ jstr "name" ++ py ", " ++ jstr "email" ++ py "], "
  ++ jstr "details" ++ py ": [{" ++ jstr "type" ++ py ": " ++ jstr "name" ++ py ", "
  ++ jstr "text" ++ py ": " ++ jstr "John Doe" ++ py ", "
  ++ jstr "confidence" ++ py ": 0.95}, {" ++ jstr "type" ++ py ": " ++ jstr "email"
  ++ py ", " ++ jstr "text" ++ py ": " ++ jstr "john@example.com" ++ py ", "
  ++ jstr "confidence" ++ py ": 0.9}], "
  ++ jstr "recommendation" ++ py ": " ++ jstr "Redact" ++ py "}".

Definition response (content : pystr) : pyval :=
  VDict [ (py "model", VStr (py "llama3.2"));
          (py "message", VDict [ (py "role", VStr (py "assistant"));
                                 (py "content", VStr content) ]) ].

(** [json.loads] on the two texts the scenarios use; anything else is
    taken not to be JSON. *)
Definition loads (s : pystr) : result pyval :=
  if pystr_eqb s analysis_json then Ok analysis
  else Raise (Exn JSONDecodeError (py "Expecting value: line 1 column 1 (char 0)")).

(** A PDF library for files of a toy format: every byte of the file is
    a page whose text is this one character. *)
Definition toy_fitz : PyMuPDF :=
  {| Document := list pystr;
     Rect := unit;
     fitz_open := fun data => Ok (List.map (fun b => [Byte.to_N b]) data);
     fitz_open_missing :=
       fun path => Exn LibraryError (py "no such file: " ++ quoted path);
     page_count := fun doc => length doc;
     get_text := fun doc n => Ok (nth n doc []);
     search_for := fun _ _ _ => Ok [];
     add_redact_annot := fun doc _ _ => Ok doc;
     page_apply_redactions := fun doc _ => Ok doc;
     save := fun doc _ => Written (List.map byte_of_N (List.concat doc)) |}.

(** An OCR engine that finds no text, and an imaging library that
    keeps the bytes of the file as the image. *)
Definition blind_ocr : EasyOCR :=
  {| readtext := fun _ => Ok []; readtext_missing := no_such_file |}.

Definition toy_pil : Pillow :=
  {| Image := list Byte.byte;
     Image_open := fun data => Ok data;
     Image_open_missing := no_such_file;
     draw_rectangle := fun image _ => Ok image;
     Image_save := fun image _ => Written image |}.

Definition rt (content : pystr) : Runtime :=
  {| unicode_lower := fun s => s;
     client_chat := fun _ _ => Ok (response content);
     json_loads := loads;
     fitz := Some toy_fitz;
     PIL := Some toy_pil;
     easyocr := Some blind_ocr |}.

(** A runtime whose model cannot be reached. *)
Definition rt_offline : Runtime :=
  {| unicode_lower := fun s => s;
     client_chat := fun _ _ => Raise (Exn LibraryError (py "Connection refused"));
     json_loads := loads;
     fitz := Some toy_fitz;
     PIL := Some toy_pil;
     easyocr := Some blind_ocr |}.

Definition cfg : Config :=
  {| OLLAMA_MODEL := py "llama3.2"; CONFIDENCE_THRESHOLD := Finite (8 # 10) |}.

Definition cfg_at (t : pyfloat) : Config :=
  {| OLLAMA_MODEL := py "llama3.2"; CONFIDENCE_THRESHOLD := t |}.

Definition ascii_bytes (s : string) : list Byte.byte := List.map byte_of_N (py s).

(** The system of the scenarios: the directory [/app/temp] has no
    sub-directories, so that a path below it is refused for its missing
    directory when its name holds a separator, and for nothing else. *)
Definition refused (path : pystr) : option exn :=
  if starts_with (py "/app/temp/") path
     && existsb (N.eqb path_sep) (skipn 10 path)
  then Some (Exn FileNotFoundError
               (py "[Errno 2] No such file or directory: " ++ quoted path))
  else None.

Definition world_with (path : string) (data : list Byte.byte) : world :=
  {| files := {[ py path := data ]};
     cwd := py "/app";
     temp_names := [py "k3x9q2ab"];
     chat_requests := [];
     create_error := refused |}.

Definition contact_text : string := "Contact John Doe at john@example.com".

(** [b"Jos\xe9 Garc\xeda"]: latin-1, not UTF-8. *)
Definition latin1_bytes : list Byte.byte :=
  ascii_bytes "Jos" ++ [Byte.xe9] ++ ascii_bytes " Garc" ++ [Byte.xed] ++ ascii_bytes "a".

Definition temp_out (name : string) : pystr :=
  py "/app/temp/tmpk3x9q2ab_redacted_" ++ py name.

(** The findings of [analysis]. *)
Definition findings : list Finding :=
  [ {| category := py "name"; literal_text := py "John Doe";
       confidence := NFloat (Finite (95 # 100)) |};
    {| category := py "email"; literal_text := py "john@example.com";
       confidence := NFloat (Finite (9 # 10)) |} ].

(** An analysis that names John Doe twice, with a phone number of low
    confidence in between. *)
Definition finding_phone : pyval :=
  VDict [ (py "type", VStr (py "phone"));
          (py "text", VStr (py "555-0100"));
          (py "confidence", VFloat (Finite (1 # 2)));
          (py "start_pos", VInt 20);
          (py "end_pos", VInt 28) ].

Definition analysis_repeated : pyval :=
  VDict [ (py "found_pii", VBool true);
          (py "categories", VList [VStr (py "name"); VStr (py "phone")]);
          (py "details", VList [finding_name; finding_phone; finding_name]) ].

Definition findings_repeated : list Finding :=
  [ {| category := py "name"; literal_text := py "John Doe";
       confidence := NFloat (Finite (95 # 100)) |};
    {| category := py "phone"; literal_text := py "555-0100";
       confidence := NFloat (Finite (1 # 2)) |};
    {| category := py "name"; literal_text := py "John Doe";
       confidence := NFloat (Finite (95 # 100)) |} ].

Definition contact_world : world :=
  world_with "contact.txt" (ascii_bytes contact_text).

Definition notes_world : world := world_with "notes.txt" latin1_bytes.

(** A runtime whose model answers [content], which [json.loads] reads as
    [parsed]. *)
Definition rt_parsing (content : pystr) (parsed : result pyval) : Runtime :=
  {| unicode_lower := fun s => s;
     client_chat := fun _ _ => Ok (response content);
     json_loads := fun _ => parsed;
     fitz := Some toy_fitz;
     PIL := Some toy_pil;
     easyocr := Some blind_ocr |}.

(** What [json.loads] does on a text of a thousand opening brackets. *)
Definition deep_nesting : result pyval :=
  Raise (Exn RecursionError
           (py "maximum recursion depth exceeded while decoding a JSON array from a unicode string")).

(** A runtime without the PDF and the image libraries. *)
Definition rt_bare : Runtime :=
  {| unicode_lower := fun s => s;
     client_chat := fun _ _ => Ok (response analysis_json);
     json_loads := loads;
     fitz := None;
     PIL := None;
     easyocr := None |}.

End Scenario.

(** * Properties *)

(** ** The string and file primitives on small inputs *)

Example replace_does_not_overlap :
  replace (py "aaa") (py "aa") (py "b") = py "ba".
Proof. reflexivity. Qed.

Example strip_keeps_inner_blanks : strip (py "  a b  ") = py "a b".
Proof. reflexivity. Qed.

Example universal_newlines_crlf :
  universal_newlines [13; 10; 13; 65; 10] = [10; 10; 65; 10].
Proof. reflexivity. Qed.

Example utf8_decode_two_bytes : utf8_decode [195; 169] = Some [233].
Proof. reflexivity. Qed.

Example utf8_decode_rejects_latin1 : utf8_decode [233] = None.
Proof. reflexivity. Qed.

Example utf8_decode_rejects_surrogate : utf8_decode [237; 160; 128] = None.
Proof. reflexivity. Qed.

Example utf8_encode_three_bytes : utf8_encode [8364] = Some [226; 130; 172].
Proof. reflexivity. Qed.

Example basename_of_path : basename (py "/srv/bot/temp/tmpab12_report.txt") = py "tmpab12_report.txt".
Proof. reflexivity. Qed.

Example get_processor_jpeg (rt : Runtime) :
  ProcessorFactory.get_processor rt (py ".JPEG") = Some ImageProc.
Proof. reflexivity. Qed.

(** ** Comparisons *)

Lemma float_ge_le_trans (x t1 t2 : pyfloat) :
  float_le t1 t2 = true -> float_ge x t2 = true -> float_ge x t1 = true.
Proof.
  unfold float_le.
  destruct x as [a| | |], t1 as [b| | |], t2 as [c| | |]; simpl; try congruence.
  rewrite !Qle_bool_iff. intros Hbc Hca. eapply Qle_trans; eassumption.
Qed.

Lemma as_float_number (n : number) : as_float (number_val n) = Some (number_float n).
Proof. destruct n; reflexivity. Qed.

Lemma py_ge_number (n : number) (t : pyfloat) :
  py_ge (number_val n) t = Ok (float_ge (number_float n) t).
Proof. unfold py_ge. rewrite as_float_number. reflexivity. Qed.

Lemma pystr_eqb_eq (a b : pystr) : pystr_eqb a b = true <-> a = b.
Proof.
  revert b. induction a as [|x a IH]; intros [|y b]; simpl; split; try congruence; auto.
  - intros [Hx Hab]%andb_true_iff. apply N.eqb_eq in Hx. apply IH in Hab. congruence.
  - intros [= -> ->]. rewrite N.eqb_refl. simpl. apply IH. reflexivity.
Qed.

(** ** Suggestions *)

Section SuggestionFacts.

Variable rt : Runtime.

Lemma generate_replacement_str (cat : pystr) :
  OllamaService._generate_replacement rt (VStr cat) = Ok (table_replacement rt cat).
Proof. reflexivity. Qed.

Lemma suggestions_loop_repr (cfg : Config) (ds : list pyval) (fs : list Finding) :
  Forall2 detail_repr ds fs ->
  forall acc,
    OllamaService.suggestions_loop rt cfg ds acc
    = Ok (acc ++ List.map (suggestion_of rt) (List.filter (above_threshold cfg) fs)).
Proof.
  induction 1 as [|d f ds fs (items & -> & Hty & Htx & Hc) _ IH]; intros acc; simpl.
  - rewrite app_nil_r. reflexivity.
  - rewrite Hc, Htx, Hty. rewrite py_ge_number. simpl.
    unfold above_threshold at 1.
    destruct (float_ge (number_float (confidence f)) (CONFIDENCE_THRESHOLD cfg)); simpl.
    + rewrite IH. rewrite <- app_assoc. reflexivity.
    + apply IH.
Qed.

Lemma generate_repr (cfg : Config) (a : pyval) (fs : list Finding) :
  analysis_repr a true fs ->
  OllamaService.generate_redaction_suggestions rt cfg a
  = Ok (suggestion_set
          (List.map (suggestion_of rt) (List.filter (above_threshold cfg) fs))).
Proof.
  intros (items & ds & -> & Hfound & Hdet & Hds).
  unfold OllamaService.generate_redaction_suggestions. simpl.
  rewrite Hfound, Hdet. simpl.
  rewrite (suggestions_loop_repr cfg ds fs Hds []). reflexivity.
Qed.

Lemma generate_not_found (cfg : Config) (a found : pyval) :
  py_get a (py "found_pii") (VBool false) = Ok found ->
  truthy found = false ->
  OllamaService.generate_redaction_suggestions rt cfg a = Ok (suggestion_set []).
Proof.
  intros Hget Hf. unfold OllamaService.generate_redaction_suggestions.
  rewrite Hget. simpl. rewrite Hf. reflexivity.
Qed.

Lemma filter_threshold_length (cfg1 cfg2 : Config) (fs : list Finding) :
  float_le (CONFIDENCE_THRESHOLD cfg1) (CONFIDENCE_THRESHOLD cfg2) = true ->
  (length (List.filter (above_threshold cfg2) fs)
   <= length (List.filter (above_threshold cfg1) fs))%nat.
Proof.
  intros Hle. induction fs as [|f fs IH]; simpl; [lia|].
  destruct (above_threshold cfg2 f) eqn:H2.
  - unfold above_threshold in *.
    rewrite (float_ge_le_trans _ _ _ Hle H2). simpl. lia.
  - destruct (above_threshold cfg1 f); simpl; lia.
Qed.

End SuggestionFacts.

(** C1.  For an analysis with [found_pii] true, [generate_redaction_suggestions]
    returns exactly the findings whose confidence is at least the threshold,
    in the order of the findings and without removing repeated texts; each
    suggestion carries the text, the category and the confidence of its finding
    and the replacement of the static table; [needs_redaction] says whether the
    list is non-empty.  With [found_pii] false the list is empty and
    [needs_redaction] is false. *)
Theorem suggest_filters_findings (rt : Runtime) (cfg : Config) (a : pyval)
    (found : bool) (fs : list Finding) :
  analysis_repr a found fs ->
  exists suggestions,
    OllamaService.generate_redaction_suggestions rt cfg a
    = Ok (VDict [ (py "needs_redaction", VBool (0 <? length suggestions)%nat);
                  (py "suggestions", VList suggestions) ])
    /\ suggestions
       = if found
         then List.map (suggestion_of rt) (List.filter (above_threshold cfg) fs)
         else [].
Proof.
  intros Ha. destruct found.
  - eexists. split; [|reflexivity]. apply (generate_repr rt cfg a fs Ha).
  - exists []. split; [|reflexivity].
    destruct Ha as (items & ds & -> & Hfound & _).
    apply (generate_not_found rt cfg _ (VBool false)); [|reflexivity].
    simpl. rewrite Hfound. reflexivity.
Qed.

(** C8.  Raising the threshold never increases the number of suggestions. *)
Theorem threshold_monotone (rt : Runtime) (cfg1 cfg2 : Config) (a : pyval)
    (found : bool) (fs : list Finding) :
  analysis_repr a found fs ->
  float_le (CONFIDENCE_THRESHOLD cfg1) (CONFIDENCE_THRESHOLD cfg2) = true ->
  exists l1 l2,
    OllamaService.generate_redaction_suggestions rt cfg1 a = Ok (suggestion_set l1)
    /\ OllamaService.generate_redaction_suggestions rt cfg2 a = Ok (suggestion_set l2)
    /\ (length l2 <= length l1)%nat.
Proof.
  intros Ha Hle. destruct found.
  - do 2 eexists. split; [apply (generate_repr rt cfg1 a fs Ha)|].
    split; [apply (generate_repr rt cfg2 a fs Ha)|].
    rewrite !length_map. apply filter_threshold_length, Hle.
  - destruct Ha as (items & ds & -> & Hfound & _).
    exists [], []. split; [|split; [|simpl; lia]].
    + apply (generate_not_found rt cfg1 _ (VBool false)); [|reflexivity].
      simpl. rewrite Hfound. reflexivity.
    + apply (generate_not_found rt cfg2 _ (VBool false)); [|reflexivity].
      simpl. rewrite Hfound. reflexivity.
Qed.

(** C9, as the code has it.  A category whose lower-case form is a key of
    the static table is replaced by the literal the table gives for it:
    [[NAME REDACTED]], [[EMAIL REDACTED]], [[PHONE REDACTED]],
    [[ADDRESS REDACTED]] and [[SSN REDACTED]], the bracketed upper-case
    category name, for [name], [email], [phone], [address] and [ssn], and
    [[CARD NUMBER REDACTED]], [[ACCOUNT NUMBER REDACTED]], [[ID NUMBER REDACTED]],
    [[DOB REDACTED]] and [[MEDICAL INFO REDACTED]] for [credit_card],
    [bank_account], [id_number], [date_of_birth] and [medical]; a category
    whose lower-case form is none of these ten keys gets the generic
    [[SENSITIVE INFO REDACTED]]. *)
Theorem replacement_from_table (rt : Runtime) :
  (forall s k r,
     In (k, r) [ (py "name", py "[NAME REDACTED]");
                 (py "email", py "[EMAIL REDACTED]");
                 (py "phone", py "[PHONE REDACTED]");
                 (py "address", py "[ADDRESS REDACTED]");
                 (py "ssn", py "[SSN REDACTED]");
                 (py "credit_card", py "[CARD NUMBER REDACTED]");
                 (py "bank_account", py "[ACCOUNT NUMBER REDACTED]");
                 (py "id_number", py "[ID NUMBER REDACTED]");
                 (py "date_of_birth", py "[DOB REDACTED]");
                 (py "medical", py "[MEDICAL INFO REDACTED]") ] ->
     lower rt s = k ->
     OllamaService._generate_replacement rt (VStr s) = Ok r)
  /\ (forall k, In k [py "name"; py "email"; py "phone"; py "address"; py "ssn"] ->
        OllamaService._generate_replacement rt (VStr k) = Ok (bracketed_upper k))
  /\ (forall s,
        ~ In (lower rt s)
            [ py "name"; py "email"; py "phone"; py "address"; py "ssn";
              py "credit_card"; py "bank_account"; py "id_number";
              py "date_of_birth"; py "medical" ] ->
        OllamaService._generate_replacement rt (VStr s)
        = Ok (py "[SENSITIVE INFO REDACTED]")).
Proof.
  split; [|split].
  - intros s k r Hin Hlow. rewrite generate_replacement_str.
    unfold table_replacement. rewrite Hlow. simpl in Hin.
    repeat (destruct Hin as [[= <- <-]|Hin]; [reflexivity|]). destruct Hin.
  - intros k Hin. simpl in Hin.
    repeat (destruct Hin as [<-|Hin]; [reflexivity|]). destruct Hin.
  - intros s Hnone. rewrite generate_replacement_str.
    unfold table_replacement, OllamaService.replacements. cbn [assoc].
    repeat (destruct (pystr_eqb (lower rt s) _) eqn:E;
            [apply pystr_eqb_eq in E; exfalso; apply Hnone; rewrite E; cbn; tauto|];
            clear E).
    reflexivity.
Qed.

(** C9, as the specification words it, fails: the table does not give
    [medical] the bracketed upper-case name. *)
Lemma medical_replacement_not_bracketed :
  OllamaService._generate_replacement (Scenario.rt []) (VStr (py "medical"))
  <> Ok (bracketed_upper (py "medical")).
Proof. vm_compute. discriminate. Qed.

(** C2.  The suggestions for the two findings of the contact line, applied
    to the plain-text file, give the redacted line. *)
Theorem round_trip_plain_text :
  exists sugg l,
    OllamaService.generate_redaction_suggestions
      (Scenario.rt Scenario.analysis_json) Scenario.cfg Scenario.analysis = Ok sugg
    /\ py_getitem sugg (py "suggestions") = Ok l
    /\ exists w',
         TextProcessor.apply_redactions (py "contact.txt") l (py "redacted.txt")
           (Scenario.world_with "contact.txt" (Scenario.ascii_bytes Scenario.contact_text))
         = (Ok true, w')
         /\ files w' !! py "contact.txt"
            = Some (Scenario.ascii_bytes "Contact John Doe at john@example.com")
         /\ files w' !! py "redacted.txt"
            = Some (Scenario.ascii_bytes "Contact [NAME REDACTED] at [EMAIL REDACTED]").
Proof.
  eexists. eexists. split; [vm_compute; reflexivity|].
  split; [vm_compute; reflexivity|].
  eexists. split; [vm_compute; reflexivity|].
  split; vm_compute; reflexivity.
Qed.

(** ** The analysis call *)

Ltac unfold_M :=
  unfold mbind, M_bind, mret, M_ret, lift, raise, try_except in *.

Section AnalysisFacts.

Variable rt : Runtime.
Variable cfg : Config.

Lemma analyze_total (text : pystr) (w : world) :
  exists a,
    OllamaService.analyze_text_for_pii rt cfg text w
    = (Ok a, after_chat (OllamaService.prompt text) w).
Proof.
  unfold OllamaService.analyze_text_for_pii, OllamaService.chat. unfold_M.
  destruct (client_chat rt (OLLAMA_MODEL cfg) (OllamaService.prompt text))
    as [response|e]; [|eauto].
  destruct (py_getitem response (py "message")) as [msg|e]; [|eauto].
  destruct (py_getitem msg (py "content")) as [result_text|e]; [|eauto].
  destruct (OllamaService.py_json_loads rt result_text) as [a|e]; [eauto|].
  destruct (exn_kind e); eauto.
Qed.

Lemma analyze_world (text : pystr) (w w' : world) (r : result pyval) :
  OllamaService.analyze_text_for_pii rt cfg text w = (r, w') ->
  is_ok r = true /\ files w' = files w /\ temp_names w' = temp_names w
  /\ cwd w' = cwd w.
Proof.
  destruct (analyze_total text w) as [a Ha]. rewrite Ha.
  intros [= <- <-]. repeat split.
Qed.

End AnalysisFacts.

(** C3, as the code has it.  [analyze_text_for_pii] never raises.  When
    [json.loads] raises [JSONDecodeError] on the answer of the model, it
    returns [found_pii] true, the categories [["unknown"]], no details and the
    raw answer.  When the call to the model raises, and when [json.loads]
    raises any other exception than [JSONDecodeError], it returns [found_pii]
    false, no details and the text of the exception. *)
Theorem analyze_never_raises (rt : Runtime) (cfg : Config) (text : pystr) (w : world) :
  (exists a,
     OllamaService.analyze_text_for_pii rt cfg text w
     = (Ok a, after_chat (OllamaService.prompt text) w))
  /\ (forall response msg content e,
        client_chat rt (OLLAMA_MODEL cfg) (OllamaService.prompt text) = Ok response ->
        py_getitem response (py "message") = Ok msg ->
        py_getitem msg (py "content") = Ok (VStr content) ->
        json_loads rt content = Raise e ->
        exn_kind e = JSONDecodeError ->
        OllamaService.analyze_text_for_pii rt cfg text w
        = (Ok (VDict [ (py "found_pii", VBool true);
                       (py "categories", VList [VStr (py "unknown")]);
                       (py "details", VList []);
                       (py "recommendation", VStr (py "Manual review recommended"));
                       (py "raw_response", VStr content) ]),
           after_chat (OllamaService.prompt text) w))
  /\ (forall e,
        client_chat rt (OLLAMA_MODEL cfg) (OllamaService.prompt text) = Raise e ->
        OllamaService.analyze_text_for_pii rt cfg text w
        = (Ok (VDict [ (py "found_pii", VBool false);
                       (py "categories", VList []);
                       (py "details", VList []);
                       (py "recommendation",
                        VStr (py "Analysis failed - manual review required"));
                       (py "error", VStr (exn_str e)) ]),
           after_chat (OllamaService.prompt text) w))
  /\ (forall response msg content e,
        client_chat rt (OLLAMA_MODEL cfg) (OllamaService.prompt text) = Ok response ->
        py_getitem response (py "message") = Ok msg ->
        py_getitem msg (py "content") = Ok content ->
        OllamaService.py_json_loads rt content = Raise e ->
        exn_kind e <> JSONDecodeError ->
        OllamaService.analyze_text_for_pii rt cfg text w
        = (Ok (VDict [ (py "found_pii", VBool false);
                       (py "categories", VList []);
                       (py "details", VList []);
                       (py "recommendation",
                        VStr (py "Analysis failed - manual review required"));
                       (py "error", VStr (exn_str e)) ]),
           after_chat (OllamaService.prompt text) w)).
Proof.
  split; [apply analyze_total|]. split; [|split].
  - intros response msg content e Hchat Hmsg Hcontent Hloads Hkind.
    unfold OllamaService.analyze_text_for_pii, OllamaService.chat. unfold_M.
    rewrite Hchat, Hmsg, Hcontent. simpl. rewrite Hloads, Hkind. reflexivity.
  - intros e Hchat.
    unfold OllamaService.analyze_text_for_pii, OllamaService.chat. unfold_M.
    rewrite Hchat. reflexivity.
  - intros response msg content e Hchat Hmsg Hcontent Hloads Hkind.
    unfold OllamaService.analyze_text_for_pii, OllamaService.chat. unfold_M.
    rewrite Hchat, Hmsg, Hcontent, Hloads.
    destruct (exn_kind e); first [reflexivity | exfalso; apply Hkind; reflexivity].
Qed.

(** C3, as the specification words it, fails: an answer of a thousand
    opening brackets is not JSON, but [json.loads] raises [RecursionError] on
    it and not [JSONDecodeError]; the analysis then reports [found_pii] false
    and does not keep the raw answer. *)
Lemma deeply_nested_answer_reports_no_pii :
  exists a w',
    OllamaService.analyze_text_for_pii
      (Scenario.rt_parsing (List.repeat 91 1000) Scenario.deep_nesting) Scenario.cfg
      (py Scenario.contact_text) Scenario.contact_world
    = (Ok a, w')
    /\ py_getitem a (py "found_pii") = Ok (VBool false)
    /\ py_getitem a (py "raw_response") = Raise (Exn KeyError (quoted (py "raw_response"))).
Proof.
  eexists. eexists. split; [vm_compute; reflexivity|].
  split; vm_compute; reflexivity.
Qed.

(** ** The stages of the workflow *)

Lemma process_file_workflow (rt : Runtime) (cfg : Config) (p : processor) :
  Processor.process_file rt cfg p = workflow rt cfg p.
Proof. destruct p; reflexivity. Qed.

Lemma generate_shape (rt : Runtime) (cfg : Config) (a sugg : pyval) :
  OllamaService.generate_redaction_suggestions rt cfg a = Ok sugg ->
  exists l, sugg = suggestion_set l.
Proof.
  unfold OllamaService.generate_redaction_suggestions.
  destruct (py_get a (py "found_pii") (VBool false)) as [found|e]; simpl; [|discriminate].
  destruct (truthy found); simpl.
  - destruct (py_get a (py "details") (VList [])) as [details|e]; simpl; [|discriminate].
    destruct (py_iter details) as [items|e]; simpl; [|discriminate].
    destruct (OllamaService.suggestions_loop rt cfg items []) as [l|e]; simpl;
      [|discriminate].
    intros [= <-]. exists l. reflexivity.
  - intros [= <-]. exists []. reflexivity.
Qed.

Lemma suggestion_set_needs (l : list pyval) (needs : pyval) :
  py_get (suggestion_set l) (py "needs_redaction") (VBool false) = Ok needs ->
  truthy needs = true ->
  (0 < length l)%nat.
Proof.
  intros [= <-]. simpl. intros H. apply Nat.ltb_lt in H. exact H.
Qed.

Lemma suggestion_set_items (l : list pyval) :
  py_getitem (suggestion_set l) (py "suggestions") = Ok (VList l).
Proof. reflexivity. Qed.

(** Reading does not change the world. *)
Lemma read_text_world (path : pystr) (enc : encoding) (w w' : world) (r : result pystr) :
  read_text path enc w = (r, w') ->
  w' = w /\ (is_ok r = true -> is_Some (files w !! path)).
Proof.
  unfold read_text. destruct (files w !! path) as [data|].
  - intros [= <- <-]. split; [reflexivity|]. intros _. eexists. reflexivity.
  - intros [= <- <-]. split; [reflexivity|]. discriminate.
Qed.

Lemma extract_text_world (rt : Runtime) (p : processor) (file_path : pystr)
    (w w' : world) (r : result pystr) :
  Processor.extract_text rt p file_path w = (r, w') ->
  w' = w /\ (is_ok r = true -> is_Some (files w !! file_path)).
Proof.
  destruct p; simpl.
  - unfold TextProcessor.extract_text. unfold_M.
    destruct (read_text file_path UTF8 w) as [[text|e] w1] eqn:H1;
      apply read_text_world in H1 as [-> Hsome].
    + intros [= <- <-]. split; [reflexivity|]. exact Hsome.
    + destruct (exn_kind e).
      5: { destruct (read_text file_path Latin1 w) as [[text|e'] w2] eqn:H2;
           apply read_text_world in H2 as [-> Hsome2]; intros [= <- <-];
           (split; [reflexivity|]); [exact Hsome2|discriminate]. }
      all: intros [= <- <-]; split; [reflexivity|discriminate].
  - unfold PDFProcessor.extract_text, PDFProcessor.import_fitz, read_bytes. unfold_M.
    destruct (fitz rt) as [m|]; simpl.
    + destruct (files w !! file_path) as [data|]; simpl.
      * destruct (fitz_open m data) as [doc|e]; simpl.
        -- destruct (PDFProcessor.extract_pages m doc _ []) as [t|e]; simpl.
           ++ intros [= <- <-]. split; [reflexivity|]. intros _. eexists. reflexivity.
           ++ destruct (exn_kind e); intros [= <- <-]; split;
                reflexivity || discriminate.
        -- destruct (exn_kind e); intros [= <- <-]; split; reflexivity || discriminate.
      * destruct (exn_kind _); intros [= <- <-]; split; reflexivity || discriminate.
    + intros [= <- <-]. split; [reflexivity|discriminate].
  - unfold ImageProcessor.extract_text, ImageProcessor.import_easyocr, read_bytes.
    unfold_M.
    destruct (easyocr rt) as [m|]; simpl.
    + destruct (files w !! file_path) as [data|]; simpl.
      * destruct (readtext m data) as [results|e]; simpl.
        -- intros [= <- <-]. split; [reflexivity|]. intros _. eexists. reflexivity.
        -- destruct (exn_kind e); intros [= <- <-]; split; reflexivity || discriminate.
      * destruct (exn_kind _); intros [= <- <-]; split; reflexivity || discriminate.
    + intros [= <- <-]. split; [reflexivity|discriminate].
Qed.

Lemma fresh_temp_path_spec (fs : gmap pystr (list Byte.byte))
    (refused : pystr -> option exn) (dir suffix : pystr)
    (names names' : list pystr) (p : pystr) :
  fresh_temp_path fs refused dir suffix names = (Ok p, names') -> fs !! p = None.
Proof.
  induction names as [|n names IH]; cbn [fresh_temp_path]; [discriminate|].
  destruct (fs !! path_join dir (py "tmp" ++ n ++ suffix)) eqn:Hp; [exact IH|].
  destruct (refused (path_join dir (py "tmp" ++ n ++ suffix))) as [e|].
  - destruct (exn_kind e); first [exact IH | discriminate].
  - intros [= <- <-]. exact Hp.
Qed.

Lemma makedirs_world (path : pystr) (w w' : world) (r : result unit) :
  makedirs path w = (r, w') -> w' = w.
Proof.
  unfold makedirs. destruct (files w !! path); [intros [= _ <-]; reflexivity|].
  destruct (create_error w path) as [e|]; [|intros [= _ <-]; reflexivity].
  destruct (exn_kind e); intros [= _ <-]; reflexivity.
Qed.

(** [create_temp_file] creates an empty file that did not exist, or
    raises and leaves the files as they are. *)
Lemma create_temp_file_spec (name : pystr) (w w' : world) (r : result pystr) :
  create_temp_file name w = (r, w') ->
  match r with
  | Ok out =>
      files w !! out = None /\ files w' = <[out := []]> (files w)
  | Raise _ => files w' = files w
  end
  /\ chat_requests w' = chat_requests w.
Proof.
  unfold create_temp_file. unfold mbind, M_bind.
  destruct (makedirs (path_join (cwd w) (py "temp")) w) as [[[]|e] w1] eqn:Hmk;
    apply makedirs_world in Hmk as ->.
  - unfold NamedTemporaryFile.
    destruct (fresh_temp_path (files w) _ _ _ (temp_names w)) as [[out|e] names'] eqn:Hf.
    + intros [= <- <-]. simpl. repeat split.
      eapply fresh_temp_path_spec, Hf.
    + intros [= <- <-]. simpl. split; reflexivity.
  - intros [= <- <-]. split; reflexivity.
Qed.

Lemma write_text_frame (path : pystr) (enc : encoding) (content : pystr)
    (w w' : world) (r : result unit) :
  write_text path enc content w = (r, w') ->
  (forall q, q <> path -> files w' !! q = files w !! q)
  /\ chat_requests w' = chat_requests w.
Proof.
  unfold write_text. destruct (encode enc content); intros [= <- <-]; simpl;
    (split; [|reflexivity]); intros q Hq; apply lookup_insert_ne; congruence.
Qed.

Lemma write_file_frame (path : pystr) (o : write_outcome) (w w' : world) (r : result unit) :
  write_file path o w = (r, w') ->
  (forall q, q <> path -> files w' !! q = files w !! q)
  /\ chat_requests w' = chat_requests w.
Proof.
  unfold write_file. destruct o as [data|e [data|]]; intros [= <- <-]; simpl;
    (split; [|reflexivity]); intros q Hq; try reflexivity;
    apply lookup_insert_ne; congruence.
Qed.

(** [apply_redactions] never raises, and only the output path can
    change. *)
Lemma apply_redactions_frame (rt : Runtime) (p : processor) (file_path : pystr)
    (redactions : pyval) (output_path : pystr) (w w' : world) (r : result bool) :
  Processor.apply_redactions rt p file_path redactions output_path w = (r, w') ->
  (exists b, r = Ok b)
  /\ (forall q, q <> output_path -> files w' !! q = files w !! q)
  /\ chat_requests w' = chat_requests w.
Proof.
  destruct p; simpl.
  - unfold TextProcessor.apply_redactions. unfold_M.
    destruct (read_text file_path UTF8 w) as [[content|e] w1] eqn:H1;
      apply read_text_world in H1 as [-> _];
      [|intros [= <- <-]; eauto].
    destruct (py_iter redactions) as [items|e]; [|intros [= <- <-]; eauto].
    destruct (TextProcessor.redact_loop items content) as [redacted|e];
      [|intros [= <- <-]; eauto].
    destruct (write_text output_path UTF8 redacted w) as [[[]|e] w2] eqn:H2;
      apply write_text_frame in H2 as [Hfr Hch].
    + destruct (py_len redactions); intros [= <- <-]; eauto.
    + intros [= <- <-]; eauto.
  - unfold PDFProcessor.apply_redactions, PDFProcessor.import_fitz, read_bytes. unfold_M.
    destruct (fitz rt) as [m|]; [|intros [= <- <-]; eauto].
    destruct (files w !! file_path) as [data|]; [|intros [= <- <-]; eauto].
    destruct (fitz_open m data) as [doc|e]; [|intros [= <- <-]; eauto].
    destruct (PDFProcessor.redact_pages m doc _ redactions) as [doc'|e];
      [|intros [= <- <-]; eauto].
    destruct (write_file output_path (save m doc' output_path) w) as [[[]|e] w2] eqn:H2;
      apply write_file_frame in H2 as [Hfr Hch].
    + destruct (py_len redactions); intros [= <- <-]; eauto.
    + intros [= <- <-]; eauto.
  - unfold ImageProcessor.apply_redactions, ImageProcessor.import_PIL,
      ImageProcessor.import_easyocr, read_bytes. unfold_M.
    destruct (PIL rt) as [pil|]; [|intros [= <- <-]; eauto].
    destruct (easyocr rt) as [ocr|]; [|intros [= <- <-]; eauto].
    destruct (files w !! file_path) as [data|]; [|intros [= <- <-]; eauto].
    destruct (Image_open pil data) as [image|e]; [|intros [= <- <-]; eauto].
    destruct (readtext ocr data) as [ocr_results|e]; [|intros [= <- <-]; eauto].
    destruct (py_iter redactions) as [items|e]; [|intros [= <- <-]; eauto].
    destruct (ImageProcessor.redact_loop rt pil image items ocr_results) as [image'|e];
      [|intros [= <- <-]; eauto].
    destruct (write_file output_path (Image_save pil image' output_path) w)
      as [[[]|e] w2] eqn:H2;
      apply write_file_frame in H2 as [Hfr Hch]; intros [= <- <-]; eauto.
Qed.

Lemma suggestion_set_get_needs (l : list pyval) :
  py_get (suggestion_set l) (py "needs_redaction") (VBool false)
  = Ok (VBool (0 <? length l)%nat).
Proof. reflexivity. Qed.

Lemma strip_truthy (text : pystr) :
  truthy (VStr (strip text)) = true <-> strip text <> [].
Proof. destruct (strip text); simpl; split; congruence. Qed.

(** A run that reaches the redaction step ends with the result of that
    step. *)
Lemma workflow_attempt (rt : Runtime) (cfg : Config) (p : processor)
    (file_path : pystr) (w : world) (out : pystr) (l : pyval) (ok : bool) (w' : world) :
  redaction_attempt rt cfg p file_path w out l ok w' ->
  exists text n,
    py_len l = Ok n /\ (0 < n)%nat
    /\ Processor.extract_text rt p file_path w = (Ok text, w)
    /\ Processor.process_file rt cfg p file_path w
       = (Ok (redaction_result (texts_of p) text out n ok), w').
Proof.
  intros (text & w1 & a & w2 & found & sugg & needs & w3
          & Hex & Hstrip & Han & Hfound & Htf & Hgen & Hneeds & Htn & Hct & Hl & Hap).
  destruct (extract_text_world _ _ _ _ _ _ Hex) as [-> _].
  destruct (generate_shape _ _ _ _ Hgen) as [l0 ->].
  rewrite suggestion_set_items in Hl. injection Hl as <-.
  pose proof (suggestion_set_needs _ _ Hneeds Htn) as Hpos.
  exists text, (length l0). split; [reflexivity|]. split; [exact Hpos|].
  split; [exact Hex|].
  rewrite process_file_workflow. unfold workflow. unfold_M.
  rewrite Hex. apply strip_truthy in Hstrip. rewrite Hstrip. cbn [negb].
  rewrite Han, Hfound, Htf. cbn [negb]. rewrite Hgen, Hneeds, Htn. cbn [negb].
  rewrite Hct. rewrite suggestion_set_items. rewrite Hap.
  destruct ok; reflexivity.
Qed.

(** Every run ends with a result: either before any file was written,
    without an output file, or after the redaction step. *)
Lemma workflow_cases (rt : Runtime) (cfg : Config) (p : processor)
    (file_path : pystr) (w : world) :
  exists res w',
    Processor.process_file rt cfg p file_path w = (Ok res, w')
    /\ ((output_file res = None /\ redaction_count res = 0%nat /\ files w' = files w)
        \/ exists out l ok, redaction_attempt rt cfg p file_path w out l ok w').
Proof.
  rewrite process_file_workflow. unfold workflow. unfold_M.
  destruct (Processor.extract_text rt p file_path w) as [[text|e] w1] eqn:Hex;
    destruct (extract_text_world _ _ _ _ _ _ Hex) as [-> _];
    [|do 2 eexists; split; [reflexivity|left; repeat split]].
  destruct (truthy (VStr (strip text))) eqn:Hstrip; cbn [negb];
    [|do 2 eexists; split; [reflexivity|left; destruct p; repeat split]].
  destruct (analyze_total rt cfg text w) as [a Han]. rewrite Han.
  destruct (py_get a (py "found_pii") (VBool false)) as [found|e] eqn:Hfound;
    [|do 2 eexists; split; [reflexivity|left; repeat split]].
  destruct (truthy found) eqn:Htf; cbn [negb];
    [|do 2 eexists; split; [reflexivity|left; repeat split]].
  destruct (OllamaService.generate_redaction_suggestions rt cfg a) as [sugg|e] eqn:Hgen;
    [|do 2 eexists; split; [reflexivity|left; repeat split]].
  destruct (generate_shape _ _ _ _ Hgen) as [l0 ->].
  rewrite suggestion_set_get_needs. cbn [truthy].
  destruct (0 <? length l0)%nat eqn:Hpos; cbn [negb];
    [|do 2 eexists; split; [reflexivity|left; repeat split]].
  destruct (create_temp_file (py "redacted_" ++ basename file_path)
              (after_chat (OllamaService.prompt text) w)) as [[out|e] w3] eqn:Hct.
  2: { do 2 eexists. split; [reflexivity|]. left.
       apply create_temp_file_spec in Hct as [Hfiles _]. repeat split.
       exact Hfiles. }
  rewrite suggestion_set_items.
  destruct (Processor.apply_redactions rt p file_path (VList l0) out w3)
    as [rb w4] eqn:Hap.
  destruct (apply_redactions_frame _ _ _ _ _ _ _ _ Hap) as [[b ->] _].
  assert (Hatt : redaction_attempt rt cfg p file_path w out (VList l0) b w4).
  { exists text, w, a, (after_chat (OllamaService.prompt text) w), found,
      (suggestion_set l0), (VBool (0 <? length l0)%nat), w3.
    repeat split; try assumption. apply strip_truthy, Hstrip. }
  destruct b; do 2 eexists; (split; [reflexivity|]); right; eauto.
Qed.

(** ** The outcome of a run *)

(** C4.  When the extracted text is empty after [strip()], the text and the
    PDF processor return a result with [success] false, the image processor
    returns [success] true with [pii_found] false, a count of 0 and no output
    file; in all three cases nothing was sent to the model. *)
Theorem empty_text_outcome (rt : Runtime) (cfg : Config) (p : processor)
    (file_path : pystr) (w w1 : world) (text : pystr) :
  Processor.extract_text rt p file_path w = (Ok text, w1) ->
  strip text = [] ->
  exists res w',
    Processor.process_file rt cfg p file_path w = (Ok res, w')
    /\ chat_requests w' = chat_requests w
    /\ match p with
       | ImageProc =>
           success res = true /\ pii_found res = false
           /\ redaction_count res = 0%nat /\ output_file res = None
       | TextProc | PDFProc => success res = false
       end.
Proof.
  intros Hex Hstrip.
  destruct (extract_text_world _ _ _ _ _ _ Hex) as [-> _].
  exists (on_empty (texts_of p)), w.
  rewrite process_file_workflow. unfold workflow. unfold_M.
  rewrite Hex, Hstrip. cbn [truthy negb].
  split; [reflexivity|]. split; [reflexivity|].
  destruct p; repeat split.
Qed.

(** For a PDF the text is blank only when the document has no page:
    every page adds the page-break marker to the text. *)

Lemma lstrip_printable (s : pystr) :
  existsb printable s = true -> existsb printable (lstrip s) = true.
Proof.
  induction s as [|c s IH]; [discriminate|].
  cbn [lstrip]. destruct (is_space c) eqn:Hc.
  - cbn [existsb]. unfold printable at 1. rewrite Hc. cbn [negb orb]. exact IH.
  - intros H. exact H.
Qed.

Lemma existsb_rev_printable (s : pystr) :
  existsb printable (rev s) = existsb printable s.
Proof.
  induction s as [|c s IH]; [reflexivity|].
  cbn [rev existsb]. rewrite existsb_app, IH. cbn [existsb].
  rewrite orb_false_r. apply orb_comm.
Qed.

Lemma strip_printable (s : pystr) :
  existsb printable s = true -> strip s <> [].
Proof.
  intros H. unfold strip, rstrip.
  apply lstrip_printable in H. rewrite <- existsb_rev_printable in H.
  apply lstrip_printable in H. rewrite <- existsb_rev_printable in H.
  intros Heq. rewrite Heq in H. discriminate.
Qed.

Lemma extract_pages_marker (m : PyMuPDF) (doc : Document m) (page_nums : list nat) :
  page_nums <> [] ->
  forall acc t,
    PDFProcessor.extract_pages m doc page_nums acc = Ok t ->
    exists pre, t = pre ++ PDFProcessor.page_break.
Proof.
  induction page_nums as [|n rest IH]; [congruence|]. intros _ acc t.
  cbn [PDFProcessor.extract_pages].
  destruct (get_text m doc n) as [t0|e]; cbn [mbind result_bind]; [|discriminate].
  destruct rest as [|n' rest'].
  - intros [= <-]. eexists. reflexivity.
  - apply IH. discriminate.
Qed.

(** The text [PDFProcessor.extract_text] returns is blank only when the
    document has no page: every page adds the page-break marker to the
    text. *)
Lemma pdf_text_blank_only_without_pages (rt : Runtime) (m : PyMuPDF)
    (file_path : pystr) (data : list Byte.byte) (doc : Document m)
    (w w' : world) (text : pystr) :
  fitz rt = Some m ->
  files w !! file_path = Some data ->
  fitz_open m data = Ok doc ->
  PDFProcessor.extract_text rt file_path w = (Ok text, w') ->
  strip text = [] ->
  page_count m doc = 0%nat.
Proof.
  intros Hfitz Hfile Hopen.
  unfold PDFProcessor.extract_text, PDFProcessor.import_fitz, read_bytes. unfold_M.
  rewrite Hfitz, Hfile, Hopen.
  destruct (page_count m doc) as [|k] eqn:Hk; [reflexivity|].
  destruct (PDFProcessor.extract_pages m doc (seq 0 (S k)) []) as [t|e] eqn:Hpages.
  - intros [= <- <-] Hblank. exfalso.
    destruct (extract_pages_marker m doc (seq 0 (S k)) ltac:(discriminate) [] t Hpages)
      as [pre ->].
    revert Hblank. apply strip_printable.
    rewrite existsb_app. apply orb_true_iff. right. vm_compute. reflexivity.
  - destruct (exn_kind e); discriminate.
Qed.

(** C5.  The result of a run has an output file exactly when [success] is
    true and [redaction_count] is positive; and when the redaction step of the
    run succeeded, the result is successful, names the file that was written
    and counts the suggestions that were passed to [apply_redactions]. *)
Theorem output_iff_success_and_count (rt : Runtime) (cfg : Config) (p : processor)
    (file_path : pystr) (w : world) :
  exists res w',
    Processor.process_file rt cfg p file_path w = (Ok res, w')
    /\ (is_Some (output_file res)
        <-> success res = true /\ (0 < redaction_count res)%nat)
    /\ (forall out l w'',
          redaction_attempt rt cfg p file_path w out l true w'' ->
          w'' = w' /\ success res = true /\ output_file res = Some out
          /\ py_len l = Ok (redaction_count res)).
Proof.
  destruct (workflow_cases rt cfg p file_path w) as (res & w' & Hrun & Hcases).
  exists res, w'. split; [exact Hrun|]. split.
  - destruct Hcases as [(Hout & Hcount & _)|(out & l & ok & Hatt)].
    + rewrite Hout, Hcount. split; [intros [? [=]]|intros [_ ?]; lia].
    + destruct (workflow_attempt _ _ _ _ _ _ _ _ _ Hatt) as (text & n & _ & Hn & _ & Hrun').
      rewrite Hrun in Hrun'. injection Hrun' as ->.
      destruct ok; simpl.
      * split; [intros _; split; [reflexivity|exact Hn]|intros _; eexists; reflexivity].
      * split; [intros [? [=]]|intros [[=] _]].
  - intros out l w'' Hatt.
    destruct (workflow_attempt _ _ _ _ _ _ _ _ _ Hatt) as (text & n & Hlen & _ & _ & Hrun').
    rewrite Hrun in Hrun'. injection Hrun' as -> ->.
    repeat split. exact Hlen.
Qed.

(** C6, as the code has it.  When [apply_redactions] reports failure, the
    result of the run has [success] false and names no output file. *)
Theorem failed_apply_is_not_surfaced (rt : Runtime) (cfg : Config) (p : processor)
    (file_path : pystr) (w : world) (out : pystr) (l : pyval) (w' : world) :
  redaction_attempt rt cfg p file_path w out l false w' ->
  exists res,
    Processor.process_file rt cfg p file_path w = (Ok res, w')
    /\ success res = false
    /\ output_file res = None.
Proof.
  intros Hatt.
  destruct (workflow_attempt _ _ _ _ _ _ _ _ _ Hatt) as (text & n & _ & _ & _ & Hrun).
  eexists. split; [exact Hrun|]. split; reflexivity.
Qed.

Lemma attempt_keeps_input (rt : Runtime) (cfg : Config) (p : processor)
    (file_path : pystr) (w : world) (out : pystr) (l : pyval) (ok : bool) (w' : world) :
  redaction_attempt rt cfg p file_path w out l ok w' ->
  out <> file_path
  /\ is_Some (files w !! file_path)
  /\ files w !! out = None
  /\ is_Some (files w' !! out)
  /\ files w' !! file_path = files w !! file_path.
Proof.
  intros (text & w1 & a & w2 & found & sugg & needs & w3
          & Hex & _ & Han & _ & _ & _ & _ & _ & Hct & _ & Hap).
  destruct (extract_text_world _ _ _ _ _ _ Hex) as [-> Hsome].
  specialize (Hsome eq_refl).
  apply analyze_world in Han as (_ & Hfiles & _).
  apply create_temp_file_spec in Hct as [[Hnone Hfiles3] _].
  rewrite Hfiles in Hnone, Hfiles3.
  assert (Hne : out <> file_path).
  { intros ->. rewrite Hnone in Hsome. destruct Hsome as [? [=]]. }
  destruct (apply_redactions_frame _ _ _ _ _ _ _ _ Hap) as (_ & Hfr & _).
  split; [exact Hne|]. split; [exact Hsome|]. split; [exact Hnone|].
  split.
  - destruct p; simpl in Hap.
    + revert Hap. unfold TextProcessor.apply_redactions. unfold_M.
      destruct (read_text file_path UTF8 w3) as [[content|e] w4] eqn:H1;
        apply read_text_world in H1 as [-> _].
      2: { intros [= _ <-]. rewrite Hfiles3, lookup_insert_eq. eauto. }
      destruct (py_iter l) as [items|e].
      2: { intros [= _ <-]. rewrite Hfiles3, lookup_insert_eq. eauto. }
      destruct (TextProcessor.redact_loop items content) as [redacted|e].
      2: { intros [= _ <-]. rewrite Hfiles3, lookup_insert_eq. eauto. }
      unfold write_text.
      destruct (encode UTF8 redacted); [destruct (py_len l)|];
        intros [= _ <-]; simpl; rewrite lookup_insert_eq; eauto.
    + revert Hap.
      unfold PDFProcessor.apply_redactions, PDFProcessor.import_fitz, read_bytes.
      unfold_M.
      destruct (fitz rt) as [m|].
      2: { intros [= _ <-]. rewrite Hfiles3, lookup_insert_eq. eauto. }
      destruct (files w3 !! file_path) as [data|].
      2: { intros [= _ <-]. rewrite Hfiles3, lookup_insert_eq. eauto. }
      destruct (fitz_open m data) as [doc|e].
      2: { intros [= _ <-]. rewrite Hfiles3, lookup_insert_eq. eauto. }
      destruct (PDFProcessor.redact_pages m doc _ l) as [doc'|e].
      2: { intros [= _ <-]. rewrite Hfiles3, lookup_insert_eq. eauto. }
      unfold write_file.
      destruct (save m doc' out) as [d|e [d|]]; [destruct (py_len l)| |];
        intros [= _ <-]; simpl; rewrite ?Hfiles3, lookup_insert_eq; eauto.
    + revert Hap.
      unfold ImageProcessor.apply_redactions, ImageProcessor.import_PIL,
        ImageProcessor.import_easyocr, read_bytes. unfold_M.
      destruct (PIL rt) as [pil|].
      2: { intros [= _ <-]. rewrite Hfiles3, lookup_insert_eq. eauto. }
      destruct (easyocr rt) as [ocr|].
      2: { intros [= _ <-]. rewrite Hfiles3, lookup_insert_eq. eauto. }
      destruct (files w3 !! file_path) as [data|].
      2: { intros [= _ <-]. rewrite Hfiles3, lookup_insert_eq. eauto. }
      destruct (Image_open pil data) as [image|e].
      2: { intros [= _ <-]. rewrite Hfiles3, lookup_insert_eq. eauto. }
      destruct (readtext ocr data) as [ocr_results|e].
      2: { intros [= _ <-]. rewrite Hfiles3, lookup_insert_eq. eauto. }
      destruct (py_iter l) as [items|e].
      2: { intros [= _ <-]. rewrite Hfiles3, lookup_insert_eq. eauto. }
      destruct (ImageProcessor.redact_loop rt pil image items ocr_results) as [image'|e].
      2: { intros [= _ <-]. rewrite Hfiles3, lookup_insert_eq. eauto. }
      unfold write_file.
      destruct (Image_save pil image' out) as [d|e [d|]];
        intros [= _ <-]; simpl; rewrite ?Hfiles3, lookup_insert_eq; eauto.
  - rewrite Hfr by congruence. rewrite Hfiles3. apply lookup_insert_ne. exact Hne.
Qed.

(** C7.  [apply_redactions] leaves every file but the output file as it
    was, so the input file when the output path is another one; the output
    path the workflow passes is a fresh temporary file, never the input path;
    and after the whole run the input file has the contents it had before. *)
Theorem apply_keeps_input (rt : Runtime) (cfg : Config) (p : processor)
    (file_path : pystr) (w : world) :
  (forall redactions output_path,
     output_path <> file_path ->
     exists b w',
       Processor.apply_redactions rt p file_path redactions output_path w = (Ok b, w')
       /\ files w' !! file_path = files w !! file_path)
  /\ (forall out l ok w',
        redaction_attempt rt cfg p file_path w out l ok w' ->
        out <> file_path /\ files w' !! file_path = files w !! file_path)
  /\ (exists res w',
        Processor.process_file rt cfg p file_path w = (Ok res, w')
        /\ files w' !! file_path = files w !! file_path).
Proof.
  split; [|split].
  - intros redactions output_path Hne.
    destruct (Processor.apply_redactions rt p file_path redactions output_path w)
      as [r w'] eqn:Hap.
    destruct (apply_redactions_frame _ _ _ _ _ _ _ _ Hap) as ([b ->] & Hfr & _).
    exists b, w'. split; [reflexivity|]. apply Hfr. congruence.
  - intros out l ok w' Hatt.
    destruct (attempt_keeps_input _ _ _ _ _ _ _ _ _ Hatt) as (Hne & _ & _ & _ & Hsame).
    split; assumption.
  - destruct (workflow_cases rt cfg p file_path w) as (res & w' & Hrun & Hcases).
    exists res, w'. split; [exact Hrun|].
    destruct Hcases as [(_ & _ & ->)|(out & l & ok & Hatt)]; [reflexivity|].
    apply (attempt_keeps_input _ _ _ _ _ _ _ _ _ Hatt).
Qed.

(** ** Text files that are not UTF-8 *)

Lemma generate_needs_found (rt : Runtime) (cfg : Config) (a sugg needs : pyval) :
  OllamaService.generate_redaction_suggestions rt cfg a = Ok sugg ->
  py_get sugg (py "needs_redaction") (VBool false) = Ok needs ->
  truthy needs = true ->
  exists found,
    py_get a (py "found_pii") (VBool false) = Ok found /\ truthy found = true.
Proof.
  unfold OllamaService.generate_redaction_suggestions.
  destruct (py_get a (py "found_pii") (VBool false)) as [found|e]; [|discriminate].
  cbn [mbind result_bind].
  destruct (truthy found) eqn:Hf; cbn [negb].
  - intros _ _ _. exists found. split; [reflexivity|exact Hf].
  - intros [= <-] [= <-]. discriminate.
Qed.

Lemma extract_text_latin1 (file_path : pystr) (data : list Byte.byte) (w : world) :
  files w !! file_path = Some data ->
  utf8_decode (List.map Byte.to_N data) = None ->
  TextProcessor.extract_text file_path w
  = (Ok (universal_newlines (List.map Byte.to_N data)), w).
Proof.
  intros Hfile Hbad. unfold TextProcessor.extract_text, read_text. unfold_M.
  rewrite Hfile. unfold decode. rewrite Hbad.
  cbn [fmap result_fmap exn_kind]. rewrite Hfile. reflexivity.
Qed.

Lemma apply_redactions_not_utf8 (file_path : pystr) (data : list Byte.byte)
    (redactions : pyval) (output_path : pystr) (w : world) :
  files w !! file_path = Some data ->
  utf8_decode (List.map Byte.to_N data) = None ->
  TextProcessor.apply_redactions file_path redactions output_path w = (Ok false, w).
Proof.
  intros Hfile Hbad. unfold TextProcessor.apply_redactions, read_text. unfold_M.
  rewrite Hfile. unfold decode. rewrite Hbad. reflexivity.
Qed.

(** C10.  For a text file whose bytes are not UTF-8, [extract_text] returns
    the latin-1 reading of the file, [apply_redactions] returns [False] for
    every list of suggestions and writes nothing, and a run whose analysis
    gives suggestions to apply ends with [success] false. *)
Theorem latin1_file_is_read_but_not_redacted (rt : Runtime) (cfg : Config)
    (file_path : pystr) (data : list Byte.byte) (w : world) :
  files w !! file_path = Some data ->
  utf8_decode (List.map Byte.to_N data) = None ->
  TextProcessor.extract_text file_path w
  = (Ok (universal_newlines (List.map Byte.to_N data)), w)
  /\ read_text file_path Latin1 w
     = (Ok (universal_newlines (List.map Byte.to_N data)), w)
  /\ (forall redactions output_path w2,
        files w2 !! file_path = Some data ->
        TextProcessor.apply_redactions file_path redactions output_path w2
        = (Ok false, w2))
  /\ (forall a w2 sugg needs,
        OllamaService.analyze_text_for_pii rt cfg
          (universal_newlines (List.map Byte.to_N data)) w = (Ok a, w2) ->
        OllamaService.generate_redaction_suggestions rt cfg a = Ok sugg ->
        py_get sugg (py "needs_redaction") (VBool false) = Ok needs ->
        truthy needs = true ->
        exists res w',
          TextProcessor.process_file rt cfg file_path w = (Ok res, w')
          /\ success res = false).
Proof.
  intros Hfile Hbad.
  split; [apply extract_text_latin1; assumption|].
  split; [unfold read_text; rewrite Hfile; reflexivity|].
  split; [intros; apply apply_redactions_not_utf8 with data; assumption|].
  intros a w2 sugg needs Han Hgen Hneeds Htn.
  destruct (generate_needs_found _ _ _ _ _ Hgen Hneeds Htn) as (found & Hfound & Htf).
  change (TextProcessor.process_file rt cfg) with (Processor.process_file rt cfg TextProc).
  rewrite process_file_workflow. unfold workflow. unfold_M.
  cbn [Processor.extract_text Processor.apply_redactions].
  rewrite (extract_text_latin1 _ _ _ Hfile Hbad).
  destruct (truthy (VStr (strip (universal_newlines (List.map Byte.to_N data)))));
    cbn [negb]; [|do 2 eexists; split; reflexivity].
  rewrite Han, Hfound, Htf. cbn [negb]. rewrite Hgen, Hneeds, Htn. cbn [negb].
  destruct (create_temp_file (py "redacted_" ++ basename file_path) w2)
    as [[out|e] w3] eqn:Hct; [|do 2 eexists; split; reflexivity].
  destruct (generate_shape _ _ _ _ Hgen) as [l0 ->]. rewrite suggestion_set_items.
  apply analyze_world in Han as (_ & Hfiles & _).
  apply create_temp_file_spec in Hct as [[Hnone Hfiles3] _].
  assert (Hfile3 : files w3 !! file_path = Some data).
  { rewrite Hfiles3, lookup_insert_ne; [rewrite Hfiles; exact Hfile|].
    intros ->. rewrite Hfiles, Hfile in Hnone. discriminate. }
  rewrite (apply_redactions_not_utf8 _ _ _ _ _ Hfile3 Hbad).
  do 2 eexists. split; reflexivity.
Qed.

(** ** The concrete runs *)

Lemma scenario_analysis_repr :
  analysis_repr Scenario.analysis true Scenario.findings.
Proof.
  eexists _, _. split; [reflexivity|]. split; [reflexivity|]. split; [reflexivity|].
  repeat constructor; eexists; (split; [reflexivity|]); repeat split.
Qed.

Lemma scenario_analysis_repeated_repr :
  analysis_repr Scenario.analysis_repeated true Scenario.findings_repeated.
Proof.
  eexists _, _. split; [reflexivity|]. split; [reflexivity|]. split; [reflexivity|].
  repeat constructor; eexists; (split; [reflexivity|]); repeat split.
Qed.

(** The contact file goes through the redaction step, which succeeds. *)
Lemma contact_attempt :
  exists w',
    redaction_attempt (Scenario.rt Scenario.analysis_json) Scenario.cfg TextProc
      (py "contact.txt") Scenario.contact_world (Scenario.temp_out "contact.txt")
      (VList [suggestion_of (Scenario.rt Scenario.analysis_json)
                {| category := py "name"; literal_text := py "John Doe";
                   confidence := NFloat (Finite (95 # 100)) |};
              suggestion_of (Scenario.rt Scenario.analysis_json)
                {| category := py "email"; literal_text := py "john@example.com";
                   confidence := NFloat (Finite (9 # 10)) |}])
      true w'
    /\ files w' !! Scenario.temp_out "contact.txt"
       = Some (Scenario.ascii_bytes "Contact [NAME REDACTED] at [EMAIL REDACTED]").
Proof.
  unfold redaction_attempt. eexists. split.
  - do 8 eexists.
    split; [vm_compute; reflexivity|].
    split; [vm_compute; discriminate|].
    split; [vm_compute; reflexivity|].
    split; [vm_compute; reflexivity|].
    split; [vm_compute; reflexivity|].
    split; [vm_compute; reflexivity|].
    split; [vm_compute; reflexivity|].
    split; [vm_compute; reflexivity|].
    split; [vm_compute; reflexivity|].
    split; [vm_compute; reflexivity|].
    vm_compute; reflexivity.
  - vm_compute. reflexivity.
Qed.

(** The latin-1 file reaches the redaction step, which fails and leaves
    the empty temporary file behind. *)
Lemma notes_attempt :
  exists l w',
    redaction_attempt (Scenario.rt Scenario.analysis_json) Scenario.cfg TextProc
      (py "notes.txt") Scenario.notes_world (Scenario.temp_out "notes.txt") l false w'
    /\ files w' !! Scenario.temp_out "notes.txt" = Some [].
Proof.
  unfold redaction_attempt. do 2 eexists. split.
  - do 8 eexists.
    split; [vm_compute; reflexivity|].
    split; [vm_compute; discriminate|].
    split; [vm_compute; reflexivity|].
    split; [vm_compute; reflexivity|].
    split; [vm_compute; reflexivity|].
    split; [vm_compute; reflexivity|].
    split; [vm_compute; reflexivity|].
    split; [vm_compute; reflexivity|].
    split; [vm_compute; reflexivity|].
    split; [vm_compute; reflexivity|].
    vm_compute; reflexivity.
  - vm_compute. reflexivity.
Qed.

(** ** The theorems at concrete inputs *)

(** John Doe is suggested twice, the phone number of confidence 0.5 is
    not. *)
Lemma suggest_filters_findings_witness :
  analysis_repr Scenario.analysis_repeated true Scenario.findings_repeated
  /\ exists suggestions,
       OllamaService.generate_redaction_suggestions
         (Scenario.rt []) Scenario.cfg Scenario.analysis_repeated
       = Ok (VDict [ (py "needs_redaction", VBool (0 <? length suggestions)%nat);
                     (py "suggestions", VList suggestions) ])
       /\ suggestions
          = List.map (suggestion_of (Scenario.rt []))
              (List.filter (above_threshold Scenario.cfg) Scenario.findings_repeated).
Proof.
  split; [exact scenario_analysis_repeated_repr|].
  exact (suggest_filters_findings (Scenario.rt []) Scenario.cfg
           Scenario.analysis_repeated true Scenario.findings_repeated
           scenario_analysis_repeated_repr).
Defined.

Lemma threshold_monotone_witness :
  float_le (Finite (8 # 10)) (Finite (92 # 100)) = true
  /\ exists l1 l2,
       OllamaService.generate_redaction_suggestions (Scenario.rt [])
         (Scenario.cfg_at (Finite (8 # 10))) Scenario.analysis = Ok (suggestion_set l1)
       /\ OllamaService.generate_redaction_suggestions (Scenario.rt [])
            (Scenario.cfg_at (Finite (92 # 100))) Scenario.analysis = Ok (suggestion_set l2)
       /\ (length l2 <= length l1)%nat.
Proof.
  split; [reflexivity|].
  apply (threshold_monotone (Scenario.rt []) (Scenario.cfg_at (Finite (8 # 10)))
           (Scenario.cfg_at (Finite (92 # 100))) Scenario.analysis true Scenario.findings).
  - exact scenario_analysis_repr.
  - reflexivity.
Defined.

Lemma replacement_from_table_witness :
  OllamaService._generate_replacement (Scenario.rt []) (VStr (py "date_of_birth"))
  = Ok (py "[DOB REDACTED]")
  /\ OllamaService._generate_replacement (Scenario.rt []) (VStr (py "ssn"))
     = Ok (bracketed_upper (py "ssn"))
  /\ OllamaService._generate_replacement (Scenario.rt []) (VStr (py "passport"))
     = Ok (py "[SENSITIVE INFO REDACTED]").
Proof.
  destruct (replacement_from_table (Scenario.rt [])) as (Htable & Hupper & Hother).
  split; [|split].
  - apply (Htable (py "date_of_birth") (py "date_of_birth")); [|reflexivity].
    do 8 right. left. reflexivity.
  - apply Hupper. do 4 right. left. reflexivity.
  - apply Hother. vm_compute. intros H.
    repeat (destruct H as [H|H]; [discriminate H|]). exact H.
Defined.

(** An answer that is not JSON, a model that cannot be reached, and an
    answer on which [json.loads] raises [RecursionError]. *)
Lemma analyze_never_raises_witness :
  OllamaService.analyze_text_for_pii (Scenario.rt (py "I found a name.")) Scenario.cfg
    (py "Contact John Doe") Scenario.contact_world
  = (Ok (VDict [ (py "found_pii", VBool true);
                 (py "categories", VList [VStr (py "unknown")]);
                 (py "details", VList []);
                 (py "recommendation", VStr (py "Manual review recommended"));
                 (py "raw_response", VStr (py "I found a name.")) ]),
     after_chat (OllamaService.prompt (py "Contact John Doe")) Scenario.contact_world)
  /\ OllamaService.analyze_text_for_pii Scenario.rt_offline Scenario.cfg
       (py "Contact John Doe") Scenario.contact_world
     = (Ok (VDict [ (py "found_pii", VBool false);
                    (py "categories", VList []);
                    (py "details", VList []);
                    (py "recommendation",
                     VStr (py "Analysis failed - manual review required"));
                    (py "error", VStr (py "Connection refused")) ]),
        after_chat (OllamaService.prompt (py "Contact John Doe")) Scenario.contact_world)
  /\ OllamaService.analyze_text_for_pii
       (Scenario.rt_parsing (List.repeat 91 1000) Scenario.deep_nesting) Scenario.cfg
       (py "Contact John Doe") Scenario.contact_world
     = (Ok (VDict [ (py "found_pii", VBool false);
                    (py "categories", VList []);
                    (py "details", VList []);
                    (py "recommendation",
                     VStr (py "Analysis failed - manual review required"));
                    (py "error",
                     VStr (py "maximum recursion depth exceeded while decoding a JSON array from a unicode string")) ]),
        after_chat (OllamaService.prompt (py "Contact John Doe")) Scenario.contact_world).
Proof.
  split; [|split].
  - apply (proj1 (proj2 (analyze_never_raises (Scenario.rt (py "I found a name."))
                           Scenario.cfg (py "Contact John Doe") Scenario.contact_world)))
      with (response := Scenario.response (py "I found a name."))
           (msg := VDict [ (py "role", VStr (py "assistant"));
                           (py "content", VStr (py "I found a name.")) ])
           (e := Exn JSONDecodeError (py "Expecting value: line 1 column 1 (char 0)")).
    + reflexivity.
    + vm_compute. reflexivity.
    + vm_compute. reflexivity.
    + vm_compute. reflexivity.
    + reflexivity.
  - apply (proj1 (proj2 (proj2 (analyze_never_raises Scenario.rt_offline
                           Scenario.cfg (py "Contact John Doe") Scenario.contact_world))))
      with (e := Exn LibraryError (py "Connection refused")).
    reflexivity.
  - apply (proj2 (proj2 (proj2 (analyze_never_raises
                           (Scenario.rt_parsing (List.repeat 91 1000) Scenario.deep_nesting)
                           Scenario.cfg (py "Contact John Doe") Scenario.contact_world))))
      with (response := Scenario.response (List.repeat 91 1000))
           (msg := VDict [ (py "role", VStr (py "assistant"));
                           (py "content", VStr (List.repeat 91 1000)) ])
           (content := VStr (List.repeat 91 1000))
           (e := Exn RecursionError
                   (py "maximum recursion depth exceeded while decoding a JSON array from a unicode string")).
    + reflexivity.
    + vm_compute. reflexivity.
    + vm_compute. reflexivity.
    + reflexivity.
    + discriminate.
Defined.

(** A text file of blanks, a PDF without pages and an image without
    text. *)
Lemma empty_text_outcome_witness :
  (exists res w',
     Processor.process_file (Scenario.rt []) Scenario.cfg TextProc (py "blank.txt")
       (Scenario.world_with "blank.txt" (Scenario.ascii_bytes "   ")) = (Ok res, w')
     /\ chat_requests w' = []
     /\ success res = false)
  /\ (exists res w',
        Processor.process_file (Scenario.rt []) Scenario.cfg PDFProc (py "empty.pdf")
          (Scenario.world_with "empty.pdf" []) = (Ok res, w')
        /\ chat_requests w' = []
        /\ success res = false)
  /\ (exists res w',
        Processor.process_file (Scenario.rt []) Scenario.cfg ImageProc (py "photo.png")
          (Scenario.world_with "photo.png" (Scenario.ascii_bytes "PNG")) = (Ok res, w')
        /\ chat_requests w' = []
        /\ success res = true /\ pii_found res = false
        /\ redaction_count res = 0%nat /\ output_file res = None).
Proof.
  split; [|split].
  - apply (empty_text_outcome (Scenario.rt []) Scenario.cfg TextProc (py "blank.txt")
             (Scenario.world_with "blank.txt" (Scenario.ascii_bytes "   "))
             (Scenario.world_with "blank.txt" (Scenario.ascii_bytes "   "))
             (py "   ")).
    + vm_compute. reflexivity.
    + vm_compute. reflexivity.
  - apply (empty_text_outcome (Scenario.rt []) Scenario.cfg PDFProc (py "empty.pdf")
             (Scenario.world_with "empty.pdf" []) (Scenario.world_with "empty.pdf" []) []).
    + vm_compute. reflexivity.
    + vm_compute. reflexivity.
  - apply (empty_text_outcome (Scenario.rt []) Scenario.cfg ImageProc (py "photo.png")
             (Scenario.world_with "photo.png" (Scenario.ascii_bytes "PNG"))
             (Scenario.world_with "photo.png" (Scenario.ascii_bytes "PNG")) []).
    + vm_compute. reflexivity.
    + vm_compute. reflexivity.
Defined.

(** The contact file: two suggestions, one output file. *)
Lemma output_iff_success_and_count_witness :
  exists res w',
    Processor.process_file (Scenario.rt Scenario.analysis_json) Scenario.cfg TextProc
      (py "contact.txt") Scenario.contact_world = (Ok res, w')
    /\ success res = true
    /\ output_file res = Some (Scenario.temp_out "contact.txt")
    /\ redaction_count res = 2%nat.
Proof.
  destruct (output_iff_success_and_count (Scenario.rt Scenario.analysis_json)
              Scenario.cfg TextProc (py "contact.txt") Scenario.contact_world)
    as (res & w' & Hrun & _ & Hstep).
  destruct contact_attempt as (w'' & Hatt & _).
  destruct (Hstep _ _ _ Hatt) as (_ & Hs & Ho & Hlen).
  exists res, w'. split; [exact Hrun|]. split; [exact Hs|]. split; [exact Ho|].
  injection Hlen as <-. reflexivity.
Defined.

(** C6, as the specification words it, fails: after a redaction step that
    failed, the temporary file that [create_temp_file] made for the output is
    still there. *)
Lemma failed_apply_leaves_output_file :
  exists l w' res,
    redaction_attempt (Scenario.rt Scenario.analysis_json) Scenario.cfg TextProc
      (py "notes.txt") Scenario.notes_world (Scenario.temp_out "notes.txt") l false w'
    /\ Processor.process_file (Scenario.rt Scenario.analysis_json) Scenario.cfg TextProc
         (py "notes.txt") Scenario.notes_world = (Ok res, w')
    /\ success res = false
    /\ files Scenario.notes_world !! Scenario.temp_out "notes.txt" = None
    /\ files w' !! Scenario.temp_out "notes.txt" = Some [].
Proof.
  destruct notes_attempt as (l & w' & Hatt & Hfile).
  destruct (workflow_attempt _ _ _ _ _ _ _ _ _ Hatt) as (text & n & _ & _ & _ & Hrun).
  exists l, w'. eexists. split; [exact Hatt|]. split; [exact Hrun|].
  split; [reflexivity|]. split; [vm_compute; reflexivity|exact Hfile].
Qed.

Lemma failed_apply_is_not_surfaced_witness :
  exists res w',
    Processor.process_file (Scenario.rt Scenario.analysis_json) Scenario.cfg TextProc
      (py "notes.txt") Scenario.notes_world = (Ok res, w')
    /\ success res = false
    /\ output_file res = None.
Proof.
  destruct notes_attempt as (l & w' & Hatt & _).
  destruct (failed_apply_is_not_surfaced _ _ _ _ _ _ _ _ Hatt) as (res & Hrun & Hs & Ho).
  exists res, w'. split; [exact Hrun|]. split; [exact Hs|exact Ho].
Defined.

Lemma apply_keeps_input_witness :
  (exists b w',
     Processor.apply_redactions (Scenario.rt Scenario.analysis_json) TextProc
       (py "contact.txt") (VList []) (py "redacted.txt") Scenario.contact_world
     = (Ok b, w')
     /\ files w' !! py "contact.txt" = files Scenario.contact_world !! py "contact.txt")
  /\ Scenario.temp_out "contact.txt" <> py "contact.txt".
Proof.
  destruct (apply_keeps_input (Scenario.rt Scenario.analysis_json) Scenario.cfg TextProc
              (py "contact.txt") Scenario.contact_world) as (Happly & Hatt & _).
  split.
  - apply Happly. vm_compute. discriminate.
  - destruct contact_attempt as (w' & Hrun & _).
    exact (proj1 (Hatt _ _ _ _ Hrun)).
Defined.

Lemma latin1_file_is_read_but_not_redacted_witness :
  TextProcessor.extract_text (py "notes.txt") Scenario.notes_world
  = (Ok (List.map Byte.to_N Scenario.latin1_bytes), Scenario.notes_world)
  /\ TextProcessor.apply_redactions (py "notes.txt") (VList [Scenario.finding_name])
       (py "redacted.txt") Scenario.notes_world
     = (Ok false, Scenario.notes_world)
  /\ exists res w',
       TextProcessor.process_file (Scenario.rt Scenario.analysis_json) Scenario.cfg
         (py "notes.txt") Scenario.notes_world = (Ok res, w')
       /\ success res = false.
Proof.
  assert (Hfile : files Scenario.notes_world !! py "notes.txt"
                  = Some Scenario.latin1_bytes) by (vm_compute; reflexivity).
  assert (Hbad : utf8_decode (List.map Byte.to_N Scenario.latin1_bytes) = None)
    by (vm_compute; reflexivity).
  destruct (latin1_file_is_read_but_not_redacted (Scenario.rt Scenario.analysis_json)
              Scenario.cfg (py "notes.txt") Scenario.latin1_bytes Scenario.notes_world
              Hfile Hbad) as (Hextract & _ & Happly & Hrun).
  split; [exact Hextract|]. split; [apply Happly; exact Hfile|].
  eapply Hrun.
  - vm_compute. reflexivity.
  - vm_compute. reflexivity.
  - vm_compute. reflexivity.
  - reflexivity.
Defined.

(** * Further properties of the sources *)

(** ** How a run ends *)

Lemma needs_of_suggestion_set (l : list pyval) :
  truthy (VBool (0 <? length l)%nat) = match l with [] => false | _ => true end.
Proof. destruct l; reflexivity. Qed.

(** Each way of ending is a run of [process_file]. *)
Lemma run_outcome_sound (rt : Runtime) (cfg : Config) (p : processor)
    (file_path : pystr) (w : world) (res : ProcessingResult) (w' : world) :
  run_outcome rt cfg p file_path w res w' ->
  Processor.process_file rt cfg p file_path w = (Ok res, w').
Proof.
  intros Hrun. rewrite process_file_workflow.
  destruct Hrun as [e Hex|text Hex Hblank|text a w2 e Hex Hstrip Han Hfound
                    |text a w2 found Hex Hstrip Han Hfound Htf
                    |text a w2 found e Hex Hstrip Han Hfound Htf Hgen
                    |text a w2 found Hex Hstrip Han Hfound Htf Hgen
                    |text a w2 found l w3 e Hex Hstrip Han Hfound Htf Hgen Hl Hct
                    |text out l ok w' Hex Hatt].
  - unfold workflow. unfold_M. rewrite Hex. reflexivity.
  - unfold workflow. unfold_M. rewrite Hex, Hblank. reflexivity.
  - apply strip_truthy in Hstrip. unfold workflow. unfold_M.
    rewrite Hex, Hstrip. cbn [negb]. rewrite Han, Hfound. reflexivity.
  - apply strip_truthy in Hstrip. unfold workflow. unfold_M.
    rewrite Hex, Hstrip. cbn [negb]. rewrite Han, Hfound, Htf. reflexivity.
  - apply strip_truthy in Hstrip. unfold workflow. unfold_M.
    rewrite Hex, Hstrip. cbn [negb]. rewrite Han, Hfound, Htf. cbn [negb].
    rewrite Hgen. reflexivity.
  - apply strip_truthy in Hstrip. unfold workflow. unfold_M.
    rewrite Hex, Hstrip. cbn [negb]. rewrite Han, Hfound, Htf. cbn [negb].
    rewrite Hgen. reflexivity.
  - apply strip_truthy in Hstrip. unfold workflow. unfold_M.
    rewrite Hex, Hstrip. cbn [negb]. rewrite Han, Hfound, Htf. cbn [negb].
    rewrite Hgen, suggestion_set_get_needs, needs_of_suggestion_set.
    destruct l; [congruence|]. cbn [negb]. rewrite Hct. reflexivity.
  - rewrite <- process_file_workflow.
    destruct (workflow_attempt _ _ _ _ _ _ _ _ _ Hatt)
      as (text' & n & Hlen & _ & Hex' & Hrun).
    rewrite Hex in Hex'. injection Hex' as <-. injection Hlen as <-. exact Hrun.
Qed.

(** Every run ends in one of these ways. *)
Lemma workflow_outcome (rt : Runtime) (cfg : Config) (p : processor)
    (file_path : pystr) (w : world) :
  exists res w',
    Processor.process_file rt cfg p file_path w = (Ok res, w')
    /\ run_outcome rt cfg p file_path w res w'.
Proof.
  assert (Hsound := run_outcome_sound rt cfg p file_path w).
  destruct (Processor.extract_text rt p file_path w) as [[text|e] w1] eqn:Hex;
    destruct (extract_text_world _ _ _ _ _ _ Hex) as [-> _].
  2: { do 2 eexists. split; [|eapply run_extract_failed; exact Hex].
       apply Hsound. eapply run_extract_failed; exact Hex. }
  destruct (strip text) as [|c s] eqn:Hstrip.
  { do 2 eexists. split; [|eapply run_blank; eassumption].
    apply Hsound. eapply run_blank; eassumption. }
  assert (Hne : strip text <> []) by (rewrite Hstrip; discriminate).
  clear Hstrip.
  destruct (analyze_total rt cfg text w) as [a Han].
  destruct (py_get a (py "found_pii") (VBool false)) as [found|e] eqn:Hfound.
  2: { do 2 eexists. split; [|eapply run_analysis_unusable; eassumption].
       apply Hsound. eapply run_analysis_unusable; eassumption. }
  destruct (truthy found) eqn:Htf.
  2: { do 2 eexists. split; [|eapply run_no_pii; eassumption].
       apply Hsound. eapply run_no_pii; eassumption. }
  destruct (OllamaService.generate_redaction_suggestions rt cfg a) as [sugg|e] eqn:Hgen.
  2: { do 2 eexists. split; [|eapply run_suggest_failed; eassumption].
       apply Hsound. eapply run_suggest_failed; eassumption. }
  destruct (generate_shape _ _ _ _ Hgen) as [l ->].
  destruct l as [|s0 l].
  { do 2 eexists. split; [|eapply run_below_threshold; eassumption].
    apply Hsound. eapply run_below_threshold; eassumption. }
  destruct (create_temp_file (py "redacted_" ++ basename file_path)
              (after_chat (OllamaService.prompt text) w)) as [[out|e] w3] eqn:Hct.
  2: { do 2 eexists. split.
       - apply Hsound. eapply run_no_temp_file; try eassumption. discriminate.
       - eapply run_no_temp_file; try eassumption. discriminate. }
  destruct (Processor.apply_redactions rt p file_path (VList (s0 :: l)) out w3)
    as [rb w4] eqn:Hap.
  destruct (apply_redactions_frame _ _ _ _ _ _ _ _ Hap) as [[b ->] _].
  assert (Hatt : redaction_attempt rt cfg p file_path w out (VList (s0 :: l)) b w4).
  { exists text, w, a, (after_chat (OllamaService.prompt text) w), found,
      (suggestion_set (s0 :: l)), (VBool true), w3.
    repeat split; assumption. }
  do 2 eexists. split; [|eapply run_redaction; eassumption].
  apply Hsound. eapply run_redaction; eassumption.
Qed.

(** ** [strip()] *)

Lemma lstrip_head (s : pystr) :
  lstrip s = [] \/ exists c t, lstrip s = c :: t /\ is_space c = false.
Proof.
  induction s as [|c s IH]; [left; reflexivity|].
  cbn [lstrip]. destruct (is_space c) eqn:Hc; [exact IH|].
  right. exists c, s. split; [reflexivity|exact Hc].
Qed.

Lemma lstrip_printable_head (c : N) (t : pystr) :
  is_space c = false -> lstrip (c :: t) = c :: t.
Proof. intros Hc. cbn [lstrip]. rewrite Hc. reflexivity. Qed.

Lemma lstrip_idem (s : pystr) : lstrip (lstrip s) = lstrip s.
Proof.
  destruct (lstrip_head s) as [->|(c & t & -> & Hc)]; [reflexivity|].
  apply lstrip_printable_head, Hc.
Qed.

Lemma lstrip_keeps_last (x : pystr) (c : N) :
  is_space c = false -> exists u, lstrip (x ++ [c]) = u ++ [c].
Proof.
  intros Hc. induction x as [|d x IH].
  - exists []. apply lstrip_printable_head, Hc.
  - cbn [app lstrip]. destruct (is_space d); [exact IH|].
    exists (d :: x). reflexivity.
Qed.

Lemma rstrip_keeps_head (c : N) (t : pystr) :
  is_space c = false -> exists u, rstrip (c :: t) = c :: u.
Proof.
  intros Hc. unfold rstrip. cbn [rev].
  destruct (lstrip_keeps_last (rev t) c Hc) as [u ->].
  exists (rev u). rewrite rev_app_distr. reflexivity.
Qed.

Lemma rstrip_idem (s : pystr) : rstrip (rstrip s) = rstrip s.
Proof. unfold rstrip. rewrite rev_involutive, lstrip_idem. reflexivity. Qed.

Lemma strip_idem (s : pystr) : strip (strip s) = strip s.
Proof.
  unfold strip.
  destruct (lstrip_head s) as [->|(c & t & -> & Hc)]; [reflexivity|].
  destruct (rstrip_keeps_head c t Hc) as [u Hu].
  rewrite Hu, (lstrip_printable_head c u Hc), <- Hu. apply rstrip_idem.
Qed.

(** The text of an image is stripped, so a blank text is the empty
    text. *)
Lemma image_text_stripped (rt : Runtime) (file_path : pystr) (w w' : world)
    (text : pystr) :
  ImageProcessor.extract_text rt file_path w = (Ok text, w') -> strip text = text.
Proof.
  unfold ImageProcessor.extract_text, ImageProcessor.import_easyocr, read_bytes.
  unfold_M.
  destruct (easyocr rt) as [ocr|]; [|discriminate].
  destruct (files w !! file_path) as [data|];
    [|cbn; destruct (exn_kind _); discriminate].
  destruct (readtext ocr data) as [results|e].
  - intros [= <- _]. apply strip_idem.
  - destruct (exn_kind e); discriminate.
Qed.

(** ** What a run leaves behind *)

Lemma attempt_frame (rt : Runtime) (cfg : Config) (p : processor)
    (file_path : pystr) (w : world) (out : pystr) (l : pyval) (ok : bool) (w' : world) :
  redaction_attempt rt cfg p file_path w out l ok w' ->
  (forall q, q <> out -> files w' !! q = files w !! q)
  /\ (exists text,
        Processor.extract_text rt p file_path w = (Ok text, w)
        /\ chat_requests w' = chat_requests w ++ [OllamaService.prompt text]).
Proof.
  intros (text & w1 & a & w2 & found & sugg & needs & w3
          & Hex & _ & Han & _ & _ & _ & _ & _ & Hct & _ & Hap).
  destruct (extract_text_world _ _ _ _ _ _ Hex) as [-> _].
  destruct (analyze_total rt cfg text w) as [a' Han']. rewrite Han' in Han.
  injection Han as _ <-.
  apply create_temp_file_spec in Hct as [[_ Hfiles3] Hchat3].
  destruct (apply_redactions_frame _ _ _ _ _ _ _ _ Hap) as (_ & Hfr & Hchat).
  split.
  - intros q Hq. rewrite (Hfr q Hq), Hfiles3. apply lookup_insert_ne. congruence.
  - exists text. split; [exact Hex|]. rewrite Hchat, Hchat3. reflexivity.
Qed.

Lemma cleanup_restores (fs fs' : gmap pystr (list Byte.byte)) (out : pystr) :
  fs !! out = None ->
  (forall q, q <> out -> fs' !! q = fs !! q) ->
  delete out fs' = fs.
Proof.
  intros Hnone Hfr. apply map_eq. intros q.
  destruct (decide (q = out)) as [->|Hq].
  - rewrite lookup_delete_eq, Hnone. reflexivity.
  - rewrite lookup_delete_ne by congruence. apply Hfr, Hq.
Qed.

(** The result of a failed run has the default fields: no extracted text,
    [pii_found] false, a count of 0 and no output file, also when something
    had been found before the failure.  The result of a successful run
    carries the text [extract_text] returned.  A result with [pii_found]
    false has no output file and a count of 0. *)
Theorem result_fields (rt : Runtime) (cfg : Config) (p : processor)
    (file_path : pystr) (w : world) :
  exists res w',
    Processor.process_file rt cfg p file_path w = (Ok res, w')
    /\ (success res = false ->
        extracted_text res = [] /\ output_file res = None
        /\ pii_found res = false /\ redaction_count res = 0%nat)
    /\ (success res = true ->
        Processor.extract_text rt p file_path w = (Ok (extracted_text res), w))
    /\ (pii_found res = false ->
        output_file res = None /\ redaction_count res = 0%nat).
Proof.
  destruct (workflow_outcome rt cfg p file_path w) as (res & w' & Hrun & Hout).
  exists res, w'. split; [exact Hrun|]. clear Hrun.
  destruct Hout as [e Hex|text Hex Hblank|text a w2 e Hex Hstrip Han Hfound
                    |text a w2 found Hex Hstrip Han Hfound Htf
                    |text a w2 found e Hex Hstrip Han Hfound Htf Hgen
                    |text a w2 found Hex Hstrip Han Hfound Htf Hgen
                    |text a w2 found l w3 e Hex Hstrip Han Hfound Htf Hgen Hl Hct
                    |text out l ok w' Hex Hatt];
    cbn [success extracted_text output_file pii_found redaction_count
         ProcessingResult_init];
    try (repeat split; solve [reflexivity | discriminate | assumption | intros; assumption]).
  - destruct p; cbn; repeat split; try discriminate.
    intros _. simpl in Hex. apply image_text_stripped in Hex as Hs.
    rewrite Hblank in Hs. subst text. exact Hex.
  - destruct ok; cbn; repeat split; try discriminate. intros _. exact Hex.
Qed.

(** A run sends the model at most one prompt, the one built from the
    extracted text, and only a run that sent it reports [pii_found]. *)
Theorem one_prompt_at_most (rt : Runtime) (cfg : Config) (p : processor)
    (file_path : pystr) (w : world) :
  exists res w',
    Processor.process_file rt cfg p file_path w = (Ok res, w')
    /\ ((chat_requests w' = chat_requests w /\ pii_found res = false)
        \/ exists text,
             Processor.extract_text rt p file_path w = (Ok text, w)
             /\ strip text <> []
             /\ chat_requests w' = chat_requests w ++ [OllamaService.prompt text]).
Proof.
  destruct (workflow_outcome rt cfg p file_path w) as (res & w' & Hrun & Hout).
  exists res, w'. split; [exact Hrun|]. clear Hrun.
  destruct Hout as [e Hex|text Hex Hblank|text a w2 e Hex Hstrip Han Hfound
                    |text a w2 found Hex Hstrip Han Hfound Htf
                    |text a w2 found e Hex Hstrip Han Hfound Htf Hgen
                    |text a w2 found Hex Hstrip Han Hfound Htf Hgen
                    |text a w2 found l w3 e Hex Hstrip Han Hfound Htf Hgen Hl Hct
                    |text out l ok w' Hex Hatt].
  - left. split; reflexivity.
  - left. split; [reflexivity|]. destruct p; reflexivity.
  - right. exists text. destruct (analyze_total rt cfg text w) as [a' Ha].
    rewrite Ha in Han. injection Han as _ <-. repeat split; assumption.
  - right. exists text. destruct (analyze_total rt cfg text w) as [a' Ha].
    rewrite Ha in Han. injection Han as _ <-. repeat split; assumption.
  - right. exists text. destruct (analyze_total rt cfg text w) as [a' Ha].
    rewrite Ha in Han. injection Han as _ <-. repeat split; assumption.
  - right. exists text. destruct (analyze_total rt cfg text w) as [a' Ha].
    rewrite Ha in Han. injection Han as _ <-. repeat split; assumption.
  - right. exists text. destruct (analyze_total rt cfg text w) as [a' Ha].
    rewrite Ha in Han. injection Han as _ <-.
    apply create_temp_file_spec in Hct as [_ Hchat].
    repeat split; assumption.
  - right. exists text. destruct (attempt_frame _ _ _ _ _ _ _ _ _ Hatt)
      as (_ & text' & Hex' & Hchat).
    rewrite Hex in Hex'. injection Hex' as <-.
    destruct Hatt as (t & w1 & _ & _ & _ & _ & _ & _ & Hex'' & Hs & _).
    rewrite Hex in Hex''. injection Hex'' as <- <-.
    repeat split; assumption.
Qed.

(** The only trace a run leaves in the file system is the temporary file
    of its redaction step: either the files are those before the run, or one
    file that did not exist was created, and removing it with
    [cleanup_temp_file] gives back the files before the run.  The output file
    of a result is this file. *)
Theorem run_leaves_only_its_output (rt : Runtime) (cfg : Config) (p : processor)
    (file_path : pystr) (w : world) :
  exists res w',
    Processor.process_file rt cfg p file_path w = (Ok res, w')
    /\ ((files w' = files w /\ output_file res = None)
        \/ exists out,
             files w !! out = None
             /\ is_Some (files w' !! out)
             /\ files (BaseProcessor.cleanup_temp_file out w').2 = files w
             /\ (output_file res = None \/ output_file res = Some out)).
Proof.
  destruct (workflow_outcome rt cfg p file_path w) as (res & w' & Hrun & Hout).
  exists res, w'. split; [exact Hrun|]. clear Hrun.
  destruct Hout as [e Hex|text Hex Hblank|text a w2 e Hex Hstrip Han Hfound
                    |text a w2 found Hex Hstrip Han Hfound Htf
                    |text a w2 found e Hex Hstrip Han Hfound Htf Hgen
                    |text a w2 found Hex Hstrip Han Hfound Htf Hgen
                    |text a w2 found l w3 e Hex Hstrip Han Hfound Htf Hgen Hl Hct
                    |text out l ok w' Hex Hatt].
  - left. split; reflexivity.
  - left. split; [reflexivity|]. destruct p; reflexivity.
  - left. apply analyze_world in Han as (_ & -> & _). split; reflexivity.
  - left. apply analyze_world in Han as (_ & -> & _). split; reflexivity.
  - left. apply analyze_world in Han as (_ & -> & _). split; reflexivity.
  - left. apply analyze_world in Han as (_ & -> & _). split; reflexivity.
  - left. apply analyze_world in Han as (_ & <- & _).
    apply create_temp_file_spec in Hct as [-> _]. split; reflexivity.
  - right. exists out.
    destruct (attempt_keeps_input _ _ _ _ _ _ _ _ _ Hatt) as (_ & _ & Hnone & Hsome & _).
    destruct (attempt_frame _ _ _ _ _ _ _ _ _ Hatt) as (Hfr & _).
    split; [exact Hnone|]. split; [exact Hsome|]. split.
    + cbn. apply cleanup_restores; assumption.
    + destruct ok; [right|left]; reflexivity.
Qed.

(** ** The analysis and the run *)

Lemma analyze_parsed (rt : Runtime) (cfg : Config) (text content : pystr)
    (a : pyval) (w : world) :
  model_answers rt cfg text content ->
  json_loads rt content = Ok a ->
  OllamaService.analyze_text_for_pii rt cfg text w
  = (Ok a, after_chat (OllamaService.prompt text) w).
Proof.
  intros (response & msg & Hchat & Hmsg & Hcontent) Hloads.
  unfold OllamaService.analyze_text_for_pii, OllamaService.chat. unfold_M.
  rewrite Hchat, Hmsg, Hcontent. cbn [OllamaService.py_json_loads].
  rewrite Hloads. reflexivity.
Qed.

Lemma analyze_degraded (rt : Runtime) (cfg : Config) (text content : pystr)
    (e : exn) (w : world) :
  model_answers rt cfg text content ->
  json_loads rt content = Raise e ->
  exn_kind e = JSONDecodeError ->
  OllamaService.analyze_text_for_pii rt cfg text w
  = (Ok (VDict [ (py "found_pii", VBool true);
                 (py "categories", VList [VStr (py "unknown")]);
                 (py "details", VList []);
                 (py "recommendation", VStr (py "Manual review recommended"));
                 (py "raw_response", VStr content) ]),
     after_chat (OllamaService.prompt text) w).
Proof.
  intros (response & msg & Hchat & Hmsg & Hcontent) Hloads Hkind.
  unfold OllamaService.analyze_text_for_pii, OllamaService.chat. unfold_M.
  rewrite Hchat, Hmsg, Hcontent. cbn [OllamaService.py_json_loads].
  rewrite Hloads, Hkind. reflexivity.
Qed.

Lemma analyze_unreachable (rt : Runtime) (cfg : Config) (text : pystr)
    (e : exn) (w : world) :
  client_chat rt (OLLAMA_MODEL cfg) (OllamaService.prompt text) = Raise e ->
  OllamaService.analyze_text_for_pii rt cfg text w
  = (Ok (VDict [ (py "found_pii", VBool false);
                 (py "categories", VList []);
                 (py "details", VList []);
                 (py "recommendation",
                  VStr (py "Analysis failed - manual review required"));
                 (py "error", VStr (exn_str e)) ]),
     after_chat (OllamaService.prompt text) w).
Proof.
  intros Hchat.
  unfold OllamaService.analyze_text_for_pii, OllamaService.chat. unfold_M.
  rewrite Hchat. reflexivity.
Qed.

(** When the call to the model raises, the run of every processor on a
    text that is not blank succeeds and reports that no sensitive information
    was detected: no file is written. *)
Theorem unreachable_model_reports_no_pii (rt : Runtime) (cfg : Config) (p : processor)
    (file_path : pystr) (w : world) (text : pystr) (e : exn) :
  Processor.extract_text rt p file_path w = (Ok text, w) ->
  strip text <> [] ->
  client_chat rt (OLLAMA_MODEL cfg) (OllamaService.prompt text) = Raise e ->
  Processor.process_file rt cfg p file_path w
  = (Ok {| success := true; message := msg_no_pii (texts_of p);
           extracted_text := text; output_file := None;
           pii_found := false; redaction_count := 0 |},
     after_chat (OllamaService.prompt text) w).
Proof.
  intros Hex Hstrip Hchat. apply run_outcome_sound.
  eapply run_no_pii; try eassumption.
  - apply analyze_unreachable, Hchat.
  - reflexivity.
  - reflexivity.
Qed.

Lemma analyze_parse_error (rt : Runtime) (cfg : Config) (text content : pystr)
    (e : exn) (w : world) :
  model_answers rt cfg text content ->
  json_loads rt content = Raise e ->
  exn_kind e <> JSONDecodeError ->
  OllamaService.analyze_text_for_pii rt cfg text w
  = (Ok (VDict [ (py "found_pii", VBool false);
                 (py "categories", VList []);
                 (py "details", VList []);
                 (py "recommendation",
                  VStr (py "Analysis failed - manual review required"));
                 (py "error", VStr (exn_str e)) ]),
     after_chat (OllamaService.prompt text) w).
Proof.
  intros (response & msg & Hchat & Hmsg & Hcontent) Hloads Hkind.
  unfold OllamaService.analyze_text_for_pii, OllamaService.chat. unfold_M.
  rewrite Hchat, Hmsg, Hcontent. cbn [OllamaService.py_json_loads].
  rewrite Hloads.
  destruct (exn_kind e); first [reflexivity | exfalso; apply Hkind; reflexivity].
Qed.

(** When [json.loads] raises on the answer of the model, the run of every
    processor succeeds, redacts nothing and writes no file.  For a
    [JSONDecodeError] the result has [pii_found] true and the message that no
    redactions are needed; for any other exception, such as the
    [RecursionError] of a deeply nested answer, the document is reported as
    free of sensitive information, with [pii_found] false. *)
Theorem non_json_answer_redacts_nothing (rt : Runtime) (cfg : Config) (p : processor)
    (file_path : pystr) (w : world) (text content : pystr) (e : exn) :
  Processor.extract_text rt p file_path w = (Ok text, w) ->
  strip text <> [] ->
  model_answers rt cfg text content ->
  json_loads rt content = Raise e ->
  Processor.process_file rt cfg p file_path w
  = (Ok match exn_kind e with
        | JSONDecodeError =>
            {| success := true;
               message := py "No redactions needed based on confidence threshold";
               extracted_text := text; output_file := None;
               pii_found := true; redaction_count := 0 |}
        | _ =>
            {| success := true; message := msg_no_pii (texts_of p);
               extracted_text := text; output_file := None;
               pii_found := false; redaction_count := 0 |}
        end,
     after_chat (OllamaService.prompt text) w).
Proof.
  intros Hex Hstrip Hans Hloads.
  assert (Hno : exn_kind e <> JSONDecodeError ->
                Processor.process_file rt cfg p file_path w
                = (Ok {| success := true; message := msg_no_pii (texts_of p);
                         extracted_text := text; output_file := None;
                         pii_found := false; redaction_count := 0 |},
                   after_chat (OllamaService.prompt text) w)).
  { intros Hkind. apply run_outcome_sound.
    eapply run_no_pii; try eassumption.
    - eapply analyze_parse_error; eassumption.
    - reflexivity.
    - reflexivity. }
  destruct (exn_kind e) eqn:Hkind; try (apply Hno; discriminate).
  apply run_outcome_sound.
  eapply run_below_threshold; try eassumption.
  - eapply analyze_degraded; eassumption.
  - reflexivity.
  - reflexivity.
  - reflexivity.
Qed.

(** When the answer of the model is JSON but not an object (a list, a
    string, a number, [null]), the run fails: the lookup of [found_pii] raises
    and the result has [success] false. *)
Theorem non_object_answer_fails (rt : Runtime) (cfg : Config) (p : processor)
    (file_path : pystr) (w : world) (text content : pystr) (a : pyval) :
  Processor.extract_text rt p file_path w = (Ok text, w) ->
  strip text <> [] ->
  model_answers rt cfg text content ->
  json_loads rt content = Ok a ->
  (forall items, a <> VDict items) ->
  Processor.process_file rt cfg p file_path w
  = (Ok (ProcessingResult_init false
           (msg_error (texts_of p) ++ quoted (type_name a)
            ++ py " object has no attribute " ++ quoted (py "get"))),
     after_chat (OllamaService.prompt text) w).
Proof.
  intros Hex Hstrip Hans Hloads Hnot.
  apply (run_outcome_sound rt cfg p file_path w _ _
           (run_analysis_unusable rt cfg p file_path w text a _ (no_attribute a "get")
              Hex Hstrip (analyze_parsed _ _ _ _ _ _ Hans Hloads)
              ltac:(destruct a; try reflexivity; exfalso; eapply Hnot; reflexivity))).
Qed.

(** An answer object whose [found_pii] is absent or false-like is reported
    as no sensitive information, whatever its [details] hold. *)
Theorem details_ignored_without_flag (rt : Runtime) (cfg : Config) (p : processor)
    (file_path : pystr) (w : world) (text content : pystr)
    (items : list (pystr * pyval)) :
  Processor.extract_text rt p file_path w = (Ok text, w) ->
  strip text <> [] ->
  model_answers rt cfg text content ->
  json_loads rt content = Ok (VDict items) ->
  match assoc (py "found_pii") items with
  | Some flag => truthy flag = false
  | None => True
  end ->
  Processor.process_file rt cfg p file_path w
  = (Ok {| success := true; message := msg_no_pii (texts_of p);
           extracted_text := text; output_file := None;
           pii_found := false; redaction_count := 0 |},
     after_chat (OllamaService.prompt text) w).
Proof.
  intros Hex Hstrip Hans Hloads Hflag. apply run_outcome_sound.
  eapply run_no_pii; try eassumption.
  - eapply analyze_parsed; eassumption.
  - reflexivity.
  - cbn. destruct (assoc (py "found_pii") items); [exact Hflag|reflexivity].
Qed.

(** ** Suggestions from arbitrary analyses *)

Section SuggestionLoop.

Variable rt : Runtime.

Lemma suggestions_loop_acc (cfg : Config) (ds : list pyval) :
  forall acc,
    OllamaService.suggestions_loop rt cfg ds acc
    = (fun l => acc ++ l) <$> OllamaService.suggestions_loop rt cfg ds [].
Proof.
  induction ds as [|d ds IH]; intros acc; cbn [OllamaService.suggestions_loop].
  - cbn. rewrite app_nil_r. reflexivity.
  - destruct (py_get d (py "confidence") (VInt 0)) as [c|e]; [|reflexivity].
    cbn [mbind result_bind].
    destruct (py_ge c (CONFIDENCE_THRESHOLD cfg)) as [[|]|e]; cbn [mbind result_bind];
      [|apply IH|reflexivity].
    destruct (py_getitem d (py "text")) as [text|e]; [|reflexivity].
    cbn [mbind result_bind].
    destruct (py_getitem d (py "type")) as [ty|e]; [|reflexivity].
    cbn [mbind result_bind].
    destruct (OllamaService._generate_replacement rt ty) as [r|e]; [|reflexivity].
    cbn [mbind result_bind].
    destruct (py_getitem d (py "confidence")) as [conf|e]; [|reflexivity].
    cbn [mbind result_bind].
    rewrite (IH (acc ++ _)), (IH ([] ++ _)).
    destruct (OllamaService.suggestions_loop rt cfg ds []) as [l|e]; [|reflexivity].
    cbn. rewrite <- app_assoc. reflexivity.
Qed.

Lemma suggestions_loop_monotone (cfg1 cfg2 : Config) (ds : list pyval) :
  float_le (CONFIDENCE_THRESHOLD cfg1) (CONFIDENCE_THRESHOLD cfg2) = true ->
  forall l1,
    OllamaService.suggestions_loop rt cfg1 ds [] = Ok l1 ->
    exists l2,
      OllamaService.suggestions_loop rt cfg2 ds [] = Ok l2 /\ sublist l2 l1.
Proof.
  intros Hle. induction ds as [|d ds IH]; intros l1;
    cbn [OllamaService.suggestions_loop].
  - intros [= <-]. exists []. split; [reflexivity|constructor].
  - destruct (py_get d (py "confidence") (VInt 0)) as [c|e]; [|discriminate].
    cbn [mbind result_bind]. unfold py_ge.
    destruct (as_float c) as [x|]; [|discriminate]. cbn [mbind result_bind].
    destruct (float_ge x (CONFIDENCE_THRESHOLD cfg1)) eqn:H1.
    + destruct (py_getitem d (py "text")) as [text|e]; [|discriminate].
      cbn [mbind result_bind].
      destruct (py_getitem d (py "type")) as [ty|e]; [|discriminate].
      cbn [mbind result_bind].
      destruct (OllamaService._generate_replacement rt ty) as [r|e]; [|discriminate].
      cbn [mbind result_bind].
      destruct (py_getitem d (py "confidence")) as [conf|e]; [|discriminate].
      cbn [mbind result_bind].
      rewrite !(suggestions_loop_acc _ ds ([] ++ _)).
      destruct (OllamaService.suggestions_loop rt cfg1 ds []) as [l1'|e] eqn:Hl1;
        [|discriminate].
      intros [= <-]. destruct (IH l1' eq_refl) as (l2' & -> & Hsub).
      destruct (float_ge x (CONFIDENCE_THRESHOLD cfg2)).
      * eexists. split; [reflexivity|]. cbn. apply sublist_skip, Hsub.
      * exists l2'. split; [reflexivity|]. cbn. apply sublist_cons, Hsub.
    + intros Hl1. destruct (IH l1 Hl1) as (l2 & Hl2 & Hsub).
      destruct (float_ge x (CONFIDENCE_THRESHOLD cfg2)) eqn:H2.
      * rewrite (float_ge_le_trans _ _ _ Hle H2) in H1. discriminate.
      * exists l2. split; assumption.
Qed.

Lemma suggestions_loop_missing_text (cfg : Config) (d c : pyval) (e : exn)
    (ds : list pyval) :
  In d ds ->
  py_get d (py "confidence") (VInt 0) = Ok c ->
  py_ge c (CONFIDENCE_THRESHOLD cfg) = Ok true ->
  py_getitem d (py "text") = Raise e ->
  forall acc, exists e', OllamaService.suggestions_loop rt cfg ds acc = Raise e'.
Proof.
  intros Hin Hc Hge Htext. induction ds as [|d' ds IH]; [destruct Hin|].
  intros acc. rewrite suggestions_loop_acc.
  destruct Hin as [->|Hin].
  - cbn [OllamaService.suggestions_loop]. rewrite Hc. cbn [mbind result_bind].
    rewrite Hge. cbn [mbind result_bind]. rewrite Htext. eexists. reflexivity.
  - cbn [OllamaService.suggestions_loop].
    destruct (py_get d' (py "confidence") (VInt 0)) as [c'|e1]; [|eexists; reflexivity].
    cbn [mbind result_bind].
    destruct (py_ge c' (CONFIDENCE_THRESHOLD cfg)) as [[|]|e1];
      cbn [mbind result_bind]; [| |eexists; reflexivity].
    + destruct (py_getitem d' (py "text")) as [text|e1]; [|eexists; reflexivity].
      cbn [mbind result_bind].
      destruct (py_getitem d' (py "type")) as [ty|e1]; [|eexists; reflexivity].
      cbn [mbind result_bind].
      destruct (OllamaService._generate_replacement rt ty) as [r|e1];
        [|eexists; reflexivity].
      cbn [mbind result_bind].
      destruct (py_getitem d' (py "confidence")) as [conf|e1]; [|eexists; reflexivity].
      cbn [mbind result_bind].
      destruct (IH Hin ([] ++ [VDict [(py "text", text); (py "replacement", VStr r);
                                       (py "type", ty); (py "confidence", conf)]]))
        as [e' ->].
      eexists. reflexivity.
    + destruct (IH Hin []) as [e' ->]. eexists. reflexivity.
Qed.

End SuggestionLoop.

(** For every analysis object, well-formed or not: when the suggestions
    can be generated at a threshold, they can be generated at every higher
    threshold, and the suggestions at the higher threshold are a sub-list,
    in the same order, of those at the lower one. *)
Theorem higher_threshold_gives_sublist (rt : Runtime) (cfg1 cfg2 : Config)
    (a s1 : pyval) :
  float_le (CONFIDENCE_THRESHOLD cfg1) (CONFIDENCE_THRESHOLD cfg2) = true ->
  OllamaService.generate_redaction_suggestions rt cfg1 a = Ok s1 ->
  exists l1 l2,
    s1 = suggestion_set l1
    /\ OllamaService.generate_redaction_suggestions rt cfg2 a = Ok (suggestion_set l2)
    /\ sublist l2 l1.
Proof.
  intros Hle. unfold OllamaService.generate_redaction_suggestions.
  destruct (py_get a (py "found_pii") (VBool false)) as [found|e]; [|discriminate].
  cbn [mbind result_bind].
  destruct (truthy found); cbn [negb].
  - destruct (py_get a (py "details") (VList [])) as [details|e]; [|discriminate].
    cbn [mbind result_bind].
    destruct (py_iter details) as [items|e]; [|discriminate].
    cbn [mbind result_bind].
    destruct (OllamaService.suggestions_loop rt cfg1 items []) as [l1|e] eqn:Hl1;
      [|discriminate].
    cbn [mbind result_bind]. intros [= <-].
    destruct (suggestions_loop_monotone rt cfg1 cfg2 items Hle l1 Hl1) as (l2 & -> & Hsub).
    exists l1, l2. repeat split. exact Hsub.
  - intros [= <-]. exists [], []. repeat split. constructor.
Qed.

(** A finding at or above the threshold that has no [text] makes
    [generate_redaction_suggestions] raise, wherever it stands among the
    details, and the run of [process_file] then ends with [success] false. *)
Theorem finding_without_text_fails_the_run (rt : Runtime) (cfg : Config) (p : processor)
    (file_path : pystr) (w w2 : world) (text : pystr)
    (items : list (pystr * pyval)) (flag : pyval) (ds : list pyval) (d c : pyval)
    (e : exn) :
  Processor.extract_text rt p file_path w = (Ok text, w) ->
  strip text <> [] ->
  OllamaService.analyze_text_for_pii rt cfg text w = (Ok (VDict items), w2) ->
  assoc (py "found_pii") items = Some flag ->
  truthy flag = true ->
  assoc (py "details") items = Some (VList ds) ->
  In d ds ->
  py_get d (py "confidence") (VInt 0) = Ok c ->
  py_ge c (CONFIDENCE_THRESHOLD cfg) = Ok true ->
  py_getitem d (py "text") = Raise e ->
  (exists e', OllamaService.generate_redaction_suggestions rt cfg (VDict items) = Raise e')
  /\ exists res,
       Processor.process_file rt cfg p file_path w = (Ok res, w2)
       /\ success res = false.
Proof.
  intros Hex Hstrip Han Hflag Htf Hdet Hin Hc Hge Htext.
  assert (Hgen : exists e',
             OllamaService.generate_redaction_suggestions rt cfg (VDict items) = Raise e').
  { unfold OllamaService.generate_redaction_suggestions. cbn [py_get].
    rewrite Hflag, Hdet. cbn [mbind result_bind]. rewrite Htf. cbn [negb py_iter].
    cbn [mbind result_bind].
    destruct (suggestions_loop_missing_text rt cfg d c e ds Hin Hc Hge Htext []) as [e' ->].
    exists e'. reflexivity. }
  split; [exact Hgen|]. destruct Hgen as [e' Hgen].
  eexists. split.
  - apply run_outcome_sound. eapply run_suggest_failed; try eassumption.
    cbn [py_get]. rewrite Hflag. reflexivity.
  - reflexivity.
Qed.

(** ** Replacement texts *)

Lemma assoc_In {V} (k : pystr) (items : list (pystr * V)) (v : V) :
  assoc k items = Some v -> In (k, v) items.
Proof.
  induction items as [|[k' v'] items IH]; [discriminate|]. cbn [assoc].
  destruct (pystr_eqb k k') eqn:Hk.
  - intros [= ->]. apply pystr_eqb_eq in Hk as ->. left. reflexivity.
  - intros H. right. apply IH, H.
Qed.

Lemma ascii_lower_upper (c : N) : ascii_lower_cp (ascii_upper_cp c) = ascii_lower_cp c.
Proof.
  unfold ascii_lower_cp, ascii_upper_cp.
  destruct (N.leb_spec 97 c), (N.leb_spec c 122); cbn [andb];
    repeat match goal with
           | |- context [N.leb ?a ?b] => destruct (N.leb_spec a b); cbn [andb]
           end; lia.
Qed.

Lemma is_ascii_upper (s : pystr) :
  is_ascii s = true -> is_ascii (List.map ascii_upper_cp s) = true.
Proof.
  unfold is_ascii. rewrite !forallb_forall. intros H c [c0 [<- Hin]]%in_map_iff.
  specialize (H c0 Hin). apply N.ltb_lt in H. apply N.ltb_lt.
  unfold ascii_upper_cp. destruct ((97 <=? c0) && (c0 <=? 122)); lia.
Qed.

Lemma lower_upper (rt : Runtime) (s : pystr) :
  is_ascii s = true -> lower rt (List.map ascii_upper_cp s) = lower rt s.
Proof.
  intros Hs. unfold lower. rewrite Hs, (is_ascii_upper s Hs), List.map_map.
  apply List.map_ext. intros c. apply ascii_lower_upper.
Qed.

(** Every replacement is a non-empty ASCII text of the form
    [[... REDACTED]]; for an ASCII category the letter case does not matter;
    a category that is not a string makes [_generate_replacement] raise. *)
Theorem replacement_shape (rt : Runtime) :
  (forall ty r,
     OllamaService._generate_replacement rt ty = Ok r ->
     (exists body, r = py "[" ++ body ++ py " REDACTED]") /\ is_ascii r = true)
  /\ (forall s,
        is_ascii s = true ->
        OllamaService._generate_replacement rt (VStr (List.map ascii_upper_cp s))
        = OllamaService._generate_replacement rt (VStr s))
  /\ (forall ty,
        (forall s, ty <> VStr s) ->
        exists e,
          OllamaService._generate_replacement rt ty = Raise e
          /\ exn_kind e = AttributeError).
Proof.
  split; [|split].
  - intros ty r. destruct ty; try discriminate.
    rewrite generate_replacement_str. intros [= <-]. unfold table_replacement.
    destruct (assoc (lower rt s) OllamaService.replacements) as [r|] eqn:Hr.
    + apply assoc_In in Hr. unfold OllamaService.replacements in Hr.
      cbn [In] in Hr.
      repeat (destruct Hr as [[= _ <-]|Hr];
              [match goal with
               | |- (exists body, ?lit = _) /\ _ =>
                   split; [exists (firstn (length lit - 11) (skipn 1 lit));
                           vm_compute; reflexivity
                          |reflexivity]
               end|]).
      destruct Hr.
    + split; [exists (py "SENSITIVE INFO"); reflexivity|reflexivity].
  - intros s Hs. rewrite !generate_replacement_str. unfold table_replacement.
    rewrite (lower_upper rt s Hs). reflexivity.
  - intros ty Hty. destruct ty; try (eexists; split; reflexivity).
    exfalso. eapply Hty. reflexivity.
Qed.

(** ** Temporary files *)

Lemma fresh_temp_path_cases (fs : gmap pystr (list Byte.byte))
    (refused : pystr -> option exn) (dir suffix : pystr)
    (names names' : list pystr) (r : result pystr) :
  let cand n := path_join dir (py "tmp" ++ n ++ suffix) in
  let taken_path p :=
    is_Some (fs !! p)
    \/ exists e, refused p = Some e /\ exn_kind e = FileExistsError in
  fresh_temp_path fs refused dir suffix names = (r, names') ->
  (exists taken n,
     names = taken ++ n :: names'
     /\ Forall (fun m => taken_path (cand m)) taken
     /\ fs !! cand n = None
     /\ match r with
        | Ok p => p = cand n /\ refused p = None
        | Raise e => refused (cand n) = Some e /\ exn_kind e <> FileExistsError
        end)
  \/ (Forall (fun m => taken_path (cand m)) names
      /\ names' = []
      /\ exists e, r = Raise e /\ exn_kind e = FileExistsError).
Proof.
  intros cand taken_path. revert names' r.
  induction names as [|n names IH]; intros names' r; cbn [fresh_temp_path].
  - intros [= <- <-]. right. split; [constructor|]. split; [reflexivity|].
    eexists. split; reflexivity.
  - fold (cand n).
    assert (Hpass : taken_path (cand n) ->
                    fresh_temp_path fs refused dir suffix names = (r, names') ->
                    (exists taken n0,
                       n :: names = taken ++ n0 :: names'
                       /\ Forall (fun m => taken_path (cand m)) taken
                       /\ fs !! cand n0 = None
                       /\ match r with
                          | Ok p => p = cand n0 /\ refused p = None
                          | Raise e =>
                              refused (cand n0) = Some e
                              /\ exn_kind e <> FileExistsError
                          end)
                    \/ (Forall (fun m => taken_path (cand m)) (n :: names)
                        /\ names' = []
                        /\ exists e, r = Raise e /\ exn_kind e = FileExistsError)).
    { intros Hn H. destruct (IH _ _ H) as [(taken & n0 & -> & Ht & Hrest)|(Hall & Hrest)].
      - left. exists (n :: taken), n0. split; [reflexivity|].
        split; [constructor; assumption|exact Hrest].
      - right. split; [constructor; assumption|exact Hrest]. }
    destruct (fs !! cand n) as [data|] eqn:Hp.
    { apply Hpass. left. eauto. }
    destruct (refused (cand n)) as [e|] eqn:He.
    + destruct (exn_kind e) eqn:Hk;
        try (intros [= <- <-]; left; exists [], n;
             split; [reflexivity|]; split; [constructor|]; split; [exact Hp|];
             split; [exact He|]; rewrite Hk; discriminate).
      apply Hpass. right. exists e. split; assumption.
    + intros [= <- <-]. left. exists [], n.
      split; [reflexivity|]. split; [constructor|]. split; [exact Hp|].
      split; [reflexivity|exact He].
Qed.

(** When [create_temp_file] returns a path, [<cwd>/temp] is not a regular
    file and the path is the first candidate [<cwd>/temp/tmp<random>_<name>]
    that neither exists nor is refused by the system; the file is created
    empty and every other file is left as it was.  When it raises, no file is
    changed, and the exception is that of [os.makedirs] for [<cwd>/temp]
    ([FileExistsError] for a regular file there), that of the first candidate
    the system refuses for another reason than its existence, or
    [FileExistsError] when every candidate exists. *)
Theorem create_temp_file_is_fresh (name : pystr) (w w' : world) (r : result pystr) :
  create_temp_file name w = (r, w') ->
  let temp_dir := path_join (cwd w) (py "temp") in
  match r with
  | Ok out =>
      files w !! temp_dir = None
      /\ files w !! out = None
      /\ create_error w out = None
      /\ files w' !! out = Some []
      /\ (forall q, q <> out -> files w' !! q = files w !! q)
      /\ exists taken n,
           temp_names w = taken ++ n :: temp_names w'
           /\ out = temp_candidate w name n
           /\ Forall (fun m => exists_already w (temp_candidate w name m)) taken
  | Raise e =>
      files w' = files w
      /\ ((is_Some (files w !! temp_dir) /\ exn_kind e = FileExistsError)
          \/ refused_with w temp_dir e
          \/ (exists taken n,
                temp_names w = taken ++ n :: temp_names w'
                /\ Forall (fun m => exists_already w (temp_candidate w name m)) taken
                /\ refused_with w (temp_candidate w name n) e)
          \/ (Forall (fun m => exists_already w (temp_candidate w name m)) (temp_names w)
              /\ exn_kind e = FileExistsError))
  end.
Proof.
  intros Hct temp_dir. revert Hct.
  unfold create_temp_file. unfold mbind, M_bind. fold temp_dir.
  unfold makedirs at 1.
  destruct (files w !! temp_dir) as [data|] eqn:Hdir.
  { intros [= <- <-]. split; [reflexivity|]. left. split; [eauto|reflexivity]. }
  assert (Hnamed :
    NamedTemporaryFile temp_dir (py "_" ++ name) w = (r, w') ->
    match r with
    | Ok out =>
        None = (None : option (list Byte.byte))
        /\ files w !! out = None
        /\ create_error w out = None
        /\ files w' !! out = Some []
        /\ (forall q, q <> out -> files w' !! q = files w !! q)
        /\ exists taken n,
             temp_names w = taken ++ n :: temp_names w'
             /\ out = temp_candidate w name n
             /\ Forall (fun m => exists_already w (temp_candidate w name m)) taken
    | Raise e =>
        files w' = files w
        /\ ((is_Some (None : option (list Byte.byte)) /\ exn_kind e = FileExistsError)
            \/ refused_with w temp_dir e
            \/ (exists taken n,
                  temp_names w = taken ++ n :: temp_names w'
                  /\ Forall (fun m => exists_already w (temp_candidate w name m)) taken
                  /\ refused_with w (temp_candidate w name n) e)
            \/ (Forall (fun m => exists_already w (temp_candidate w name m))
                  (temp_names w)
                /\ exn_kind e = FileExistsError))
    end).
  { unfold NamedTemporaryFile.
    destruct (fresh_temp_path (files w) (create_error w) temp_dir (py "_" ++ name)
                (temp_names w)) as [r0 names'] eqn:Hf.
    apply fresh_temp_path_cases in Hf.
    destruct r0 as [out|e]; intros [= <- <-]; cbn [files temp_names].
    - destruct Hf as [(taken & n & Hnames & Htaken & Hnone & -> & Hfree)
                     |(_ & _ & e & [=] & _)].
      split; [reflexivity|]. split; [exact Hnone|]. split; [exact Hfree|].
      split; [apply lookup_insert_eq|].
      split; [intros q Hq; apply lookup_insert_ne; congruence|].
      exists taken, n. split; [exact Hnames|]. split; [reflexivity|exact Htaken].
    - split; [reflexivity|]. right. right.
      destruct Hf as [(taken & n & Hnames & Htaken & Hnone & Href & Hk)
                     |(Hall & _ & e' & [= <-] & Hk)].
      + left. exists taken, n. split; [exact Hnames|]. split; [exact Htaken|].
        split; [exact Hnone|]. split; assumption.
      + right. split; assumption. }
  destruct (create_error w temp_dir) as [e|] eqn:Herr; [|exact Hnamed].
  destruct (exn_kind e) eqn:Hk; try exact Hnamed;
    (intros [= <- <-]; split; [reflexivity|]; right; left;
     split; [exact Hdir|]; split; [exact Herr|]; rewrite Hk; discriminate).
Qed.

(** Removing the file that [create_temp_file] made gives back the files
    there were before; [cleanup_temp_file] never raises and removes nothing
    else. *)
Theorem cleanup_undoes_create (name : pystr) (w w1 : world) (out : pystr) :
  create_temp_file name w = (Ok out, w1) ->
  exists w2,
    BaseProcessor.cleanup_temp_file out w1 = (Ok tt, w2)
    /\ files w2 = files w
    /\ chat_requests w2 = chat_requests w.
Proof.
  intros Hct. eexists. split; [reflexivity|].
  apply create_temp_file_spec in Hct as [[Hnone Hfiles] Hchat].
  cbn [files chat_requests set_files]. split; [|exact Hchat].
  rewrite Hfiles. apply delete_insert_id. exact Hnone.
Qed.

(** ** The registry of processors *)

Lemma existsb_assoc {V} (k : pystr) (items : list (pystr * V)) :
  existsb (fun kv => pystr_eqb k (fst kv)) items = true <-> is_Some (assoc k items).
Proof.
  induction items as [|[k' v] items IH]; cbn [existsb assoc fst].
  - split; [discriminate|intros [? [=]]].
  - destruct (pystr_eqb k k'); cbn [orb]; [|exact IH].
    split; [eauto|reflexivity].
Qed.

Lemma lstrip_dots_snoc (x : pystr) :
  ProcessorFactory.lstrip_dots (x ++ [46])
  = match ProcessorFactory.lstrip_dots x with
    | [] => []
    | _ :: _ => ProcessorFactory.lstrip_dots x ++ [46]
    end.
Proof.
  induction x as [|c x IH]; [reflexivity|].
  cbn [app ProcessorFactory.lstrip_dots]. destruct (c =? 46); [exact IH|reflexivity].
Qed.

Lemma strip_dots_snoc (x : pystr) :
  ProcessorFactory.strip_dots (x ++ [46]) = ProcessorFactory.strip_dots x.
Proof.
  unfold ProcessorFactory.strip_dots. rewrite lstrip_dots_snoc.
  destruct (ProcessorFactory.lstrip_dots x) as [|c t]; [reflexivity|].
  rewrite rev_app_distr. reflexivity.
Qed.

Lemma lower_cons_dot (rt : Runtime) (s : pystr) :
  is_ascii s = true -> lower rt (46 :: s) = 46 :: lower rt s.
Proof. intros Hs. unfold lower. cbn [is_ascii forallb]. fold (is_ascii s).
  rewrite Hs. reflexivity. Qed.

Lemma lower_snoc_dot (rt : Runtime) (s : pystr) :
  is_ascii s = true -> lower rt (s ++ [46]) = lower rt s ++ [46].
Proof.
  intros Hs. unfold lower, is_ascii in *. rewrite forallb_app, Hs.
  cbn [forallb andb]. rewrite List.map_app. reflexivity.
Qed.

(** [get_processor] does not depend on the letter case of an ASCII
    extension nor on a dot before or after it. *)
Theorem get_processor_normalises (rt : Runtime) (ext : pystr) :
  is_ascii ext = true ->
  ProcessorFactory.get_processor rt (List.map ascii_upper_cp ext)
  = ProcessorFactory.get_processor rt ext
  /\ ProcessorFactory.get_processor rt (46 :: ext) = ProcessorFactory.get_processor rt ext
  /\ ProcessorFactory.get_processor rt (ext ++ [46])
     = ProcessorFactory.get_processor rt ext.
Proof.
  intros Hext. unfold ProcessorFactory.get_processor. split; [|split].
  - rewrite (lower_upper rt ext Hext). reflexivity.
  - rewrite (lower_cons_dot rt ext Hext).
    unfold ProcessorFactory.strip_dots at 1. cbn [ProcessorFactory.lstrip_dots].
    reflexivity.
  - rewrite (lower_snoc_dot rt ext Hext), strip_dots_snoc. reflexivity.
Qed.

(** The registry and the processors agree: [ProcessorFactory.is_supported]
    holds exactly when [get_processor] finds a processor; the processor found
    for an extension supports it, and a processor that supports an extension
    is the one the registry gives for it; the extensions listed by category
    are the registered ones. *)
Theorem registry_agrees (rt : Runtime) :
  (forall ext,
     ProcessorFactory.is_supported rt ext = true
     <-> exists p, ProcessorFactory.get_processor rt ext = Some p)
  /\ (forall ext p,
        ProcessorFactory.get_processor rt ext = Some p ->
        BaseProcessor.is_supported rt p (ProcessorFactory.strip_dots (lower rt ext)) = true)
  /\ (forall ext p,
        BaseProcessor.is_supported rt p ext = true ->
        ProcessorFactory.get_processor rt ext = Some p)
  /\ List.concat (List.map snd ProcessorFactory.get_supported_by_category)
     = ProcessorFactory.get_supported_extensions.
Proof.
  split; [|split; [|split]].
  - intros ext. unfold ProcessorFactory.is_supported, ProcessorFactory.get_processor.
    apply existsb_assoc.
  - intros ext p Hget. unfold ProcessorFactory.get_processor in Hget.
    apply assoc_In in Hget. unfold ProcessorFactory._processors in Hget.
    cbn [In] in Hget.
    repeat (destruct Hget as [[= <- <-]|Hget]; [reflexivity|]). destruct Hget.
  - intros ext p Hsup. unfold BaseProcessor.is_supported in Hsup.
    apply existsb_exists in Hsup as (k & Hin & Hk). apply pystr_eqb_eq in Hk.
    unfold ProcessorFactory.get_processor. rewrite Hk.
    destruct p; cbn [BaseProcessor.supported_extensions In] in Hin;
      repeat (destruct Hin as [<-|Hin]; [reflexivity|]); destruct Hin.
  - reflexivity.
Qed.

(** ** The image processor *)

Lemma Qle_bool_false (a b : Q) : Qle_bool a b = false -> (b <= a)%Q.
Proof.
  intros H. destruct (Qlt_le_dec b a) as [Hlt|Hle]; [apply Qlt_le_weak, Hlt|].
  apply Qle_bool_iff in Hle. congruence.
Qed.

Lemma fold_min_le (rest : list Q) :
  forall x0,
    let m := fold_left (fun m y => if Qle_bool m y then m else y) rest x0 in
    (m <= x0)%Q /\ forall y, In y rest -> (m <= y)%Q.
Proof.
  induction rest as [|y rest IH]; intros x0; cbn [fold_left].
  - split; [apply Qle_refl|intros ? []].
  - destruct (Qle_bool x0 y) eqn:Hxy.
    + destruct (IH x0) as [H0 Hrest]. split; [exact H0|].
      intros z [<-|Hz]; [|apply Hrest, Hz].
      eapply Qle_trans; [exact H0|]. apply Qle_bool_iff, Hxy.
    + destruct (IH y) as [H0 Hrest]. split.
      * eapply Qle_trans; [exact H0|]. apply Qle_bool_false, Hxy.
      * intros z [<-|Hz]; [exact H0|apply Hrest, Hz].
Qed.

Lemma fold_max_ge (rest : list Q) :
  forall x0,
    let m := fold_left (fun m y => if Qle_bool y m then m else y) rest x0 in
    (x0 <= m)%Q /\ forall y, In y rest -> (y <= m)%Q.
Proof.
  induction rest as [|y rest IH]; intros x0; cbn [fold_left].
  - split; [apply Qle_refl|intros ? []].
  - destruct (Qle_bool y x0) eqn:Hxy.
    + destruct (IH x0) as [H0 Hrest]. split; [exact H0|].
      intros z [<-|Hz]; [|apply Hrest, Hz].
      eapply Qle_trans; [|exact H0]. apply Qle_bool_iff, Hxy.
    + destruct (IH y) as [H0 Hrest]. split.
      * eapply Qle_trans; [|exact H0]. apply Qle_bool_false, Hxy.
      * intros z [<-|Hz]; [exact H0|apply Hrest, Hz].
Qed.

Lemma py_min_le (l : list Q) (m : Q) :
  ImageProcessor.py_min l = Ok m -> forall x, In x l -> (m <= x)%Q.
Proof.
  destruct l as [|x0 rest]; [discriminate|]. intros [= <-] x Hin.
  destruct (fold_min_le rest x0) as [H0 Hrest].
  destruct Hin as [<-|Hx]; [exact H0|apply Hrest, Hx].
Qed.

Lemma py_max_ge (l : list Q) (m : Q) :
  ImageProcessor.py_max l = Ok m -> forall x, In x l -> (x <= m)%Q.
Proof.
  destruct l as [|x0 rest]; [discriminate|]. intros [= <-] x Hin.
  destruct (fold_max_ge rest x0) as [H0 Hrest].
  destruct Hin as [<-|Hx]; [exact H0|apply Hrest, Hx].
Qed.

(** The rectangle drawn over a fragment covers every corner of its box;
    a box without corners makes the computation raise [ValueError]. *)
Theorem extent_covers_box (box : list (Q * Q)) :
  match ImageProcessor.extent box with
  | Ok (min_x, min_y, max_x, max_y) =>
      box <> []
      /\ forall x y, In (x, y) box ->
           (min_x <= x)%Q /\ (x <= max_x)%Q /\ (min_y <= y)%Q /\ (y <= max_y)%Q
  | Raise e => box = [] /\ exn_kind e = ValueError
  end.
Proof.
  unfold ImageProcessor.extent.
  destruct box as [|[x0 y0] box]; [split; reflexivity|].
  destruct (ImageProcessor.py_min (List.map fst ((x0, y0) :: box))) as [min_x|e] eqn:Hminx;
    [|discriminate].
  destruct (ImageProcessor.py_max (List.map fst ((x0, y0) :: box))) as [max_x|e] eqn:Hmaxx;
    [|discriminate].
  destruct (ImageProcessor.py_min (List.map snd ((x0, y0) :: box))) as [min_y|e] eqn:Hminy;
    [|discriminate].
  destruct (ImageProcessor.py_max (List.map snd ((x0, y0) :: box))) as [max_y|e] eqn:Hmaxy;
    [|discriminate].
  cbn [mbind result_bind]. split; [discriminate|].
  intros x y Hin.
  assert (Hx : In x (List.map fst ((x0, y0) :: box)))
    by (apply in_map_iff; exists (x, y); split; [reflexivity|exact Hin]).
  assert (Hy : In y (List.map snd ((x0, y0) :: box)))
    by (apply in_map_iff; exists (x, y); split; [reflexivity|exact Hin]).
  repeat split.
  - apply (py_min_le _ _ Hminx), Hx.
  - apply (py_max_ge _ _ Hmaxx), Hx.
  - apply (py_min_le _ _ Hminy), Hy.
  - apply (py_max_ge _ _ Hmaxy), Hy.
Qed.

Lemma join_fragments_filter (results : list ocr_item) :
  forall acc,
    ImageProcessor.join_fragments results acc
    = ImageProcessor.join_fragments (List.filter above_floor results) acc.
Proof.
  induction results as [|item results IH]; intros acc; [reflexivity|].
  cbn [ImageProcessor.join_fragments List.filter]. unfold above_floor at 1.
  destruct (float_gt (ocr_confidence item) ImageProcessor.ocr_floor) eqn:H.
  - cbn [ImageProcessor.join_fragments]. rewrite H. apply IH.
  - apply IH.
Qed.

Lemma redact_matches_filter (rt : Runtime) (pil : Pillow) (text_to_redact : pystr)
    (results : list ocr_item) :
  forall image,
    ImageProcessor.redact_matches rt pil image text_to_redact results
    = ImageProcessor.redact_matches rt pil image text_to_redact
        (List.filter above_floor results).
Proof.
  induction results as [|item results IH]; intros image; [reflexivity|].
  cbn [ImageProcessor.redact_matches List.filter]. unfold above_floor at 1.
  destruct (float_gt (ocr_confidence item) ImageProcessor.ocr_floor) eqn:H;
    cbn [andb]; [|apply IH].
  cbn [ImageProcessor.redact_matches]. rewrite H. cbn [andb].
  destruct (contains _ _); [|apply IH].
  destruct (ImageProcessor.extent (bbox item)) as [box|e]; [|reflexivity].
  cbn [mbind result_bind].
  destruct (draw_rectangle pil image box) as [image'|e]; [|reflexivity].
  cbn [mbind result_bind]. apply IH.
Qed.

(** OCR fragments whose confidence is not above [0.5] play no part: the
    extracted text and the redacted image are those of the fragments above
    the floor alone. *)
Theorem fragments_below_floor_are_ignored (rt : Runtime) (results : list ocr_item) :
  ImageProcessor.join_fragments results []
  = ImageProcessor.join_fragments (List.filter above_floor results) []
  /\ forall (pil : Pillow) (image : Image pil) (redactions : list pyval),
       ImageProcessor.redact_loop rt pil image redactions results
       = ImageProcessor.redact_loop rt pil image redactions
           (List.filter above_floor results).
Proof.
  split; [apply join_fragments_filter|].
  intros pil image redactions. revert image.
  induction redactions as [|redaction redactions IH]; intros image; [reflexivity|].
  cbn [ImageProcessor.redact_loop].
  destruct (py_get redaction (py "text") (VStr [])) as [t|e]; [|reflexivity].
  cbn [mbind result_bind].
  destruct (py_strip t) as [text_to_redact|e]; [|reflexivity].
  cbn [mbind result_bind].
  destruct (negb (truthy (VStr text_to_redact))); [apply IH|].
  rewrite <- redact_matches_filter.
  destruct (ImageProcessor.redact_matches rt pil image text_to_redact results)
    as [image'|e]; [|reflexivity].
  cbn [mbind result_bind]. apply IH.
Qed.

(** ** Suggestions without a text *)

(** A suggestion whose [text] is absent or empty is skipped by every
    processor: the text, the document and the image stay as they are. *)
Theorem suggestions_without_text_are_skipped (rt : Runtime) (redactions : list pyval) :
  Forall no_text redactions ->
  (forall content, TextProcessor.redact_loop redactions content = Ok content)
  /\ (forall (m : PyMuPDF) (doc : Document m) (page_num : nat),
        PDFProcessor.redact_page m doc page_num redactions = Ok doc)
  /\ (forall (pil : Pillow) (image : Image pil) (ocr_results : list ocr_item),
        ImageProcessor.redact_loop rt pil image redactions ocr_results = Ok image).
Proof.
  induction 1 as [|redaction redactions (items & -> & Htext) _ (IHt & IHp & IHi)].
  - repeat split.
  - assert (Hget : py_get (VDict items) (py "text") (VStr []) = Ok (VStr [])).
    { cbn [py_get]. destruct Htext as [->| ->]; reflexivity. }
    split; [|split].
    + intros content. cbn [TextProcessor.redact_loop]. rewrite Hget.
      cbn [mbind result_bind py_get truthy]. apply IHt.
    + intros m doc page_num. cbn [PDFProcessor.redact_page]. rewrite Hget.
      cbn [mbind result_bind truthy negb]. apply IHp.
    + intros pil image ocr_results. cbn [ImageProcessor.redact_loop]. rewrite Hget.
      cbn [mbind result_bind py_strip]. change (strip []) with (@nil N).
      cbn [truthy negb]. apply IHi.
Qed.

(** ** Missing files and missing libraries *)

(** When the input file does not exist, [extract_text] of every processor
    raises, [apply_redactions] returns [False], the run ends with [success]
    false, and the world is not changed. *)
Theorem missing_input_file (rt : Runtime) (cfg : Config) (p : processor)
    (file_path : pystr) (w : world) :
  files w !! file_path = None ->
  (exists e,
     Processor.extract_text rt p file_path w = (Raise e, w)
     /\ exn_kind e = PlainException)
  /\ (forall redactions output_path,
        Processor.apply_redactions rt p file_path redactions output_path w
        = (Ok false, w))
  /\ exists res,
       Processor.process_file rt cfg p file_path w = (Ok res, w)
       /\ success res = false.
Proof.
  intros Hnone.
  assert (Hex : exists e,
             Processor.extract_text rt p file_path w = (Raise e, w)
             /\ exn_kind e = PlainException).
  { destruct p; cbn [Processor.extract_text].
    - unfold TextProcessor.extract_text, read_text. unfold_M. rewrite Hnone.
      eexists. split; reflexivity.
    - unfold PDFProcessor.extract_text, PDFProcessor.import_fitz, read_bytes. unfold_M.
      destruct (fitz rt) as [m|];
        [rewrite Hnone; cbn; destruct (exn_kind (fitz_open_missing m file_path))|];
        eexists; split; reflexivity.
    - unfold ImageProcessor.extract_text, ImageProcessor.import_easyocr, read_bytes.
      unfold_M.
      destruct (easyocr rt) as [ocr|];
        [rewrite Hnone; cbn; destruct (exn_kind (readtext_missing ocr file_path))|];
        eexists; split; reflexivity. }
  split; [exact Hex|]. split.
  - intros redactions output_path. destruct p; cbn [Processor.apply_redactions].
    + unfold TextProcessor.apply_redactions, read_text. unfold_M. rewrite Hnone.
      reflexivity.
    + unfold PDFProcessor.apply_redactions, PDFProcessor.import_fitz, read_bytes.
      unfold_M. destruct (fitz rt); [rewrite Hnone|]; reflexivity.
    + unfold ImageProcessor.apply_redactions, ImageProcessor.import_PIL,
        ImageProcessor.import_easyocr, read_bytes. unfold_M.
      destruct (PIL rt); [|reflexivity]. destruct (easyocr rt); [|reflexivity].
      rewrite Hnone. reflexivity.
  - destruct Hex as (e & Hex & _). eexists. split.
    + apply run_outcome_sound. eapply run_extract_failed, Hex.
    + reflexivity.
Qed.

(** Without PyMuPDF the PDF processor cannot extract or redact, and
    without EasyOCR the image processor cannot; the run then fails with the
    message of the missing library.  Without Pillow the image processor
    cannot redact. *)
Theorem missing_library (rt : Runtime) (cfg : Config) (file_path : pystr) (w : world) :
  (fitz rt = None ->
   PDFProcessor.extract_text rt file_path w
   = (Raise (Exn PlainException (py "PDF processing library not available")), w)
   /\ (forall redactions output_path,
         PDFProcessor.apply_redactions rt file_path redactions output_path w
         = (Ok false, w))
   /\ PDFProcessor.process_file rt cfg file_path w
      = (Ok (ProcessingResult_init false
               (py "Error processing PDF: " ++ py "PDF processing library not available")),
         w))
  /\ (easyocr rt = None ->
      ImageProcessor.extract_text rt file_path w
      = (Raise (Exn PlainException (py "OCR processing library not available")), w)
      /\ (forall redactions output_path,
            ImageProcessor.apply_redactions rt file_path redactions output_path w
            = (Ok false, w))
      /\ ImageProcessor.process_file rt cfg file_path w
         = (Ok (ProcessingResult_init false
                  (py "Error processing image: "
                   ++ py "OCR processing library not available")),
            w))
  /\ (PIL rt = None ->
      forall redactions output_path,
        ImageProcessor.apply_redactions rt file_path redactions output_path w
        = (Ok false, w)).
Proof.
  split; [|split].
  - intros Hnone.
    assert (Hex : PDFProcessor.extract_text rt file_path w
                  = (Raise (Exn PlainException
                              (py "PDF processing library not available")), w)).
    { unfold PDFProcessor.extract_text, PDFProcessor.import_fitz. unfold_M.
      rewrite Hnone. reflexivity. }
    split; [exact Hex|]. split.
    + intros redactions output_path.
      unfold PDFProcessor.apply_redactions, PDFProcessor.import_fitz. unfold_M.
      rewrite Hnone. reflexivity.
    + apply (run_outcome_sound rt cfg PDFProc file_path w).
      apply (run_extract_failed rt cfg PDFProc file_path w _ Hex).
  - intros Hnone.
    assert (Hex : ImageProcessor.extract_text rt file_path w
                  = (Raise (Exn PlainException
                              (py "OCR processing library not available")), w)).
    { unfold ImageProcessor.extract_text, ImageProcessor.import_easyocr. unfold_M.
      rewrite Hnone. reflexivity. }
    split; [exact Hex|]. split.
    + intros redactions output_path.
      unfold ImageProcessor.apply_redactions, ImageProcessor.import_PIL,
        ImageProcessor.import_easyocr. unfold_M.
      rewrite Hnone. destruct (PIL rt); reflexivity.
    + apply (run_outcome_sound rt cfg ImageProc file_path w).
      apply (run_extract_failed rt cfg ImageProc file_path w _ Hex).
  - intros Hnone redactions output_path.
    unfold ImageProcessor.apply_redactions, ImageProcessor.import_PIL. unfold_M.
    rewrite Hnone. reflexivity.
Qed.

(** ** The availability check *)

Lemma model_names_entries (ms names : list pyval) :
  OllamaService.model_names ms = Ok names <-> Forall2 model_entry ms names.
Proof.
  revert names. induction ms as [|m ms IH]; intros names;
    cbn [OllamaService.model_names].
  - split; [intros [= <-]; constructor|intros H; inversion H; reflexivity].
  - split.
    + destruct (py_getitem m (py "name")) as [name|e] eqn:Hm; [|discriminate].
      cbn [mbind result_bind].
      destruct (OllamaService.model_names ms) as [names'|e]; [|discriminate].
      intros [= <-]. constructor; [exact Hm|]. apply IH. reflexivity.
    + intros H. inversion H as [|? name ? names' Hm Hrest]; subst.
      unfold model_entry in Hm. rewrite Hm. cbn [mbind result_bind].
      apply IH in Hrest. rewrite Hrest. reflexivity.
Qed.

Lemma existsb_py_eq_str (names : list pyval) (s : pystr) :
  existsb (fun name => OllamaService.py_eq_str name s) names = true
  <-> In (VStr s) names.
Proof.
  rewrite existsb_exists. split.
  - intros (name & Hin & Heq). destruct name; try discriminate.
    cbn in Heq. apply pystr_eqb_eq in Heq as ->. exact Hin.
  - intros Hin. exists (VStr s). split; [exact Hin|].
    cbn. apply pystr_eqb_eq. reflexivity.
Qed.

(** [is_available] never raises.  It is true exactly when the listing
    succeeds, every listed entry has a [name], and one of the names is the
    configured model; one entry without a [name] makes it false. *)
Theorem is_available_spec (cfg : Config) :
  (forall e, OllamaService.is_available cfg (Raise e) = false)
  /\ (forall response ms,
        py_getitem response (py "models") = Ok (VList ms) ->
        (OllamaService.is_available cfg (Ok response) = true
         <-> exists names,
               Forall2 model_entry ms names /\ In (VStr (OLLAMA_MODEL cfg)) names))
  /\ (forall response ms m e,
        py_getitem response (py "models") = Ok (VList ms) ->
        In m ms ->
        py_getitem m (py "name") = Raise e ->
        OllamaService.is_available cfg (Ok response) = false).
Proof.
  split; [reflexivity|]. split.
  - intros response ms Hms. unfold OllamaService.is_available.
    cbn [mbind result_bind]. rewrite Hms. cbn [mbind result_bind py_iter].
    destruct (OllamaService.model_names ms) as [names|e] eqn:Hnames;
      cbn [mbind result_bind].
    + rewrite existsb_py_eq_str. split.
      * intros Hin. exists names. split; [apply model_names_entries, Hnames|exact Hin].
      * intros (names' & Hentries & Hin). apply model_names_entries in Hentries.
        rewrite Hnames in Hentries. injection Hentries as <-. exact Hin.
    + split; [discriminate|]. intros (names' & Hentries & _).
      apply model_names_entries in Hentries. rewrite Hnames in Hentries. discriminate.
  - intros response ms m e Hms Hin Hm. unfold OllamaService.is_available.
    cbn [mbind result_bind]. rewrite Hms. cbn [mbind result_bind py_iter].
    destruct (OllamaService.model_names ms) as [names|e'] eqn:Hnames; [|reflexivity].
    exfalso. apply model_names_entries in Hnames.
    clear Hms. induction Hnames as [|m' name ms names Hm' _ IH]; [destruct Hin|].
    destruct Hin as [->|Hin]; [|exact (IH Hin)].
    unfold model_entry in Hm'. rewrite Hm in Hm'. discriminate.
Qed.

(** ** UTF-8 and the text processor *)

Ltac decide_tests :=
  repeat (cbv beta iota; match goal with
         | |- context [N.eqb ?a ?b] =>
             first [ replace (N.eqb a b) with true by (symmetry; apply N.eqb_eq; lia)
                   | replace (N.eqb a b) with false by (symmetry; apply N.eqb_neq; lia)
                   | destruct (N.eqb_spec a b) ]
         | |- context [N.ltb ?a ?b] =>
             first [ replace (N.ltb a b) with true by (symmetry; apply N.ltb_lt; lia)
                   | replace (N.ltb a b) with false by (symmetry; apply N.ltb_ge; lia)
                   | destruct (N.ltb_spec a b) ]
         | |- context [N.leb ?a ?b] =>
             first [ replace (N.leb a b) with true by (symmetry; apply N.leb_le; lia)
                   | replace (N.leb a b) with false by (symmetry; apply N.leb_gt; lia)
                   | destruct (N.leb_spec a b) ]
         end); cbv beta iota.

Ltac split64 x q r :=
  let Hd := fresh "Hd" in
  let Hm := fresh "Hm" in
  pose proof (N.Div0.div_mod x 64) as Hd;
  pose proof (N.mod_lt x 64 ltac:(discriminate)) as Hm;
  set (q := x / 64) in *; set (r := x mod 64) in *; clearbody q r.

Lemma div_4096 (c : N) : c / 4096 = c / 64 / 64.
Proof. rewrite N.Div0.div_div. reflexivity. Qed.

Lemma div_262144 (c : N) : c / 262144 = c / 64 / 64 / 64.
Proof. rewrite !N.Div0.div_div. reflexivity. Qed.

Lemma utf8_encode_cp_decode (c : N) (b rest : list N) :
  utf8_encode_cp c = Some b ->
  utf8_decode (b ++ rest) = cons c <$> utf8_decode rest.
Proof.
  unfold utf8_encode_cp. rewrite div_4096, div_262144.
  destruct (N.ltb_spec c 128) as [H1|H1].
  { intros [= <-]. cbn [app utf8_decode]. decide_tests. reflexivity. }
  split64 c q0 r0. split64 q0 q1 r1. split64 q1 q2 r2.
  destruct (N.ltb_spec c 2048) as [H2|H2].
  { intros [= <-]. cbn [app utf8_decode]. unfold is_cont.
    decide_tests; cbn [andb]; f_equal; f_equal; lia. }
  destruct (N.ltb_spec c 65536) as [H3|H3].
  { destruct (N.leb_spec 55296 c) as [H4|H4]; cbn [andb].
    - destruct (N.leb_spec c 57343) as [H5|H5]; [discriminate|].
      intros [= <-]. cbn [app utf8_decode]. unfold is_cont.
      decide_tests; cbn [andb]; f_equal; f_equal; lia.
    - intros [= <-]. cbn [app utf8_decode]. unfold is_cont.
      decide_tests; cbn [andb]; f_equal; f_equal; lia. }
  destruct (N.ltb_spec c 1114112) as [H4|H4]; [|discriminate].
  intros [= <-]. cbn [app utf8_decode]. unfold is_cont.
  decide_tests; cbn [andb]; f_equal; f_equal; lia.
Qed.

Ltac bool_hyps :=
  repeat match goal with
         | H : andb _ _ = true |- _ => apply andb_true_iff in H; destruct H
         | H : N.leb _ _ = true |- _ => apply N.leb_le in H
         | H : N.ltb _ _ = true |- _ => apply N.ltb_lt in H
         | H : N.ltb _ _ = false |- _ => apply N.ltb_ge in H
         end.

Lemma utf8_decode_cons (b0 : N) (r0 : list N) (s : pystr) :
  utf8_decode (b0 :: r0) = Some s ->
  exists c b rest s',
    b0 :: r0 = b ++ rest /\ (length rest < length (b0 :: r0))%nat
    /\ s = c :: s' /\ utf8_encode_cp c = Some b /\ utf8_decode rest = Some s'.
Proof.
  cbn [utf8_decode]. unfold is_cont.
  destruct (b0 <? 128) eqn:H1.
  { destruct (utf8_decode r0) as [s'|] eqn:Hr; [|discriminate]. intros [= <-].
    exists b0, [b0], r0, s'.
    split; [reflexivity|]. split; [cbn; lia|]. split; [reflexivity|].
    split; [|exact Hr].
    unfold utf8_encode_cp. rewrite H1. reflexivity. }
  destruct ((194 <=? b0) && (b0 <=? 223)) eqn:H2.
  { destruct r0 as [|b1 r1]; [discriminate|].
    destruct ((128 <=? b1) && (b1 <=? 191)) eqn:H3; [|discriminate].
    destruct (utf8_decode r1) as [s'|] eqn:Hr; [|discriminate]. intros [= <-].
    bool_hyps.
    exists ((b0 - 192) * 64 + (b1 - 128)), [b0; b1], r1, s'.
    split; [reflexivity|]. split; [cbn; lia|]. split; [reflexivity|].
    split; [|exact Hr].
    unfold utf8_encode_cp. rewrite div_4096, div_262144.
    split64 ((b0 - 192) * 64 + (b1 - 128)) q0 r0.
    decide_tests; cbn [andb]; first [exfalso; lia | repeat f_equal; lia]. }
  destruct ((224 <=? b0) && (b0 <=? 239)) eqn:H3.
  { destruct r0 as [|b1 [|b2 r2]]; try discriminate.
    destruct (N.eqb_spec b0 224) as [E1|E1], (N.eqb_spec b0 237) as [E2|E2];
      cbv beta iota;
      match goal with
      | |- (if ?cond then _ else None) = _ -> _ => destruct cond eqn:H4; [|discriminate]
      end;
      (destruct (utf8_decode r2) as [s'|] eqn:Hr; [|discriminate]); intros [= <-];
      bool_hyps;
      exists ((b0 - 224) * 4096 + (b1 - 128) * 64 + (b2 - 128)), [b0; b1; b2], r2, s';
      (split; [reflexivity|]); (split; [cbn; lia|]); (split; [reflexivity|]);
      (split; [|exact Hr]);
      unfold utf8_encode_cp; rewrite div_4096, div_262144;
      split64 ((b0 - 224) * 4096 + (b1 - 128) * 64 + (b2 - 128)) q0 r0;
      split64 q0 q1 r1;
      decide_tests; cbn [andb]; first [exfalso; lia | repeat f_equal; lia]. }
  destruct ((240 <=? b0) && (b0 <=? 244)) eqn:H4; [|discriminate].
  destruct r0 as [|b1 [|b2 [|b3 r3]]]; try discriminate.
  destruct (N.eqb_spec b0 240) as [E1|E1], (N.eqb_spec b0 244) as [E2|E2];
    cbv beta iota;
    match goal with
    | |- (if ?cond then _ else None) = _ -> _ => destruct cond eqn:H5; [|discriminate]
    end;
    (destruct (utf8_decode r3) as [s'|] eqn:Hr; [|discriminate]); intros [= <-];
    bool_hyps;
    exists ((b0 - 240) * 262144 + (b1 - 128) * 4096 + (b2 - 128) * 64 + (b3 - 128)),
      [b0; b1; b2; b3], r3, s';
    (split; [reflexivity|]); (split; [cbn; lia|]); (split; [reflexivity|]);
    (split; [|exact Hr]);
    unfold utf8_encode_cp; rewrite div_4096, div_262144;
    split64 ((b0 - 240) * 262144 + (b1 - 128) * 4096 + (b2 - 128) * 64 + (b3 - 128)) q0 r0;
    split64 q0 q1 r1; split64 q1 q2 r2;
    decide_tests; cbn [andb]; first [exfalso; lia | repeat f_equal; lia].
Qed.

Lemma utf8_decode_encode (bs : list N) :
  forall s, utf8_decode bs = Some s -> utf8_encode s = Some bs.
Proof.
  remember (length bs) as n eqn:Hn. revert bs Hn.
  induction n as [n IH] using lt_wf_ind. intros bs -> s.
  destruct bs as [|b0 r0].
  - intros [= <-]. reflexivity.
  - intros Hdec. apply utf8_decode_cons in Hdec
      as (c & b & rest & s' & Hbs & Hlen & -> & Hc & Hrest).
    cbn [utf8_encode]. rewrite Hc, (IH _ Hlen rest eq_refl s' Hrest), Hbs. reflexivity.
Qed.

Lemma utf8_encode_decode (s : pystr) :
  forall bs, utf8_encode s = Some bs -> utf8_decode bs = Some s.
Proof.
  induction s as [|c s IH]; intros bs; cbn [utf8_encode].
  - intros [= <-]. reflexivity.
  - destruct (utf8_encode_cp c) as [b|] eqn:Hc; [|discriminate].
    destruct (utf8_encode s) as [rest|]; [|discriminate]. intros [= <-].
    rewrite (utf8_encode_cp_decode c b rest Hc), (IH rest eq_refl). reflexivity.
Qed.

Lemma utf8_encode_cp_bytes (c : N) (b : list N) :
  utf8_encode_cp c = Some b -> Forall (fun x => x < 256) b.
Proof.
  unfold utf8_encode_cp. rewrite div_4096, div_262144.
  split64 c q0 r0. split64 q0 q1 r1. split64 q1 q2 r2.
  destruct (c <? 128) eqn:H1; [intros [= <-]; bool_hyps; repeat constructor; lia|].
  destruct (c <? 2048) eqn:H2; [intros [= <-]; bool_hyps; repeat constructor; lia|].
  destruct (c <? 65536) eqn:H3.
  { destruct (_ && _); [discriminate|]. intros [= <-]. bool_hyps.
    repeat constructor; lia. }
  destruct (c <? 1114112) eqn:H4; [|discriminate].
  intros [= <-]. bool_hyps. repeat constructor; lia.
Qed.

Lemma utf8_encode_bytes (s : pystr) (bs : list N) :
  utf8_encode s = Some bs -> Forall (fun x => x < 256) bs.
Proof.
  revert bs. induction s as [|c s IH]; intros bs; cbn [utf8_encode].
  - intros [= <-]. constructor.
  - destruct (utf8_encode_cp c) as [b|] eqn:Hc; [|discriminate].
    destruct (utf8_encode s) as [rest|]; [|discriminate]. intros [= <-].
    apply Forall_app. split; [eapply utf8_encode_cp_bytes, Hc|apply IH; reflexivity].
Qed.

Lemma utf8_encode_encodable (s : pystr) :
  forallb encodable s = true <-> exists bs, utf8_encode s = Some bs.
Proof.
  induction s as [|c s IH]; cbn [forallb utf8_encode].
  - split; [eauto|reflexivity].
  - unfold encodable at 1. destruct (utf8_encode_cp c) as [b|]; cbn [andb].
    + rewrite IH. destruct (utf8_encode s) as [rest|].
      * split; eauto.
      * split; [intros [? [=]]|intros [? [=]]].
    + split; [discriminate|intros [? [=]]].
Qed.

Lemma to_N_byte_of_N (bs : list N) :
  Forall (fun x => x < 256) bs -> List.map Byte.to_N (List.map byte_of_N bs) = bs.
Proof.
  induction 1 as [|x bs Hx _ IH]; [reflexivity|]. cbn [List.map]. rewrite IH.
  f_equal. unfold byte_of_N. destruct (Byte.of_N x) as [b|] eqn:Hb.
  - apply Byte.to_of_N, Hb.
  - apply Byte.of_N_None_iff in Hb. lia.
Qed.

Lemma byte_of_N_to_N (data : list Byte.byte) :
  List.map byte_of_N (List.map Byte.to_N data) = data.
Proof.
  induction data as [|b data IH]; [reflexivity|]. cbn [List.map]. rewrite IH.
  f_equal. unfold byte_of_N. rewrite Byte.of_to_N. reflexivity.
Qed.

Lemma universal_newlines_forallb (Q P : N -> bool) :
  P 10 = true ->
  (forall c, c <> 13 -> Q c = true -> P c = true) ->
  forall n s, (length s <= n)%nat -> forallb Q s = true ->
              forallb P (universal_newlines s) = true.
Proof.
  intros H10 HQP. induction n as [|n IH]; intros [|c rest] Hlen HQ;
    try reflexivity; cbn [length] in Hlen; [lia|].
  cbn [forallb] in HQ. apply andb_true_iff in HQ as [Hc Hrest].
  cbn [universal_newlines]. destruct (N.eqb_spec c 13) as [->|Hne].
  - cbn [forallb]. rewrite H10. cbn [andb].
    destruct rest as [|d rest']; [reflexivity|].
    cbn [forallb] in Hrest. apply andb_true_iff in Hrest as [Hd Hrest'].
    cbn [length] in Hlen.
    destruct (d =? 10).
    + apply IH; [lia|exact Hrest'].
    + apply IH; [cbn [length]; lia|]. cbn [forallb]. rewrite Hd, Hrest'. reflexivity.
  - cbn [forallb]. rewrite (HQP c Hne Hc). cbn [andb]. apply IH; [lia|exact Hrest].
Qed.

Lemma universal_newlines_id (s : pystr) :
  forallb (fun c => negb (c =? 13)) s = true -> universal_newlines s = s.
Proof.
  induction s as [|c s IH]; [reflexivity|]. cbn [forallb universal_newlines].
  intros [Hc Hs]%andb_true_iff. destruct (c =? 13); [discriminate|].
  rewrite (IH Hs). reflexivity.
Qed.

Lemma replace_from_forallb (P : N -> bool) (old new : pystr) :
  forallb P new = true ->
  forall s skip, forallb P s = true -> forallb P (replace_from old new skip s) = true.
Proof.
  intros Hnew. induction s as [|c s IH]; intros skip Hs; [reflexivity|].
  cbn [forallb] in Hs. apply andb_true_iff in Hs as [Hc Hs].
  cbn [replace_from]. destruct skip as [|k]; [|apply IH, Hs].
  destruct (starts_with old (c :: s)).
  - rewrite forallb_app, Hnew. apply IH, Hs.
  - cbn [forallb]. rewrite Hc. apply IH, Hs.
Qed.

Lemma replace_forallb (P : N -> bool) (s old new : pystr) :
  forallb P s = true -> forallb P new = true -> forallb P (replace s old new) = true.
Proof.
  intros Hs Hnew. unfold replace. destruct old as [|o old].
  - rewrite forallb_app, Hnew. cbn [andb].
    induction s as [|c s IH]; [reflexivity|].
    cbn [forallb] in Hs. apply andb_true_iff in Hs as [Hc Hs].
    cbn [flat_map]. cbn [app forallb]. rewrite Hc, forallb_app, Hnew. apply IH, Hs.
  - apply replace_from_forallb; assumption.
Qed.

Lemma replace_no_occurrence (s old new : pystr) :
  old <> [] -> contains old s = false -> replace s old new = s.
Proof.
  intros Hold. unfold replace. destruct old as [|o old]; [congruence|]. clear Hold.
  induction s as [|c s IH]; [reflexivity|].
  cbn [contains replace_from]. intros [Hst Hrest]%orb_false_iff.
  rewrite Hst. f_equal. apply IH. exact Hrest.
Qed.

Lemma table_replacement_clean (rt : Runtime) (cat : pystr) :
  forallb clean (table_replacement rt cat) = true.
Proof.
  unfold table_replacement.
  destruct (assoc (lower rt cat) OllamaService.replacements) as [r|] eqn:Hr;
    [|reflexivity].
  apply assoc_In in Hr. unfold OllamaService.replacements in Hr. cbn [In] in Hr.
  repeat (destruct Hr as [[= _ <-]|Hr]; [reflexivity|]). destruct Hr.
Qed.

Lemma redact_loop_suggestions (rt : Runtime) (fs : list Finding) :
  forall content,
    TextProcessor.redact_loop (List.map (suggestion_of rt) fs) content
    = Ok (fold_left (redact_one rt) fs content).
Proof.
  induction fs as [|f fs IH]; intros content; [reflexivity|].
  cbn [List.map TextProcessor.redact_loop fold_left].
  change (py_get (suggestion_of rt f) (py "text") (VStr []))
    with (Ok (VStr (literal_text f))).
  change (py_get (suggestion_of rt f) (py "replacement") (VStr (py "[REDACTED]")))
    with (Ok (VStr (table_replacement rt (category f)))).
  cbn [mbind result_bind truthy py_replace]. unfold redact_one at 2.
  destruct (literal_text f) as [|c t]; cbn [mbind result_bind]; apply IH.
Qed.

Lemma redact_one_clean (rt : Runtime) (fs : list Finding) :
  forall content,
    forallb clean content = true ->
    forallb clean (fold_left (redact_one rt) fs content) = true.
Proof.
  induction fs as [|f fs IH]; intros content Hc; [exact Hc|].
  cbn [fold_left]. apply IH. unfold redact_one.
  destruct (literal_text f); [exact Hc|].
  apply replace_forallb; [exact Hc|apply table_replacement_clean].
Qed.

Lemma clean_encodable (s : pystr) : forallb clean s = true -> forallb encodable s = true.
Proof.
  rewrite !forallb_forall. intros H c Hin. specialize (H c Hin).
  unfold clean in H. apply andb_true_iff in H as [H _]. exact H.
Qed.

Lemma clean_no_cr (s : pystr) :
  forallb clean s = true -> forallb (fun c => negb (c =? 13)) s = true.
Proof.
  rewrite !forallb_forall. intros H c Hin. specialize (H c Hin).
  unfold clean in H. apply andb_true_iff in H as [_ H]. exact H.
Qed.

Lemma read_back (path : pystr) (s : pystr) (bs : list N) (w : world) :
  utf8_encode s = Some bs ->
  files w !! path = Some (List.map byte_of_N bs) ->
  read_text path UTF8 w = (Ok (universal_newlines s), w).
Proof.
  intros Henc Hfile. unfold read_text. rewrite Hfile. unfold decode.
  rewrite (to_N_byte_of_N bs (utf8_encode_bytes s bs Henc)).
  rewrite (utf8_encode_decode s bs Henc). reflexivity.
Qed.

(** For a UTF-8 text file and the suggestions of well-formed findings,
    [apply_redactions] always returns [True]; it changes no file but the
    output, and [extract_text] reads from the output the text in which the
    findings were replaced one after the other, each in the text left by the
    ones before it. *)
Theorem text_redaction_round_trip (rt : Runtime) (file_path output_path : pystr)
    (data : list Byte.byte) (content : pystr) (fs : list Finding) (w : world) :
  files w !! file_path = Some data ->
  utf8_decode (List.map Byte.to_N data) = Some content ->
  exists w',
    TextProcessor.apply_redactions file_path
      (VList (List.map (suggestion_of rt) fs)) output_path w = (Ok true, w')
    /\ (forall q, q <> output_path -> files w' !! q = files w !! q)
    /\ TextProcessor.extract_text output_path w'
       = (Ok (fold_left (redact_one rt) fs (universal_newlines content)), w').
Proof.
  intros Hfile Hdec.
  assert (Hclean : forallb clean
                     (fold_left (redact_one rt) fs (universal_newlines content)) = true).
  { apply redact_one_clean.
    apply (universal_newlines_forallb encodable clean) with (n := length content).
    - reflexivity.
    - intros c Hc He. unfold clean. rewrite He. cbn [andb].
      apply negb_true_iff, N.eqb_neq, Hc.
    - lia.
    - apply utf8_encode_encodable. exists (List.map Byte.to_N data).
      apply utf8_decode_encode, Hdec. }
  destruct (proj1 (utf8_encode_encodable _) (clean_encodable _ Hclean)) as [bs Hbs].
  eexists. split; [|split].
  - unfold TextProcessor.apply_redactions, read_text, write_text. unfold_M.
    rewrite Hfile. unfold decode, encode. rewrite Hdec.
    cbn [fmap result_fmap py_iter]. rewrite redact_loop_suggestions, Hbs.
    reflexivity.
  - intros q Hq. cbn [files set_files]. apply lookup_insert_ne. congruence.
  - unfold TextProcessor.extract_text. unfold_M.
    rewrite (read_back output_path
               (fold_left (redact_one rt) fs (universal_newlines content)) bs _ Hbs);
      [|cbn [files set_files]; apply lookup_insert_eq].
    rewrite (universal_newlines_id _ (clean_no_cr _ Hclean)). reflexivity.
Qed.

Lemma fold_redact_unmatched (rt : Runtime) (content : pystr) (fs : list Finding) :
  Forall (fun f => literal_text f = [] \/ contains (literal_text f) content = false) fs ->
  fold_left (redact_one rt) fs content = content.
Proof.
  induction 1 as [|f fs Hf _ IH]; [reflexivity|]. cbn [fold_left].
  replace (redact_one rt content f) with content; [exact IH|].
  unfold redact_one. destruct Hf as [->|Hf]; [reflexivity|].
  destruct (literal_text f) as [|c t] eqn:Ht; [reflexivity|].
  symmetry. apply replace_no_occurrence; [discriminate|exact Hf].
Qed.

(** When no suggestion text occurs in a UTF-8 file without carriage
    returns, [apply_redactions] still returns [True], and the output file is
    a copy of the input, byte for byte. *)
Theorem unmatched_suggestions_copy_the_file (rt : Runtime)
    (file_path output_path : pystr) (data : list Byte.byte) (content : pystr)
    (fs : list Finding) (w : world) :
  files w !! file_path = Some data ->
  utf8_decode (List.map Byte.to_N data) = Some content ->
  ~ In 13 content ->
  Forall (fun f => literal_text f = [] \/ contains (literal_text f) content = false) fs ->
  exists w',
    TextProcessor.apply_redactions file_path
      (VList (List.map (suggestion_of rt) fs)) output_path w = (Ok true, w')
    /\ files w' !! output_path = Some data.
Proof.
  intros Hfile Hdec Hcr Hfs.
  assert (Hid : universal_newlines content = content).
  { apply universal_newlines_id, forallb_forall. intros c Hin.
    apply negb_true_iff, N.eqb_neq. intros ->. exact (Hcr Hin). }
  eexists. split.
  - unfold TextProcessor.apply_redactions, read_text, write_text. unfold_M.
    rewrite Hfile. unfold decode, encode. rewrite Hdec.
    cbn [fmap result_fmap py_iter]. rewrite redact_loop_suggestions, Hid.
    rewrite (fold_redact_unmatched rt content fs Hfs).
    rewrite (utf8_decode_encode _ _ Hdec). reflexivity.
  - cbn [files set_files]. rewrite lookup_insert_eq, byte_of_N_to_N. reflexivity.
Qed.

(** [TextProcessor.extract_text] reads every file that exists: as UTF-8
    when the bytes are UTF-8, as latin-1 otherwise, with the line ends
    translated. *)
Theorem text_extraction_reads_every_file (file_path : pystr) (data : list Byte.byte)
    (w : world) :
  files w !! file_path = Some data ->
  TextProcessor.extract_text file_path w
  = (Ok (universal_newlines
           match utf8_decode (List.map Byte.to_N data) with
           | Some content => content
           | None => List.map Byte.to_N data
           end), w).
Proof.
  intros Hfile. destruct (utf8_decode (List.map Byte.to_N data)) as [content|] eqn:Hdec.
  - unfold TextProcessor.extract_text, read_text. unfold_M. rewrite Hfile.
    unfold decode. rewrite Hdec. reflexivity.
  - apply extract_text_latin1; assumption.
Qed.

(** ** The further properties at concrete inputs *)

Lemma unreachable_model_reports_no_pii_witness :
  Processor.process_file Scenario.rt_offline Scenario.cfg TextProc (py "contact.txt")
    Scenario.contact_world
  = (Ok {| success := true;
           message := py "No sensitive information detected in text file";
           extracted_text := py Scenario.contact_text; output_file := None;
           pii_found := false; redaction_count := 0 |},
     after_chat (OllamaService.prompt (py Scenario.contact_text)) Scenario.contact_world).
Proof.
  apply (unreachable_model_reports_no_pii Scenario.rt_offline Scenario.cfg TextProc
           (py "contact.txt") Scenario.contact_world (py Scenario.contact_text)
           (Exn LibraryError (py "Connection refused"))).
  - vm_compute. reflexivity.
  - vm_compute. discriminate.
  - reflexivity.
Defined.

Lemma non_json_answer_redacts_nothing_witness :
  Processor.process_file (Scenario.rt (py "I found a name.")) Scenario.cfg TextProc
    (py "contact.txt") Scenario.contact_world
  = (Ok {| success := true;
           message := py "No redactions needed based on confidence threshold";
           extracted_text := py Scenario.contact_text; output_file := None;
           pii_found := true; redaction_count := 0 |},
     after_chat (OllamaService.prompt (py Scenario.contact_text)) Scenario.contact_world)
  /\ Processor.process_file
       (Scenario.rt_parsing (List.repeat 91 1000) Scenario.deep_nesting) Scenario.cfg
       TextProc (py "contact.txt") Scenario.contact_world
     = (Ok {| success := true;
              message := py "No sensitive information detected in text file";
              extracted_text := py Scenario.contact_text; output_file := None;
              pii_found := false; redaction_count := 0 |},
        after_chat (OllamaService.prompt (py Scenario.contact_text)) Scenario.contact_world).
Proof.
  split.
  - apply (non_json_answer_redacts_nothing (Scenario.rt (py "I found a name."))
             Scenario.cfg TextProc (py "contact.txt") Scenario.contact_world
             (py Scenario.contact_text) (py "I found a name.")
             (Exn JSONDecodeError (py "Expecting value: line 1 column 1 (char 0)"))).
    + vm_compute. reflexivity.
    + vm_compute. discriminate.
    + do 2 eexists. split; [reflexivity|]. split; vm_compute; reflexivity.
    + vm_compute. reflexivity.
  - apply (non_json_answer_redacts_nothing
             (Scenario.rt_parsing (List.repeat 91 1000) Scenario.deep_nesting)
             Scenario.cfg TextProc (py "contact.txt") Scenario.contact_world
             (py Scenario.contact_text) (List.repeat 91 1000)
             (Exn RecursionError
                (py "maximum recursion depth exceeded while decoding a JSON array from a unicode string"))).
    + vm_compute. reflexivity.
    + vm_compute. discriminate.
    + do 2 eexists. split; [reflexivity|]. split; vm_compute; reflexivity.
    + reflexivity.
Defined.

Lemma non_object_answer_fails_witness :
  Processor.process_file (Scenario.rt_parsing (py "[]") (Ok (VList []))) Scenario.cfg
    TextProc (py "contact.txt") Scenario.contact_world
  = (Ok (ProcessingResult_init false
           (py "Error processing text file: 'list' object has no attribute 'get'")),
     after_chat (OllamaService.prompt (py Scenario.contact_text)) Scenario.contact_world).
Proof.
  apply (non_object_answer_fails (Scenario.rt_parsing (py "[]") (Ok (VList [])))
           Scenario.cfg TextProc (py "contact.txt") Scenario.contact_world
           (py Scenario.contact_text) (py "[]") (VList [])).
  - vm_compute. reflexivity.
  - vm_compute. discriminate.
  - do 2 eexists. split; [reflexivity|]. split; vm_compute; reflexivity.
  - reflexivity.
  - discriminate.
Defined.

Lemma details_ignored_without_flag_witness :
  Processor.process_file
    (Scenario.rt_parsing (py "{}")
       (Ok (VDict [(py "details", VList [Scenario.finding_name])])))
    Scenario.cfg TextProc (py "contact.txt") Scenario.contact_world
  = (Ok {| success := true;
           message := py "No sensitive information detected in text file";
           extracted_text := py Scenario.contact_text; output_file := None;
           pii_found := false; redaction_count := 0 |},
     after_chat (OllamaService.prompt (py Scenario.contact_text)) Scenario.contact_world).
Proof.
  apply (details_ignored_without_flag
           (Scenario.rt_parsing (py "{}")
              (Ok (VDict [(py "details", VList [Scenario.finding_name])])))
           Scenario.cfg TextProc (py "contact.txt") Scenario.contact_world
           (py Scenario.contact_text) (py "{}")
           [(py "details", VList [Scenario.finding_name])]).
  - vm_compute. reflexivity.
  - vm_compute. discriminate.
  - do 2 eexists. split; [reflexivity|]. split; vm_compute; reflexivity.
  - reflexivity.
  - vm_compute. exact I.
Defined.

(** The finding without a text has the confidence 0.1: it is skipped at
    both thresholds. *)
Lemma higher_threshold_gives_sublist_witness :
  exists l1 l2,
    suggestion_set (List.map (suggestion_of (Scenario.rt [])) Scenario.findings)
    = suggestion_set l1
    /\ OllamaService.generate_redaction_suggestions (Scenario.rt [])
         (Scenario.cfg_at (Finite (92 # 100)))
         (VDict [ (py "found_pii", VBool true);
                  (py "details",
                   VList [ Scenario.finding_name;
                           VDict [(py "confidence", VFloat (Finite (1 # 10)))];
                           Scenario.finding_email ]) ])
       = Ok (suggestion_set l2)
    /\ sublist l2 l1.
Proof.
  apply (higher_threshold_gives_sublist (Scenario.rt [])
           (Scenario.cfg_at (Finite (8 # 10))) (Scenario.cfg_at (Finite (92 # 100)))).
  - reflexivity.
  - vm_compute. reflexivity.
Defined.

Lemma finding_without_text_fails_the_run_witness :
  exists res,
    Processor.process_file
      (Scenario.rt_parsing (py "{}")
         (Ok (VDict [ (py "found_pii", VBool true);
                      (py "details",
                       VList [ Scenario.finding_email;
                               VDict [ (py "type", VStr (py "name"));
                                       (py "confidence", VFloat (Finite (9 # 10))) ] ]) ])))
      Scenario.cfg TextProc (py "contact.txt") Scenario.contact_world
    = (Ok res,
       after_chat (OllamaService.prompt (py Scenario.contact_text)) Scenario.contact_world)
    /\ success res = false.
Proof.
  refine (proj2 (finding_without_text_fails_the_run
           (Scenario.rt_parsing (py "{}")
              (Ok (VDict [ (py "found_pii", VBool true);
                           (py "details",
                            VList [ Scenario.finding_email;
                                    VDict [ (py "type", VStr (py "name"));
                                            (py "confidence",
                                             VFloat (Finite (9 # 10))) ] ]) ])))
           Scenario.cfg TextProc (py "contact.txt") Scenario.contact_world
           (after_chat (OllamaService.prompt (py Scenario.contact_text))
              Scenario.contact_world)
           (py Scenario.contact_text)
           [ (py "found_pii", VBool true);
             (py "details",
              VList [ Scenario.finding_email;
                      VDict [ (py "type", VStr (py "name"));
                              (py "confidence", VFloat (Finite (9 # 10))) ] ]) ]
           (VBool true)
           [ Scenario.finding_email;
             VDict [ (py "type", VStr (py "name"));
                     (py "confidence", VFloat (Finite (9 # 10))) ] ]
           (VDict [ (py "type", VStr (py "name"));
                    (py "confidence", VFloat (Finite (9 # 10))) ])
           (VFloat (Finite (9 # 10)))
           (Exn KeyError (quoted (py "text")))
           _ _ _ _ _ _ _ _ _ _)).
  - vm_compute. reflexivity.
  - vm_compute. discriminate.
  - vm_compute. reflexivity.
  - vm_compute. reflexivity.
  - reflexivity.
  - vm_compute. reflexivity.
  - right. left. reflexivity.
  - vm_compute. reflexivity.
  - vm_compute. reflexivity.
  - vm_compute. reflexivity.
Defined.

Lemma replacement_shape_witness :
  ((exists body, py "[DOB REDACTED]" = py "[" ++ body ++ py " REDACTED]")
   /\ is_ascii (py "[DOB REDACTED]") = true)
  /\ OllamaService._generate_replacement (Scenario.rt []) (VStr (py "EMAIL"))
     = OllamaService._generate_replacement (Scenario.rt []) (VStr (py "email"))
  /\ exists e,
       OllamaService._generate_replacement (Scenario.rt []) (VInt 7) = Raise e
       /\ exn_kind e = AttributeError.
Proof.
  destruct (replacement_shape (Scenario.rt [])) as (Hshape & Hcase & Hraise).
  split; [|split].
  - apply (Hshape (VStr (py "date_of_birth"))). vm_compute. reflexivity.
  - apply (Hcase (py "email")). reflexivity.
  - apply Hraise. discriminate.
Defined.

(** The output of the contact file is created; the name [a/b.txt] is
    refused, as its directory is missing. *)
Lemma create_temp_file_is_fresh_witness :
  (files Scenario.contact_world !! Scenario.temp_out "contact.txt" = None
   /\ files (create_temp_file (py "redacted_contact.txt") Scenario.contact_world).2
      !! Scenario.temp_out "contact.txt" = Some []
   /\ files (create_temp_file (py "redacted_contact.txt") Scenario.contact_world).2
      !! py "contact.txt" = files Scenario.contact_world !! py "contact.txt")
  /\ (create_temp_file (py "a/b.txt") Scenario.contact_world).1
     = Raise (Exn FileNotFoundError
                (py "[Errno 2] No such file or directory: '/app/temp/tmpk3x9q2ab_a/b.txt'"))
  /\ files (create_temp_file (py "a/b.txt") Scenario.contact_world).2
     = files Scenario.contact_world.
Proof.
  split; [|split; [vm_compute; reflexivity|]].
  - pose proof (create_temp_file_is_fresh (py "redacted_contact.txt")
                  Scenario.contact_world
                  (create_temp_file (py "redacted_contact.txt") Scenario.contact_world).2
                  (Ok (Scenario.temp_out "contact.txt"))) as H.
    destruct H as (_ & Hnone & _ & Hsome & Hframe & _); [vm_compute; reflexivity|].
    split; [exact Hnone|]. split; [exact Hsome|].
    apply Hframe. vm_compute. discriminate.
  - pose proof (create_temp_file_is_fresh (py "a/b.txt") Scenario.contact_world
                  (create_temp_file (py "a/b.txt") Scenario.contact_world).2
                  (Raise (Exn FileNotFoundError
                            (py "[Errno 2] No such file or directory: '/app/temp/tmpk3x9q2ab_a/b.txt'"))))
      as H.
    destruct H as [Hfiles _]; [vm_compute; reflexivity|exact Hfiles].
Defined.

Lemma cleanup_undoes_create_witness :
  exists w2,
    BaseProcessor.cleanup_temp_file (Scenario.temp_out "contact.txt")
      (create_temp_file (py "redacted_contact.txt") Scenario.contact_world).2
    = (Ok tt, w2)
    /\ files w2 = files Scenario.contact_world
    /\ chat_requests w2 = chat_requests Scenario.contact_world.
Proof.
  apply (cleanup_undoes_create (py "redacted_contact.txt") Scenario.contact_world).
  vm_compute. reflexivity.
Defined.

Lemma get_processor_normalises_witness :
  ProcessorFactory.get_processor (Scenario.rt []) (py "PDF") = Some PDFProc
  /\ ProcessorFactory.get_processor (Scenario.rt []) (py ".pdf") = Some PDFProc
  /\ ProcessorFactory.get_processor (Scenario.rt []) (py "pdf.") = Some PDFProc.
Proof.
  destruct (get_processor_normalises (Scenario.rt []) (py "pdf") eq_refl)
    as (Hcase & Hbefore & Hafter).
  split; [exact Hcase|]. split; [exact Hbefore|exact Hafter].
Defined.

Lemma registry_agrees_witness :
  BaseProcessor.is_supported (Scenario.rt []) ImageProc (py "jpeg") = true
  /\ ProcessorFactory.get_processor (Scenario.rt []) (py "PNG") = Some ImageProc
  /\ ProcessorFactory.is_supported (Scenario.rt []) (py "docx") = false.
Proof.
  destruct (registry_agrees (Scenario.rt [])) as (Hiff & Hfound & Hsupports & _).
  split; [|split].
  - apply (Hfound (py ".JPEG") ImageProc). reflexivity.
  - apply Hsupports. reflexivity.
  - destruct (ProcessorFactory.is_supported (Scenario.rt []) (py "docx")) eqn:Hs;
      [|reflexivity].
    apply Hiff in Hs as [p Hp]. vm_compute in Hp. discriminate.
Defined.

Lemma suggestions_without_text_are_skipped_witness :
  TextProcessor.redact_loop
    [ VDict [(py "replacement", VStr (py "[NAME REDACTED]"))];
      VDict [(py "text", VStr []); (py "replacement", VStr (py "[NAME REDACTED]"))] ]
    (py Scenario.contact_text)
  = Ok (py Scenario.contact_text).
Proof.
  apply (suggestions_without_text_are_skipped (Scenario.rt [])).
  constructor; [|constructor; [|constructor]].
  - eexists. split; [reflexivity|]. left. reflexivity.
  - eexists. split; [reflexivity|]. right. reflexivity.
Defined.

Lemma missing_input_file_witness :
  Processor.apply_redactions (Scenario.rt []) PDFProc (py "absent.pdf") (VList [])
    (py "redacted.pdf") Scenario.contact_world
  = (Ok false, Scenario.contact_world)
  /\ exists res,
       Processor.process_file (Scenario.rt []) Scenario.cfg PDFProc (py "absent.pdf")
         Scenario.contact_world = (Ok res, Scenario.contact_world)
       /\ success res = false.
Proof.
  destruct (missing_input_file (Scenario.rt []) Scenario.cfg PDFProc (py "absent.pdf")
              Scenario.contact_world) as (_ & Happly & Hrun).
  - vm_compute. reflexivity.
  - split; [apply Happly|exact Hrun].
Defined.

Lemma missing_library_witness :
  PDFProcessor.process_file Scenario.rt_bare Scenario.cfg (py "contact.txt")
    Scenario.contact_world
  = (Ok (ProcessingResult_init false
           (py "Error processing PDF: PDF processing library not available")),
     Scenario.contact_world)
  /\ ImageProcessor.apply_redactions Scenario.rt_bare (py "contact.txt") (VList [])
       (py "redacted.png") Scenario.contact_world
     = (Ok false, Scenario.contact_world).
Proof.
  destruct (missing_library Scenario.rt_bare Scenario.cfg (py "contact.txt")
              Scenario.contact_world) as (Hpdf & _ & Hpil).
  split.
  - exact (proj2 (proj2 (Hpdf eq_refl))).
  - apply Hpil. reflexivity.
Defined.

Lemma is_available_spec_witness :
  OllamaService.is_available Scenario.cfg
    (Ok (VDict [(py "models", VList [ VDict [(py "name", VStr (py "mistral"))];
                                      VDict [(py "name", VStr (py "llama3.2"))] ])]))
  = true
  /\ OllamaService.is_available Scenario.cfg
       (Ok (VDict [(py "models", VList [ VDict [(py "name", VStr (py "llama3.2"))];
                                         VDict [(py "model", VStr (py "mistral"))] ])]))
     = false.
Proof.
  destruct (is_available_spec Scenario.cfg) as (_ & Hiff & Hbad).
  split.
  - eapply Hiff; [reflexivity|].
    exists [VStr (py "mistral"); VStr (py "llama3.2")]. split.
    + repeat constructor.
    + right. left. reflexivity.
  - eapply (Hbad _ _ (VDict [(py "model", VStr (py "mistral"))])).
    + reflexivity.
    + right. left. reflexivity.
    + vm_compute. reflexivity.
Defined.

Lemma pdf_text_blank_only_without_pages_witness :
  page_count Scenario.toy_fitz ([] : Document Scenario.toy_fitz) = 0%nat.
Proof.
  apply (pdf_text_blank_only_without_pages (Scenario.rt []) Scenario.toy_fitz
           (py "empty.pdf") [] [] (Scenario.world_with "empty.pdf" [])
           (Scenario.world_with "empty.pdf" []) []).
  - reflexivity.
  - vm_compute. reflexivity.
  - reflexivity.
  - vm_compute. reflexivity.
  - reflexivity.
Defined.

Lemma text_redaction_round_trip_witness :
  exists w',
    TextProcessor.apply_redactions (py "contact.txt")
      (VList (List.map (suggestion_of (Scenario.rt [])) Scenario.findings))
      (py "redacted.txt") Scenario.contact_world = (Ok true, w')
    /\ (forall q, q <> py "redacted.txt" ->
                  files w' !! q = files Scenario.contact_world !! q)
    /\ TextProcessor.extract_text (py "redacted.txt") w'
       = (Ok (py "Contact [NAME REDACTED] at [EMAIL REDACTED]"), w').
Proof.
  apply (text_redaction_round_trip (Scenario.rt []) (py "contact.txt") (py "redacted.txt")
           (Scenario.ascii_bytes Scenario.contact_text) (py Scenario.contact_text)
           Scenario.findings Scenario.contact_world).
  - vm_compute. reflexivity.
  - vm_compute. reflexivity.
Defined.

Lemma unmatched_suggestions_copy_the_file_witness :
  exists w',
    TextProcessor.apply_redactions (py "contact.txt")
      (VList (List.map (suggestion_of (Scenario.rt []))
                [ {| category := py "phone"; literal_text := py "555-0100";
                     confidence := NFloat (Finite (9 # 10)) |} ]))
      (py "redacted.txt") Scenario.contact_world = (Ok true, w')
    /\ files w' !! py "redacted.txt"
       = Some (Scenario.ascii_bytes Scenario.contact_text).
Proof.
  apply (unmatched_suggestions_copy_the_file (Scenario.rt []) (py "contact.txt")
           (py "redacted.txt") (Scenario.ascii_bytes Scenario.contact_text)
           (py Scenario.contact_text)).
  - vm_compute. reflexivity.
  - vm_compute. reflexivity.
  - intros H. vm_compute in H.
    repeat (destruct H as [H|H]; [discriminate|]). exact H.
  - constructor; [|constructor]. right. vm_compute. reflexivity.
Defined.

Lemma text_extraction_reads_every_file_witness :
  TextProcessor.extract_text (py "notes.txt") Scenario.notes_world
  = (Ok (List.map Byte.to_N Scenario.latin1_bytes), Scenario.notes_world).
Proof.
  apply (text_extraction_reads_every_file (py "notes.txt") Scenario.latin1_bytes
           Scenario.notes_world).
  vm_compute. reflexivity.
Defined.

Lemma result_fields_witness :
  exists res w',
    Processor.process_file (Scenario.rt []) Scenario.cfg TextProc (py "absent.txt")
      Scenario.contact_world = (Ok res, w')
    /\ extracted_text res = [] /\ output_file res = None.
Proof.
  destruct (result_fields (Scenario.rt []) Scenario.cfg TextProc (py "absent.txt")
              Scenario.contact_world) as (res & w' & Hrun & Hfail & _ & _).
  exists res, w'. split; [exact Hrun|].
  destruct Hfail as (Htext & Hout & _).
  - vm_compute in Hrun. injection Hrun as Hres _. subst res. reflexivity.
  - split; assumption.
Defined.

Lemma extent_covers_box_witness :
  match ImageProcessor.extent [(1, 2); (3, 0)]%Q with
  | Ok (min_x, min_y, max_x, max_y) => (min_x <= 3)%Q /\ (0 <= max_y)%Q
  | Raise _ => False
  end.
Proof.
  pose proof (extent_covers_box [(1, 2); (3, 0)]%Q) as H.
  destruct (ImageProcessor.extent [(1, 2); (3, 0)]%Q)
    as [[[[min_x min_y] max_x] max_y]|e].
  - destruct H as [_ H].
    destruct (H 3 0)%Q as (Hx & _ & _ & Hy); [right; left; reflexivity|].
    split; assumption.
  - destruct H as [H _]. discriminate H.
Defined.
